(** * Galaxy simulation: the particle kernels and their controller

    A shallow embedding of [src/galaxy.js] (class [GalaxySimulation]) and of
    the frame loop of [src/main.js].  The TSL node graphs that the source
    builds with [Fn(() => ...)] are read as the arithmetic they denote, one
    invocation per [instanceIndex]; the 32-bit floats of the shader are
    idealised as real numbers. *)

From stdpp Require Import base option list strings gmap.
From Stdlib Require Import Reals Lra Lia Machin QArith Qround DecimalString DecimalZ.
From Stdlib Require Lqa.

Open Scope R_scope.

(** ** Vectors ([vec3], [vec4]) *)

Record vec3 : Type := Vec3 { vx : R; vy : R; vz : R }.
Record vec4 : Type := Vec4 { wx : R; wy : R; wz : R; ww : R }.

Definition vzero : vec3 := Vec3 0 0 0.
Definition vadd (a b : vec3) : vec3 := Vec3 (vx a + vx b) (vy a + vy b) (vz a + vz b).
Definition vsub (a b : vec3) : vec3 := Vec3 (vx a - vx b) (vy a - vy b) (vz a - vz b).
Definition vscale (k : R) (a : vec3) : vec3 := Vec3 (k * vx a) (k * vy a) (k * vz a).
Definition vlength (a : vec3) : R := sqrt (vx a * vx a + vy a * vy a + vz a * vz a).
Definition distance (a b : vec3) : R := vlength (vsub a b).

#[global] Instance vec3_inhabited : Inhabited vec3 := populate vzero.
#[global] Instance vec4_inhabited : Inhabited vec4 := populate (Vec4 0 0 0 0).
#[global] Instance R_inhabited : Inhabited R := populate 0.

(** ** Shader built-ins *)

(** [pow(x, y)]: the shading languages define it for [x >= 0] only, with
    [pow(0, y) = 0] for positive [y]; the kernels call it on hash values. *)
Definition pow (x y : R) : R := if Rlt_dec 0 x then Rpower x y else 0.

(** [floor(x)] *)
Definition floor (x : R) : R := IZR (Int_part x).


(** ** The imports from [./helpers.js]

    [galaxy.js] imports [hash], [applyDifferentialRotation],
    [applyMouseForce] and [applySpringForce] from this module.  The kernels
    are embedded against the interface, for any implementation of it. *)

Class Helpers : Type := {
  hash : R -> R;
  applyDifferentialRotation : vec3 -> R -> R -> vec3;
  applyMouseForce : vec3 -> vec3 -> R -> R -> R -> R -> vec3;
  applySpringForce : vec3 -> vec3 -> R -> R -> vec3
}.

(** ** Uniforms ([initializeUniforms]) *)

Record ComputeUniforms : Type := {
  compute_time : R;
  compute_deltaTime : R;
  compute_mouse : vec3;
  compute_mouseActive : R;
  compute_mouseForce : R;
  compute_mouseRadius : R;
  compute_rotationSpeed : R
}.

Record GalaxyUniforms : Type := {
  galaxy_radius : R;
  galaxy_thickness : R;
  galaxy_spiralTightness : R;
  galaxy_armCount : R;
  galaxy_armWidth : R;
  galaxy_randomness : R
}.

Record VisualUniforms : Type := {
  visual_particleSize : R;
  visual_cloudSize : R;
  visual_cloudOpacity : R;
  visual_starBrightness : R;
  visual_denseStarColor : vec3;
  visual_sparseStarColor : vec3;
  visual_cloudTintColor : vec3
}.

Record Uniforms : Type := {
  compute : ComputeUniforms;
  galaxy : GalaxyUniforms;
  visual : VisualUniforms
}.

(** ** Storage buffers *)

Record StarBuffers : Type := {
  spawnPositionBuffer : list vec3;
  originalPositionBuffer : list vec3;
  velocityBuffer : list vec3;
  densityFactorBuffer : list R
}.

Record CloudBuffers : Type := {
  cloudPositionBuffer : list vec3;
  cloudOriginalPositionBuffer : list vec3;
  cloudColorSizeBuffer : list vec4;
  cloudRotationBuffer : list R
}.

(** [instancedArray(count, type)]: a zero-filled buffer of [count] elements. *)
Definition instancedArray {A : Type} `{Inhabited A} (count : nat) : list A :=
  replicate count inhabitant.

(** [buffer.element(idx)] read as a value. *)
Definition element {A : Type} `{Inhabited A} (buf : list A) (idx : nat) : A :=
  default inhabitant (buf !! idx).

(** [kernel.compute(count)]: one invocation per [instanceIndex] below
    [count].  The invocations touch disjoint elements, so running them in
    index order is one of the equivalent schedules. *)
Definition dispatch {B : Type} (kernel : nat -> B -> B) (count : nat) (b : B) : B :=
  foldl (fun acc idx => kernel idx acc) b (seq 0 count).

(** ** The generation kernels *)

(** The local constants of one [computeInit] invocation. *)
Record StarLocals : Type := {
  si_radius : R;
  si_normalizedRadius : R;
  si_armIndex : R;
  si_armAngle : R;
  si_spiralAngle : R;
  si_angleOffset : R;
  si_radiusOffset : R;
  si_angle : R;
  si_offsetRadius : R;
  si_thicknessFactor : R;
  si_position : vec3;
  si_velocity : vec3;
  si_radialSparsity : R;
  si_angularSparsity : R;
  si_sparsityFactor : R
}.

(** The local constants of one [cloudInit] invocation. *)
Record CloudLocals : Type := {
  ci_radius : R;
  ci_normalizedRadius : R;
  ci_armIndex : R;
  ci_armAngle : R;
  ci_spiralAngle : R;
  ci_angleOffset : R;
  ci_radiusOffset : R;
  ci_angle : R;
  ci_offsetRadius : R;
  ci_thicknessFactor : R;
  ci_position : vec3;
  ci_colorSize : vec4;
  ci_rotation : R
}.

Section Kernels.
Context {helpers : Helpers}.

(** The body of [computeInit] up to its buffer writes. *)
Definition computeInit_locals (u : Uniforms) (idx : nat) : StarLocals :=
  let seed := INR idx in
  let radius := pow (hash (seed + 1)) 0.5 * galaxy_radius (galaxy u) in
  let normalizedRadius := radius / galaxy_radius (galaxy u) in
  let armIndex := floor (hash (seed + 2) * galaxy_armCount (galaxy u)) in
  let armAngle := armIndex * 6.28318 / galaxy_armCount (galaxy u) in
  let spiralAngle := normalizedRadius * galaxy_spiralTightness (galaxy u) * 6.28318 in
  let angleOffset := (hash (seed + 3) - 0.5) * galaxy_randomness (galaxy u) in
  let radiusOffset := (hash (seed + 4) - 0.5) * galaxy_armWidth (galaxy u) in
  let angle := armAngle + spiralAngle + angleOffset in
  let offsetRadius := radius + radiusOffset in
  let x := cos angle * offsetRadius in
  let z := sin angle * offsetRadius in
  let thicknessFactor := 1.0 - normalizedRadius + 0.2 in
  let y := (hash (seed + 5) - 0.5) * galaxy_thickness (galaxy u) * thicknessFactor in
  let position := Vec3 x y z in
  let orbitalSpeed := 1.0 / (offsetRadius + 0.5) * 5.0 in
  let vx := - (sin angle * orbitalSpeed) in
  let vz := cos angle * orbitalSpeed in
  let radialSparsity := Rabs radiusOffset / (galaxy_armWidth (galaxy u) * 0.5 + 0.01) in
  let angularSparsity := Rabs angleOffset / (galaxy_randomness (galaxy u) * 0.5 + 0.01) in
  let sparsityFactor := Rmin ((radialSparsity + angularSparsity) * 0.5) 1.0 in
  {| si_radius := radius;
     si_normalizedRadius := normalizedRadius;
     si_armIndex := armIndex;
     si_armAngle := armAngle;
     si_spiralAngle := spiralAngle;
     si_angleOffset := angleOffset;
     si_radiusOffset := radiusOffset;
     si_angle := angle;
     si_offsetRadius := offsetRadius;
     si_thicknessFactor := thicknessFactor;
     si_position := position;
     si_velocity := Vec3 vx 0 vz;
     si_radialSparsity := radialSparsity;
     si_angularSparsity := angularSparsity;
     si_sparsityFactor := sparsityFactor |}.

(** [computeInit], one invocation: the four [assign]s. *)
Definition computeInit (u : Uniforms) (idx : nat) (b : StarBuffers) : StarBuffers :=
  let l := computeInit_locals u idx in
  {| spawnPositionBuffer := <[idx := si_position l]> (spawnPositionBuffer b);
     originalPositionBuffer := <[idx := si_position l]> (originalPositionBuffer b);
     velocityBuffer := <[idx := si_velocity l]> (velocityBuffer b);
     densityFactorBuffer := <[idx := si_sparsityFactor l]> (densityFactorBuffer b) |}.

(** [computeUpdate], one invocation. *)
Definition computeUpdate (u : Uniforms) (idx : nat) (b : StarBuffers) : StarBuffers :=
  let position := element (spawnPositionBuffer b) idx in
  let originalPos := element (originalPositionBuffer b) idx in
  let rotatedPos :=
    applyDifferentialRotation position
      (compute_rotationSpeed (compute u)) (compute_deltaTime (compute u)) in
  let position := rotatedPos in
  let rotatedOriginal :=
    applyDifferentialRotation originalPos
      (compute_rotationSpeed (compute u)) (compute_deltaTime (compute u)) in
  let mouseForce :=
    applyMouseForce position (compute_mouse (compute u))
      (compute_mouseActive (compute u)) (compute_mouseForce (compute u))
      (compute_mouseRadius (compute u)) (compute_deltaTime (compute u)) in
  let position := vadd position mouseForce in
  let springForce :=
    applySpringForce position rotatedOriginal 2.0 (compute_deltaTime (compute u)) in
  let position := vadd position springForce in
  {| spawnPositionBuffer := <[idx := position]> (spawnPositionBuffer b);
     originalPositionBuffer := <[idx := rotatedOriginal]> (originalPositionBuffer b);
     velocityBuffer := velocityBuffer b;
     densityFactorBuffer := densityFactorBuffer b |}.

(** The body of [cloudInit] up to its buffer writes. *)
Definition cloudInit_locals (u : Uniforms) (idx : nat) : CloudLocals :=
  let seed := INR idx + 10000 in
  let radius := pow (hash (seed + 1)) 0.7 * galaxy_radius (galaxy u) in
  let normalizedRadius := radius / galaxy_radius (galaxy u) in
  let armIndex := floor (hash (seed + 2) * galaxy_armCount (galaxy u)) in
  let armAngle := armIndex * 6.28318 / galaxy_armCount (galaxy u) in
  let spiralAngle := normalizedRadius * galaxy_spiralTightness (galaxy u) * 6.28318 in
  let angleOffset := (hash (seed + 3) - 0.5) * galaxy_randomness (galaxy u) in
  let radiusOffset := (hash (seed + 4) - 0.5) * galaxy_armWidth (galaxy u) in
  let angle := armAngle + spiralAngle + angleOffset in
  let offsetRadius := radius + radiusOffset in
  let x := cos angle * offsetRadius in
  let z := sin angle * offsetRadius in
  let thicknessFactor := 1.0 - normalizedRadius + 0.15 in
  let y := (hash (seed + 5) - 0.5) * galaxy_thickness (galaxy u) * thicknessFactor in
  let position := Vec3 x y z in
  let tintColor := visual_cloudTintColor (visual u) in
  let cloudColor := vscale (1.0 - normalizedRadius * 0.3) tintColor in
  let densityFactor := 1.0 - normalizedRadius * 0.5 in
  let size := (hash (seed + 6) * 0.5 + 0.7) * densityFactor in
  let rotation := hash (seed + 7) * 6.28318 in
  {| ci_radius := radius;
     ci_normalizedRadius := normalizedRadius;
     ci_armIndex := armIndex;
     ci_armAngle := armAngle;
     ci_spiralAngle := spiralAngle;
     ci_angleOffset := angleOffset;
     ci_radiusOffset := radiusOffset;
     ci_angle := angle;
     ci_offsetRadius := offsetRadius;
     ci_thicknessFactor := thicknessFactor;
     ci_position := position;
     ci_colorSize := Vec4 (vx cloudColor) (vy cloudColor) (vz cloudColor) size;
     ci_rotation := rotation |}.

(** [cloudInit], one invocation. *)
Definition cloudInit (u : Uniforms) (idx : nat) (b : CloudBuffers) : CloudBuffers :=
  let l := cloudInit_locals u idx in
  {| cloudPositionBuffer := <[idx := ci_position l]> (cloudPositionBuffer b);
     cloudOriginalPositionBuffer := <[idx := ci_position l]> (cloudOriginalPositionBuffer b);
     cloudColorSizeBuffer := <[idx := ci_colorSize l]> (cloudColorSizeBuffer b);
     cloudRotationBuffer := <[idx := ci_rotation l]> (cloudRotationBuffer b) |}.

(** [cloudUpdate], one invocation. *)
Definition cloudUpdate (u : Uniforms) (idx : nat) (b : CloudBuffers) : CloudBuffers :=
  let position := element (cloudPositionBuffer b) idx in
  let originalPos := element (cloudOriginalPositionBuffer b) idx in
  let rotatedPos :=
    applyDifferentialRotation position
      (compute_rotationSpeed (compute u)) (compute_deltaTime (compute u)) in
  let position := rotatedPos in
  let rotatedOriginal :=
    applyDifferentialRotation originalPos
      (compute_rotationSpeed (compute u)) (compute_deltaTime (compute u)) in
  let mouseForce :=
    applyMouseForce position (compute_mouse (compute u))
      (compute_mouseActive (compute u)) (compute_mouseForce (compute u))
      (compute_mouseRadius (compute u)) (compute_deltaTime (compute u)) in
  let position := vadd position mouseForce in
  let springForce :=
    applySpringForce position rotatedOriginal 1.0 (compute_deltaTime (compute u)) in
  let position := vadd position springForce in
  {| cloudPositionBuffer := <[idx := position]> (cloudPositionBuffer b);
     cloudOriginalPositionBuffer := <[idx := rotatedOriginal]> (cloudOriginalPositionBuffer b);
     cloudColorSizeBuffer := cloudColorSizeBuffer b;
     cloudRotationBuffer := cloudRotationBuffer b |}.

End Kernels.

(** ** The controller: class [GalaxySimulation] *)

(** The [config] object handed to the constructor.  Colours are carried as
    the RGB triple [THREE.Color] holds; the properties that the class tests
    for presence are options. *)
Record Config : Type := {
  config_starCount : nat;
  config_cloudCount : nat;
  config_rotationSpeed : R;
  config_spiralTightness : R;
  config_mouseForce : R;
  config_mouseRadius : R;
  config_galaxyRadius : R;
  config_galaxyThickness : option R;
  config_armCount : R;
  config_armWidth : R;
  config_randomness : R;
  config_particleSize : R;
  config_cloudSize : R;
  config_cloudOpacity : option R;
  config_starBrightness : option R;
  config_denseStarColor : option vec3;
  config_sparseStarColor : option vec3;
  config_cloudTintColor : option vec3
}.

(** The argument of [updateUniforms]: any subset of the properties. *)
Record ConfigUpdate : Type := {
  upd_galaxyRadius : option R;
  upd_galaxyThickness : option R;
  upd_spiralTightness : option R;
  upd_armCount : option R;
  upd_armWidth : option R;
  upd_randomness : option R;
  upd_rotationSpeed : option R;
  upd_mouseForce : option R;
  upd_mouseRadius : option R;
  upd_particleSize : option R;
  upd_cloudSize : option R;
  upd_cloudOpacity : option R;
  upd_starBrightness : option R;
  upd_denseStarColor : option vec3;
  upd_sparseStarColor : option vec3;
  upd_cloudTintColor : option vec3;
  upd_cloudCount : option nat
}.

(** What [createGalaxySystem] builds: the four star buffers and the two
    compute nodes bound to them, dispatched over [star_count] invocations. *)
Record StarSystem : Type := {
  star_count : nat;
  star_buffers : StarBuffers
}.

(** What [createClouds] builds: the cloud buffers (locals of the method,
    captured by the two compute nodes) and [cloudCount]. *)
Record CloudSystem : Type := {
  cloud_count : nat;
  cloud_buffers : CloudBuffers
}.

(** The fields of a [GalaxySimulation].  [starSystem = None] stands for
    [computeInit], [computeUpdate] and the star buffers being [null],
    [cloudSystem = None] for [cloudInit] and [cloudUpdate] being [null];
    the scene objects play no part in the simulation. *)
Record GalaxySimulation : Type := {
  config : Config;
  COUNT : nat;
  uniforms : Uniforms;
  starSystem : option StarSystem;
  cloudSystem : option CloudSystem;
  initialized : bool;
  cloudInitialized : bool
}.

(** [a || b] on a number: the fallback replaces an absent or zero value. *)
Definition or_default (a : option R) (d : R) : R :=
  match a with
  | Some v => if Req_dec_T v 0 then d else v
  | None => d
  end.

(** The fallback colours ['#99ccff'], ['#ffb380'] and ['#6ba8cc'], channel by
    channel. *)
Definition color_99ccff : vec3 := Vec3 (153 / 255) (204 / 255) (255 / 255).
Definition color_ffb380 : vec3 := Vec3 (255 / 255) (179 / 255) (128 / 255).
Definition color_6ba8cc : vec3 := Vec3 (107 / 255) (168 / 255) (204 / 255).

Definition initializeUniforms (config : Config) : Uniforms :=
  {| compute :=
       {| compute_time := 0;
          compute_deltaTime := 0.016;
          compute_mouse := Vec3 0 0 0;
          compute_mouseActive := 0.0;
          compute_mouseForce := config_mouseForce config;
          compute_mouseRadius := config_mouseRadius config;
          compute_rotationSpeed := config_rotationSpeed config |};
     galaxy :=
       {| galaxy_radius := config_galaxyRadius config;
          galaxy_thickness := or_default (config_galaxyThickness config) 0.1;
          galaxy_spiralTightness := config_spiralTightness config;
          galaxy_armCount := config_armCount config;
          galaxy_armWidth := config_armWidth config;
          galaxy_randomness := config_randomness config |};
     visual :=
       {| visual_particleSize := config_particleSize config;
          visual_cloudSize := config_cloudSize config;
          visual_cloudOpacity := default 0.5 (config_cloudOpacity config);
          visual_starBrightness := default 1.0 (config_starBrightness config);
          visual_denseStarColor := default color_99ccff (config_denseStarColor config);
          visual_sparseStarColor := default color_ffb380 (config_sparseStarColor config);
          visual_cloudTintColor := default color_6ba8cc (config_cloudTintColor config) |} |}.

Definition constructor (config : Config) : GalaxySimulation :=
  {| config := config;
     COUNT := config_starCount config;
     uniforms := initializeUniforms config;
     starSystem := None;
     cloudSystem := None;
     initialized := false;
     cloudInitialized := false |}.

Definition createGalaxySystem (this : GalaxySimulation) : GalaxySimulation :=
  {| config := config this;
     COUNT := COUNT this;
     uniforms := uniforms this;
     starSystem :=
       Some {| star_count := COUNT this;
               star_buffers :=
                 {| spawnPositionBuffer := instancedArray (COUNT this);
                    originalPositionBuffer := instancedArray (COUNT this);
                    velocityBuffer := instancedArray (COUNT this);
                    densityFactorBuffer := instancedArray (COUNT this) |} |};
     cloudSystem := cloudSystem this;
     initialized := initialized this;
     cloudInitialized := cloudInitialized this |}.

Definition createClouds (this : GalaxySimulation) : GalaxySimulation :=
  let CLOUD_COUNT := config_cloudCount (config this) in
  {| config := config this;
     COUNT := COUNT this;
     uniforms := uniforms this;
     starSystem := starSystem this;
     cloudSystem :=
       Some {| cloud_count := CLOUD_COUNT;
               cloud_buffers :=
                 {| cloudPositionBuffer := instancedArray CLOUD_COUNT;
                    cloudOriginalPositionBuffer := instancedArray CLOUD_COUNT;
                    cloudColorSizeBuffer := instancedArray CLOUD_COUNT;
                    cloudRotationBuffer := instancedArray CLOUD_COUNT |} |};
     initialized := initialized this;
     cloudInitialized := false |}.

Definition set_starCount (n : nat) (c : Config) : Config :=
  {| config_starCount := n;
     config_cloudCount := config_cloudCount c;
     config_rotationSpeed := config_rotationSpeed c;
     config_spiralTightness := config_spiralTightness c;
     config_mouseForce := config_mouseForce c;
     config_mouseRadius := config_mouseRadius c;
     config_galaxyRadius := config_galaxyRadius c;
     config_galaxyThickness := config_galaxyThickness c;
     config_armCount := config_armCount c;
     config_armWidth := config_armWidth c;
     config_randomness := config_randomness c;
     config_particleSize := config_particleSize c;
     config_cloudSize := config_cloudSize c;
     config_cloudOpacity := config_cloudOpacity c;
     config_starBrightness := config_starBrightness c;
     config_denseStarColor := config_denseStarColor c;
     config_sparseStarColor := config_sparseStarColor c;
     config_cloudTintColor := config_cloudTintColor c |}.

Definition set_cloudCount (n : nat) (c : Config) : Config :=
  {| config_starCount := config_starCount c;
     config_cloudCount := n;
     config_rotationSpeed := config_rotationSpeed c;
     config_spiralTightness := config_spiralTightness c;
     config_mouseForce := config_mouseForce c;
     config_mouseRadius := config_mouseRadius c;
     config_galaxyRadius := config_galaxyRadius c;
     config_galaxyThickness := config_galaxyThickness c;
     config_armCount := config_armCount c;
     config_armWidth := config_armWidth c;
     config_randomness := config_randomness c;
     config_particleSize := config_particleSize c;
     config_cloudSize := config_cloudSize c;
     config_cloudOpacity := config_cloudOpacity c;
     config_starBrightness := config_starBrightness c;
     config_denseStarColor := config_denseStarColor c;
     config_sparseStarColor := config_sparseStarColor c;
     config_cloudTintColor := config_cloudTintColor c |}.

Definition updateStarCount (newCount : nat) (this : GalaxySimulation) : GalaxySimulation :=
  let this :=
    {| config := set_starCount newCount (config this);
       COUNT := newCount;
       uniforms := uniforms this;
       starSystem := starSystem this;
       cloudSystem := cloudSystem this;
       initialized := initialized this;
       cloudInitialized := cloudInitialized this |} in
  let this := createGalaxySystem this in
  {| config := config this;
     COUNT := COUNT this;
     uniforms := uniforms this;
     starSystem := starSystem this;
     cloudSystem := cloudSystem this;
     initialized := false;
     cloudInitialized := cloudInitialized this |}.

(** [if (configUpdate.k !== undefined) target = configUpdate.k] *)
Definition assign_if {A : Type} (o : option A) (old : A) : A := default old o.

Definition updateUniforms (configUpdate : ConfigUpdate) (this : GalaxySimulation)
    : GalaxySimulation :=
  let u := uniforms this in
  {| config :=
       match upd_cloudCount configUpdate with
       | Some n => set_cloudCount n (config this)
       | None => config this
       end;
     COUNT := COUNT this;
     uniforms :=
       {| compute :=
            {| compute_time := compute_time (compute u);
               compute_deltaTime := compute_deltaTime (compute u);
               compute_mouse := compute_mouse (compute u);
               compute_mouseActive := compute_mouseActive (compute u);
               compute_mouseForce :=
                 assign_if (upd_mouseForce configUpdate) (compute_mouseForce (compute u));
               compute_mouseRadius :=
                 assign_if (upd_mouseRadius configUpdate) (compute_mouseRadius (compute u));
               compute_rotationSpeed :=
                 assign_if (upd_rotationSpeed configUpdate) (compute_rotationSpeed (compute u)) |};
          galaxy :=
            {| galaxy_radius :=
                 assign_if (upd_galaxyRadius configUpdate) (galaxy_radius (galaxy u));
               galaxy_thickness :=
                 assign_if (upd_galaxyThickness configUpdate) (galaxy_thickness (galaxy u));
               galaxy_spiralTightness :=
                 assign_if (upd_spiralTightness configUpdate) (galaxy_spiralTightness (galaxy u));
               galaxy_armCount :=
                 assign_if (upd_armCount configUpdate) (galaxy_armCount (galaxy u));
               galaxy_armWidth :=
                 assign_if (upd_armWidth configUpdate) (galaxy_armWidth (galaxy u));
               galaxy_randomness :=
                 assign_if (upd_randomness configUpdate) (galaxy_randomness (galaxy u)) |};
          visual :=
            {| visual_particleSize :=
                 assign_if (upd_particleSize configUpdate) (visual_particleSize (visual u));
               visual_cloudSize :=
                 assign_if (upd_cloudSize configUpdate) (visual_cloudSize (visual u));
               visual_cloudOpacity :=
                 assign_if (upd_cloudOpacity configUpdate) (visual_cloudOpacity (visual u));
               visual_starBrightness :=
                 assign_if (upd_starBrightness configUpdate) (visual_starBrightness (visual u));
               visual_denseStarColor :=
                 assign_if (upd_denseStarColor configUpdate) (visual_denseStarColor (visual u));
               visual_sparseStarColor :=
                 assign_if (upd_sparseStarColor configUpdate) (visual_sparseStarColor (visual u));
               visual_cloudTintColor :=
                 assign_if (upd_cloudTintColor configUpdate) (visual_cloudTintColor (visual u)) |} |};
     starSystem := starSystem this;
     cloudSystem := cloudSystem this;
     initialized := initialized this;
     cloudInitialized := cloudInitialized this |}.

Definition regenerate (this : GalaxySimulation) : GalaxySimulation :=
  {| config := config this;
     COUNT := COUNT this;
     uniforms := uniforms this;
     starSystem := starSystem this;
     cloudSystem := cloudSystem this;
     initialized := false;
     cloudInitialized := false |}.

(** ** [update]: a state and error monad that logs the renderer's dispatches *)

(** The four compute nodes a [GalaxySimulation] can hand to
    [renderer.computeAsync]. *)
Inductive kernel : Type := ComputeInit | ComputeUpdate | CloudInit | CloudUpdate.

#[global] Instance kernel_eq_dec : EqDecision kernel.
Proof. solve_decision. Defined.

(** A method body: it may throw ([None]), changes the object, and leaves
    the list of nodes it had the renderer run, oldest first. *)
Definition M (A : Type) : Type :=
  GalaxySimulation -> option (A * GalaxySimulation * list kernel).

#[global] Instance M_ret : MRet M := fun A a this => Some (a, this, []).
#[global] Instance M_bind : MBind M := fun A B f m this =>
  match m this with
  | Some (a, this', log) =>
      match f a this' with
      | Some (b, this'', log') => Some (b, this'', log ++ log')
      | None => None
      end
  | None => None
  end.

Definition get_this : M GalaxySimulation := fun this => Some (this, this, []).
Definition modify_this (f : GalaxySimulation -> GalaxySimulation) : M unit :=
  fun this => Some (tt, f this, []).
Definition when (c : bool) (m : M unit) : M unit := if c then m else mret tt.

Definition set_starSystem (g : StarSystem) (this : GalaxySimulation) : GalaxySimulation :=
  {| config := config this; COUNT := COUNT this; uniforms := uniforms this;
     starSystem := Some g; cloudSystem := cloudSystem this;
     initialized := initialized this; cloudInitialized := cloudInitialized this |}.

Definition set_cloudSystem (c : CloudSystem) (this : GalaxySimulation) : GalaxySimulation :=
  {| config := config this; COUNT := COUNT this; uniforms := uniforms this;
     starSystem := starSystem this; cloudSystem := Some c;
     initialized := initialized this; cloudInitialized := cloudInitialized this |}.

Definition set_initialized (v : bool) (this : GalaxySimulation) : GalaxySimulation :=
  {| config := config this; COUNT := COUNT this; uniforms := uniforms this;
     starSystem := starSystem this; cloudSystem := cloudSystem this;
     initialized := v; cloudInitialized := cloudInitialized this |}.

Definition set_cloudInitialized (v : bool) (this : GalaxySimulation) : GalaxySimulation :=
  {| config := config this; COUNT := COUNT this; uniforms := uniforms this;
     starSystem := starSystem this; cloudSystem := cloudSystem this;
     initialized := initialized this; cloudInitialized := v |}.

(** The four assignments to [this.uniforms.compute] in [update]. *)
Definition set_frame_uniforms (deltaTime : R) (mouse3D : vec3) (mousePressed : bool)
    (this : GalaxySimulation) : GalaxySimulation :=
  let u := uniforms this in
  {| config := config this; COUNT := COUNT this;
     uniforms :=
       {| compute :=
            {| compute_time := compute_time (compute u) + deltaTime;
               compute_deltaTime := deltaTime;
               compute_mouse := mouse3D;
               compute_mouseActive := if mousePressed then 1.0 else 0.0;
               compute_mouseForce := compute_mouseForce (compute u);
               compute_mouseRadius := compute_mouseRadius (compute u);
               compute_rotationSpeed := compute_rotationSpeed (compute u) |};
          galaxy := galaxy u;
          visual := visual u |};
     starSystem := starSystem this; cloudSystem := cloudSystem this;
     initialized := initialized this; cloudInitialized := cloudInitialized this |}.

Section Controller.
Context {helpers : Helpers}.

Definition run_star (k : Uniforms -> nat -> StarBuffers -> StarBuffers)
    (u : Uniforms) (g : StarSystem) : StarSystem :=
  {| star_count := star_count g;
     star_buffers := dispatch (k u) (star_count g) (star_buffers g) |}.

Definition run_cloud (k : Uniforms -> nat -> CloudBuffers -> CloudBuffers)
    (u : Uniforms) (c : CloudSystem) : CloudSystem :=
  {| cloud_count := cloud_count c;
     cloud_buffers := dispatch (k u) (cloud_count c) (cloud_buffers c) |}.

(** [await renderer.computeAsync(node)]: the node runs over its buffers
    with the uniform values of the moment; a [null] node throws. *)
Definition computeAsync (node : kernel) : M unit := fun this =>
  match node with
  | ComputeInit =>
      match starSystem this with
      | Some g => Some (tt, set_starSystem (run_star computeInit (uniforms this) g) this, [ComputeInit])
      | None => None
      end
  | ComputeUpdate =>
      match starSystem this with
      | Some g => Some (tt, set_starSystem (run_star computeUpdate (uniforms this) g) this, [ComputeUpdate])
      | None => None
      end
  | CloudInit =>
      match cloudSystem this with
      | Some c => Some (tt, set_cloudSystem (run_cloud cloudInit (uniforms this) c) this, [CloudInit])
      | None => None
      end
  | CloudUpdate =>
      match cloudSystem this with
      | Some c => Some (tt, set_cloudSystem (run_cloud cloudUpdate (uniforms this) c) this, [CloudUpdate])
      | None => None
      end
  end.

Definition update (deltaTime : R) (mouse3D : vec3) (mousePressed : bool) : M unit :=
  this ← get_this;
  when (negb (initialized this))
    (computeAsync ComputeInit ;; modify_this (set_initialized true)) ;;
  this ← get_this;
  when (negb (cloudInitialized this) && bool_decide (is_Some (cloudSystem this)))
    (computeAsync CloudInit ;; modify_this (set_cloudInitialized true)) ;;
  modify_this (set_frame_uniforms deltaTime mouse3D mousePressed) ;;
  computeAsync ComputeUpdate ;;
  this ← get_this;
  when (bool_decide (is_Some (cloudSystem this)))
    (computeAsync CloudUpdate).

(** *** Sequences of method calls *)

Inductive call : Type :=
| CallUpdate (deltaTime : R) (mouse3D : vec3) (mousePressed : bool)
| CallRegenerate
| CallUpdateStarCount (newCount : nat)
| CallUpdateUniforms (configUpdate : ConfigUpdate)
| CallCreateClouds.

Definition perform (c : call) : M unit :=
  match c with
  | CallUpdate deltaTime mouse3D mousePressed => update deltaTime mouse3D mousePressed
  | CallRegenerate => modify_this regenerate
  | CallUpdateStarCount newCount => modify_this (updateStarCount newCount)
  | CallUpdateUniforms configUpdate => modify_this (updateUniforms configUpdate)
  | CallCreateClouds => modify_this createClouds
  end.

(** What an observer of the object and of the renderer sees. *)
Inductive event : Type :=
| Invoked (c : call)
| Dispatched (k : kernel).

(** The calls run one after the other, each to completion. *)
Fixpoint run (cs : list call) (this : GalaxySimulation)
    : option (GalaxySimulation * list event) :=
  match cs with
  | [] => Some (this, [])
  | c :: cs' =>
      match perform c this with
      | Some (_, this', log) =>
          match run cs' this' with
          | Some (this'', tr) => Some (this'', Invoked c :: map Dispatched log ++ tr)
          | None => None
          end
      | None => None
      end
  end.

(** The object as [main.js] sets it up before the first frame. *)
Definition boot (config : Config) : GalaxySimulation :=
  createClouds (createGalaxySystem (constructor config)).

End Controller.

(** ** The frame loop of [main.js] *)

Record App : Type := {
  lastFrameTime : R;
  mouse3D : vec3;
  mousePressed : bool;
  galaxySimulation : GalaxySimulation
}.

Section FrameLoop.
Context {helpers : Helpers}.

(** [animate], with the reading of [performance.now()] as its argument;
    rendering and the FPS counter do not touch the simulation. *)
Definition animate (currentTime : R) (app : App) : option (App * list kernel) :=
  let deltaTime := Rmin ((currentTime - lastFrameTime app) / 1000) 0.033 in
  match update deltaTime (mouse3D app) (mousePressed app) (galaxySimulation app) with
  | Some (_, sim, log) =>
      Some ({| lastFrameTime := currentTime;
               mouse3D := mouse3D app;
               mousePressed := mousePressed app;
               galaxySimulation := sim |}, log)
  | None => None
  end.

End FrameLoop.

(** ** The local constants of the update kernels *)

Section UpdateLocals.
Context {helpers : Helpers}.

(** [rotatedOriginal]: the anchor after its differential rotation. *)
Definition rotated_anchor (u : Uniforms) (anchor : vec3) : vec3 :=
  applyDifferentialRotation anchor
    (compute_rotationSpeed (compute u)) (compute_deltaTime (compute u)).

(** [rotatedPos]: the position after its differential rotation. *)
Definition rotated_position (u : Uniforms) (position : vec3) : vec3 :=
  applyDifferentialRotation position
    (compute_rotationSpeed (compute u)) (compute_deltaTime (compute u)).

(** The local constant [mouseForce] of the update kernels, for a particle
    read at [position]: the displacement [position.addAssign(mouseForce)]
    adds. *)
Definition pointer_displacement (u : Uniforms) (position : vec3) : vec3 :=
  applyMouseForce (rotated_position u position) (compute_mouse (compute u))
    (compute_mouseActive (compute u)) (compute_mouseForce (compute u))
    (compute_mouseRadius (compute u)) (compute_deltaTime (compute u)).

(** What each kernel writes back as the new position. *)
Definition updated_position (stiffness : R) (u : Uniforms) (position anchor : vec3) : vec3 :=
  let pushed := vadd (rotated_position u position) (pointer_displacement u position) in
  vadd pushed
    (applySpringForce pushed (rotated_anchor u anchor) stiffness
       (compute_deltaTime (compute u))).

End UpdateLocals.

(** ** The physics helpers, from their description

    The specification (section 4.3) describes the three physics functions
    of [helpers.js] in words.  They are modelled here from that description,
    to settle what depends on their behaviour; what the description leaves open
    (the angle of the differential rotation as a function of rotation speed,
    time step and distance from the axis; the fall-off of the pointer
    force; the hash) stays a parameter. *)

(** Rotation about the vertical ([y]) axis. *)
Definition rotateY (p : vec3) (angle : R) : vec3 :=
  Vec3 (vx p * cos angle - vz p * sin angle)
       (vy p)
       (vx p * sin angle + vz p * cos angle).

(** Distance of a point from the vertical axis. *)
Definition axisDistance (p : vec3) : R := sqrt (vx p * vx p + vz p * vz p).

Definition normalize (v : vec3) : vec3 := vscale (/ vlength v) v.

(** Modelled from the spec: [applyDifferentialRotation] of [helpers.js], a
    module the sources do not include.  "Rotate [...] about the vertical axis by an angle that depends on the
    time step, the rotation speed and the particle's current distance from
    the axis." *)
Definition spec_applyDifferentialRotation (rotationAngle : R -> R -> R -> R)
    (pos : vec3) (rotationSpeed deltaTime : R) : vec3 :=
  rotateY pos (rotationAngle rotationSpeed deltaTime (axisDistance pos)).

(** Modelled from the spec: [applyMouseForce] of [helpers.js], a module
    the sources do not include.  "If the pointer is active, compute the vector from the pointer's 3D location to
    the position; if its length is below [mouseRadius], apply a repulsive
    displacement scaled by [mouseForce], the time step and an inverse
    falloff with distance.  If the pointer is inactive or the particle is
    outside the radius, this term is zero."  The flag arrives as the number
    [update] stores: [0.0] for inactive. *)
Definition spec_applyMouseForce (falloff : R -> R -> R)
    (pos mouse : vec3) (mouseActive mouseForce mouseRadius deltaTime : R) : vec3 :=
  let toParticle := vsub pos mouse in
  let dist := vlength toParticle in
  if Req_dec_T mouseActive 0 then vzero
  else if Rlt_dec dist mouseRadius
       then vscale (mouseForce * deltaTime * falloff dist mouseRadius) (normalize toParticle)
       else vzero.

(** Modelled from the spec: [applySpringForce] of [helpers.js], a module
    the sources do not include.  "Displacement toward the anchor scaled by a fixed stiffness constant and
    the time step [...] a single-step proportional pull." *)
Definition spec_applySpringForce (currentPos targetPos : vec3) (strength deltaTime : R) : vec3 :=
  vscale (strength * deltaTime) (vsub targetPos currentPos).

(** The described helpers as an instance of the interface. *)
Definition spec_helpers (hashFn : R -> R) (rotationAngle : R -> R -> R -> R)
    (falloff : R -> R -> R) : Helpers :=
  {| hash := hashFn;
     applyDifferentialRotation := spec_applyDifferentialRotation rotationAngle;
     applyMouseForce := spec_applyMouseForce falloff;
     applySpringForce := spec_applySpringForce |}.

(** ** The two-state machine of a subsystem, as a monitor of event traces *)

Inductive phase : Type := Uninitialized | Running.

Record Phases : Type := { stars_phase : phase; clouds_phase : phase }.

Definition is_running (p : phase) : bool :=
  match p with Running => true | Uninitialized => false end.

(** [None] is a violation: a physics step dispatched on a subsystem whose
    generation step has not run since it was last invalidated. *)
Definition monitor_dispatch (k : kernel) (p : Phases) : option Phases :=
  match k with
  | ComputeInit => Some {| stars_phase := Running; clouds_phase := clouds_phase p |}
  | CloudInit => Some {| stars_phase := stars_phase p; clouds_phase := Running |}
  | ComputeUpdate => if is_running (stars_phase p) then Some p else None
  | CloudUpdate => if is_running (clouds_phase p) then Some p else None
  end.

Definition monitor_step (e : event) (p : Phases) : option Phases :=
  match e with
  | Invoked CallRegenerate =>
      Some {| stars_phase := Uninitialized; clouds_phase := Uninitialized |}
  | Invoked (CallUpdateStarCount _) =>
      Some {| stars_phase := Uninitialized; clouds_phase := clouds_phase p |}
  | Invoked CallCreateClouds =>
      Some {| stars_phase := stars_phase p; clouds_phase := Uninitialized |}
  | Invoked (CallUpdate _ _ _) => Some p
  | Invoked (CallUpdateUniforms _) => Some p
  | Dispatched k => monitor_dispatch k p
  end.

Fixpoint monitor (tr : list event) (p : Phases) : option Phases :=
  match tr with
  | [] => Some p
  | e :: tr' =>
      match monitor_step e p with
      | Some p' => monitor tr' p'
      | None => None
      end
  end.

(** A trace is accepted when no physics step is dispatched in the
    [Uninitialized] phase; both subsystems start [Uninitialized]. *)
Definition accepted (tr : list event) : Prop :=
  is_Some (monitor tr {| stars_phase := Uninitialized; clouds_phase := Uninitialized |}).

(** [k1] is dispatched somewhere before [k2] in a log. *)
Definition dispatched_before (k1 k2 : kernel) (log : list kernel) : Prop :=
  exists l1 l2 l3, log = l1 ++ k1 :: l2 ++ k2 :: l3.

(** Buffers sized to the count of their system, as the two [create]
    methods build them. *)
Definition star_sized (g : StarSystem) : Prop :=
  length (spawnPositionBuffer (star_buffers g)) = star_count g /\
  length (originalPositionBuffer (star_buffers g)) = star_count g /\
  length (velocityBuffer (star_buffers g)) = star_count g /\
  length (densityFactorBuffer (star_buffers g)) = star_count g.

Definition cloud_sized (c : CloudSystem) : Prop :=
  length (cloudPositionBuffer (cloud_buffers c)) = cloud_count c /\
  length (cloudOriginalPositionBuffer (cloud_buffers c)) = cloud_count c /\
  length (cloudColorSizeBuffer (cloud_buffers c)) = cloud_count c /\
  length (cloudRotationBuffer (cloud_buffers c)) = cloud_count c.

(** ** Observations on buffers and logs *)




(** The flags of the object agree with the monitor: a flag that is set
    vouches for a subsystem in the [Running] phase, and the star system
    exists. *)
Definition consistent (this : GalaxySimulation) (p : Phases) : Prop :=
  is_Some (starSystem this) /\
  (initialized this = true -> stars_phase p = Running) /\
  (is_Some (cloudSystem this) -> cloudInitialized this = true -> clouds_phase p = Running).

(** The dispatch log of an [update] that finds the star flag cleared. *)
Definition regeneration_log (this : GalaxySimulation) : list kernel :=
  [ComputeInit]
  ++ (if negb (cloudInitialized this) && bool_decide (is_Some (cloudSystem this))
      then [CloudInit] else [])
  ++ [ComputeUpdate]
  ++ (if bool_decide (is_Some (cloudSystem this)) then [CloudUpdate] else []).

(** ** The outcome of [update] in closed form *)

Section UpdateOutcome.
Context {helpers : Helpers}.

(** The distribution the generation step leaves in star buffers of [count]
    elements: a function of the uniforms and the count. *)
Definition generated_stars (u : Uniforms) (count : nat) : StarBuffers :=
  {| spawnPositionBuffer :=
       map (fun i => si_position (computeInit_locals u i)) (seq 0 count);
     originalPositionBuffer :=
       map (fun i => si_position (computeInit_locals u i)) (seq 0 count);
     velocityBuffer :=
       map (fun i => si_velocity (computeInit_locals u i)) (seq 0 count);
     densityFactorBuffer :=
       map (fun i => si_sparsityFactor (computeInit_locals u i)) (seq 0 count) |}.

Definition generated_clouds (u : Uniforms) (count : nat) : CloudBuffers :=
  {| cloudPositionBuffer :=
       map (fun i => ci_position (cloudInit_locals u i)) (seq 0 count);
     cloudOriginalPositionBuffer :=
       map (fun i => ci_position (cloudInit_locals u i)) (seq 0 count);
     cloudColorSizeBuffer :=
       map (fun i => ci_colorSize (cloudInit_locals u i)) (seq 0 count);
     cloudRotationBuffer :=
       map (fun i => ci_rotation (cloudInit_locals u i)) (seq 0 count) |}.

(** The object and the dispatch log one call of [update] leaves, for an
    object whose star system is [g]. *)
Definition update_outcome (deltaTime : R) (mouse3D : vec3) (mousePressed : bool)
    (this : GalaxySimulation) (g : StarSystem) : GalaxySimulation * list kernel :=
  let u := uniforms this in
  let u' := uniforms (set_frame_uniforms deltaTime mouse3D mousePressed this) in
  let g1 := if initialized this then g else run_star computeInit u g in
  let c1 :=
    match cloudSystem this with
    | Some c => Some (if cloudInitialized this then c else run_cloud cloudInit u c)
    | None => None
    end in
  ({| config := config this;
      COUNT := COUNT this;
      uniforms := u';
      starSystem := Some (run_star computeUpdate u' g1);
      cloudSystem := option_map (run_cloud cloudUpdate u') c1;
      initialized := true;
      cloudInitialized :=
        cloudInitialized this || bool_decide (is_Some (cloudSystem this)) |},
   (if initialized this then [] else [ComputeInit])
   ++ (if negb (cloudInitialized this) && bool_decide (is_Some (cloudSystem this))
       then [CloudInit] else [])
   ++ [ComputeUpdate]
   ++ (if bool_decide (is_Some (cloudSystem this)) then [CloudUpdate] else [])).

End UpdateOutcome.

(** Two optional cloud systems of the same shape: both absent, or both
    present, sized and of the same count. *)
Definition clouds_alike (c1 c2 : option CloudSystem) : Prop :=
  match c1, c2 with
  | Some a, Some b => cloud_sized a /\ cloud_sized b /\ cloud_count a = cloud_count b
  | None, None => True
  | _, _ => False
  end.

(** The update kernels read the time step, the pointer and the three physics
    parameters, and no other uniform. *)
Definition physics_alike (u1 u2 : Uniforms) : Prop :=
  compute_deltaTime (compute u1) = compute_deltaTime (compute u2) /\
  compute_mouse (compute u1) = compute_mouse (compute u2) /\
  compute_mouseActive (compute u1) = compute_mouseActive (compute u2) /\
  compute_mouseForce (compute u1) = compute_mouseForce (compute u2) /\
  compute_mouseRadius (compute u1) = compute_mouseRadius (compute u2) /\
  compute_rotationSpeed (compute u1) = compute_rotationSpeed (compute u2).

(** ** Concrete data for exercising the statements *)

(** A hash that draws one half everywhere, a rotation angle that shrinks
    with the distance from the axis and a linear fall-off. *)
Definition demo_hash : R -> R := fun _ => 1 / 2.
Definition demo_rotationAngle (rotationSpeed deltaTime dist : R) : R :=
  rotationSpeed * deltaTime / (1 + dist).
Definition demo_falloff (dist radius : R) : R := 1 - dist / radius.
Definition demo_helpers : Helpers :=
  spec_helpers demo_hash demo_rotationAngle demo_falloff.

(** The [config] object of [main.js], for given particle counts. *)
Definition main_config (starCount cloudCount : nat) : Config :=
  {| config_starCount := starCount;
     config_cloudCount := cloudCount;
     config_rotationSpeed := 0.12;
     config_spiralTightness := 1.5;
     config_mouseForce := 6.0;
     config_mouseRadius := 5.0;
     config_galaxyRadius := 13.0;
     config_galaxyThickness := Some 6;
     config_armCount := 2;
     config_armWidth := 2.25;
     config_randomness := 1.85;
     config_particleSize := 0.04;
     config_cloudSize := 2.2;
     config_cloudOpacity := Some 0.01;
     config_starBrightness := Some 0.3;
     config_denseStarColor := Some (Vec3 (24 / 255) (133 / 255) (255 / 255));
     config_sparseStarColor := Some (Vec3 (255 / 255) (178 / 255) (138 / 255));
     config_cloudTintColor := Some (Vec3 (255 / 255) (218 / 255) (206 / 255)) |}.

(** A two-star, one-cloud system fresh from the [create] methods. *)
Definition demo_stars : StarSystem :=
  {| star_count := 2;
     star_buffers :=
       {| spawnPositionBuffer := instancedArray 2;
          originalPositionBuffer := instancedArray 2;
          velocityBuffer := instancedArray 2;
          densityFactorBuffer := instancedArray 2 |} |}.

Definition demo_clouds : CloudSystem :=
  {| cloud_count := 1;
     cloud_buffers :=
       {| cloudPositionBuffer := instancedArray 1;
          cloudOriginalPositionBuffer := instancedArray 1;
          cloudColorSizeBuffer := instancedArray 1;
          cloudRotationBuffer := instancedArray 1 |} |}.

(** A second instance of the interface, with another hash and pointer
    fall-off but the same rotation. *)
Definition demo_helpers' : Helpers :=
  spec_helpers (fun _ => 0) demo_rotationAngle (fun _ _ => 1).

(** The uniforms of a frame with the pointer pressed at [(1, 2, 3)]. *)
Definition demo_pressed_uniforms : Uniforms :=
  uniforms (set_frame_uniforms 0.016 (Vec3 1 2 3) true (constructor (main_config 2 1))).

(** Star buffers whose positions have been pushed off their anchors. *)
Definition demo_pushed_stars : StarBuffers :=
  {| spawnPositionBuffer := [Vec3 1 0 0; Vec3 0 1 0];
     originalPositionBuffer := instancedArray 2;
     velocityBuffer := instancedArray 2;
     densityFactorBuffer := instancedArray 2 |}.

Definition demo_pushed_clouds : CloudBuffers :=
  {| cloudPositionBuffer := [Vec3 0 0 4];
     cloudOriginalPositionBuffer := instancedArray 1;
     cloudColorSizeBuffer := instancedArray 1;
     cloudRotationBuffer := instancedArray 1 |}.

(** The booted object of [main.js] with two stars and one cloud, and the
    same object some frames later, its stars pushed off their anchors. *)
Definition demo_sim : GalaxySimulation := boot (main_config 2 1).

Definition demo_later_sim : GalaxySimulation :=
  set_initialized true
    (set_starSystem {| star_count := 2; star_buffers := demo_pushed_stars |} demo_sim).

(** The shape of the scenario: two arms, tightness 1.5, radius 13, no
    randomness and no arm width. *)
Definition scenario_update : ConfigUpdate :=
  {| upd_galaxyRadius := Some 13; upd_galaxyThickness := None;
     upd_spiralTightness := Some 1.5;
     upd_armCount := Some 2; upd_armWidth := Some 0; upd_randomness := Some 0;
     upd_rotationSpeed := None; upd_mouseForce := None; upd_mouseRadius := None;
     upd_particleSize := None; upd_cloudSize := None; upd_cloudOpacity := None;
     upd_starBrightness := None; upd_denseStarColor := None; upd_sparseStarColor := None;
     upd_cloudTintColor := None; upd_cloudCount := None |}.

Definition scenario_uniforms : Uniforms :=
  uniforms (updateUniforms scenario_update (constructor (main_config 2 1))).

(** The application of [main.js] at its first frame: the object booted, the
    pointer at the origin and released, [lastFrameTime] read at 0 ms. *)
Definition demo_app : App :=
  {| lastFrameTime := 0;
     mouse3D := Vec3 0 0 0;
     mousePressed := false;
     galaxySimulation := demo_sim |}.


(** ** Further observations *)

Definition vdot (a b : vec3) : R := vx a * vx b + vy a * vy b + vz a * vz b.


(** The object holds a star system sized to [COUNT], [COUNT] agrees with
    [config.starCount], and the cloud system, when there is one, is sized to
    its own count. *)
Definition well_formed (this : GalaxySimulation) : Prop :=
  (exists g, starSystem this = Some g /\ star_sized g /\ star_count g = COUNT this) /\
  COUNT this = config_starCount (config this) /\
  (forall c, cloudSystem this = Some c -> cloud_sized c).

(** How often the renderer ran kernel [k] in a trace. *)
Fixpoint count_dispatches (k : kernel) (tr : list event) : nat :=
  match tr with
  | [] => 0
  | Dispatched k' :: tr' =>
      (if bool_decide (k' = k) then 1 else 0) + count_dispatches k tr'
  | Invoked _ :: tr' => count_dispatches k tr'
  end.

Definition is_update (c : call) : bool :=
  match c with CallUpdate _ _ _ => true | _ => false end.

(** The time steps handed to [update] in a sequence of calls, summed. *)
Fixpoint total_deltaTime (cs : list call) : R :=
  match cs with
  | [] => 0
  | CallUpdate deltaTime _ _ :: cs' => deltaTime + total_deltaTime cs'
  | _ :: cs' => total_deltaTime cs'
  end.


(** How often a generation kernel runs in [n] consecutive updates, given
    the flag that guards it. *)
Definition expected_generations (flag : bool) (n : nat) : nat :=
  if flag then 0 else Nat.min 1 n.

(** An update of shape or appearance only: it names none of the three
    physics parameters. *)
Definition leaves_physics (cu : ConfigUpdate) : Prop :=
  upd_rotationSpeed cu = None /\ upd_mouseForce cu = None /\ upd_mouseRadius cu = None.


(** ** The callbacks [main.js] hands to the panel

    The panel edits the shared [config] object and then calls back; the
    writes to the document are left out. *)

(** The [config] object read as the argument of [updateUniforms]: every
    property it defines is a key of the update. *)
Definition config_as_update (c : Config) : ConfigUpdate :=
  {| upd_galaxyRadius := Some (config_galaxyRadius c);
     upd_galaxyThickness := config_galaxyThickness c;
     upd_spiralTightness := Some (config_spiralTightness c);
     upd_armCount := Some (config_armCount c);
     upd_armWidth := Some (config_armWidth c);
     upd_randomness := Some (config_randomness c);
     upd_rotationSpeed := Some (config_rotationSpeed c);
     upd_mouseForce := Some (config_mouseForce c);
     upd_mouseRadius := Some (config_mouseRadius c);
     upd_particleSize := Some (config_particleSize c);
     upd_cloudSize := Some (config_cloudSize c);
     upd_cloudOpacity := config_cloudOpacity c;
     upd_starBrightness := config_starBrightness c;
     upd_denseStarColor := config_denseStarColor c;
     upd_sparseStarColor := config_sparseStarColor c;
     upd_cloudTintColor := config_cloudTintColor c;
     upd_cloudCount := Some (config_cloudCount c) |}.

(** [{ cloudCount: newCount }] *)
Definition cloudCount_update (newCount : nat) : ConfigUpdate :=
  {| upd_galaxyRadius := None; upd_galaxyThickness := None; upd_spiralTightness := None;
     upd_armCount := None; upd_armWidth := None; upd_randomness := None;
     upd_rotationSpeed := None; upd_mouseForce := None; upd_mouseRadius := None;
     upd_particleSize := None; upd_cloudSize := None; upd_cloudOpacity := None;
     upd_starBrightness := None; upd_denseStarColor := None; upd_sparseStarColor := None;
     upd_cloudTintColor := None; upd_cloudCount := Some newCount |}.

(** [{ cloudTintColor: color }] *)
Definition cloudTint_update (color : vec3) : ConfigUpdate :=
  {| upd_galaxyRadius := None; upd_galaxyThickness := None; upd_spiralTightness := None;
     upd_armCount := None; upd_armWidth := None; upd_randomness := None;
     upd_rotationSpeed := None; upd_mouseForce := None; upd_mouseRadius := None;
     upd_particleSize := None; upd_cloudSize := None; upd_cloudOpacity := None;
     upd_starBrightness := None; upd_denseStarColor := None; upd_sparseStarColor := None;
     upd_cloudTintColor := Some color; upd_cloudCount := None |}.

Definition onCloudCountChange (newCount : nat) (galaxySimulation : GalaxySimulation)
    : GalaxySimulation :=
  createClouds (updateUniforms (cloudCount_update newCount) galaxySimulation).

Definition onCloudTintChange (color : vec3) (galaxySimulation : GalaxySimulation)
    : GalaxySimulation :=
  createClouds (updateUniforms (cloudTint_update color) galaxySimulation).

(** [onRegenerate]: [config] is the object the simulation holds. *)
Definition onRegenerate (galaxySimulation : GalaxySimulation) : GalaxySimulation :=
  regenerate
    (createClouds
       (updateUniforms (config_as_update (config galaxySimulation)) galaxySimulation)).

(** The panel's edit of the shared [config] object. *)
Definition pane_edit (edit : Config -> Config) (galaxySimulation : GalaxySimulation)
    : GalaxySimulation :=
  {| config := edit (config galaxySimulation);
     COUNT := COUNT galaxySimulation;
     uniforms := uniforms galaxySimulation;
     starSystem := starSystem galaxySimulation;
     cloudSystem := cloudSystem galaxySimulation;
     initialized := initialized galaxySimulation;
     cloudInitialized := cloudInitialized galaxySimulation |}.

(** The shape uniforms [updateUniforms(config)] leaves. *)
Definition shape_of_config (c : Config) (old : GalaxyUniforms) : GalaxyUniforms :=
  {| galaxy_radius := config_galaxyRadius c;
     galaxy_thickness := default (galaxy_thickness old) (config_galaxyThickness c);
     galaxy_spiralTightness := config_spiralTightness c;
     galaxy_armCount := config_armCount c;
     galaxy_armWidth := config_armWidth c;
     galaxy_randomness := config_randomness c |}.


(** Successive frames: [animate] at each clock reading in turn. *)
Section Frames.
Context {helpers : Helpers}.

Fixpoint run_frames (times : list R) (app : App) : option (App * list kernel) :=
  match times with
  | [] => Some (app, [])
  | currentTime :: times' =>
      match animate currentTime app with
      | Some (app', log) =>
          match run_frames times' app' with
          | Some (app'', log') => Some (app'', log ++ log')
          | None => None
          end
      | None => None
      end
  end.

End Frames.

(** Clock readings that never go back, from [t0] on. *)
Fixpoint nondecreasing_from (t0 : R) (times : list R) : Prop :=
  match times with
  | [] => True
  | t :: times' => t0 <= t /\ nondecreasing_from t times'
  end.


(** ** [main.js]: the star count kept across reloads, and the FPS counter

    JavaScript numbers that are finite are rationals here. *)

(** [Math.round(x)]: the nearest integer, halves rounded up. *)
Definition Math_round (x : Q) : Z := Qfloor (x + (1 # 2))%Q.

(** [Math.min(1_000_000, Math.max(1000, Math.round(x / 1000) * 1000))], the
    value both the restore block ([clamped]) and [onStarCountChange]
    ([next]) compute. *)
Definition clampStarCount (x : Q) : Z :=
  Z.min 1000000 (Z.max 1000 (Math_round (x / 1000)%Q * 1000)).

Definition STARCOUNT_STORAGE_KEY : string := "galaxy.starCount".

Section Persistence.
(** [Number(raw)] on a stored string, [None] when the result is not finite,
    and [String(next)] on an integer. *)
Variable Number : string -> option Q.
Variable String : Z -> string.

(** The block that restores [config.starCount] when the page loads. *)
Definition restoreStarCount (sessionStorage : gmap string string) (config : Config)
    : Config :=
  let raw := sessionStorage !! STARCOUNT_STORAGE_KEY in
  let parsed := match raw with Some s => Number s | None => None end in
  match parsed with
  | Some q => let clamped := clampStarCount q in set_starCount (Z.to_nat clamped) config
  | None => config
  end.

(** [onStarCountChange] of the reloading variant, up to [location.reload()]:
    what it leaves in the session storage. *)
Definition onStarCountChange_store (newCount : Q) (sessionStorage : gmap string string)
    : gmap string string :=
  let next := clampStarCount newCount in
  <[STARCOUNT_STORAGE_KEY := String next]> sessionStorage.

End Persistence.

(** The counters behind [updateFPS], with the value the panel shows
    ([perfParams.fps]). *)
Record FpsCounter : Type := {
  frameCount : Z;
  lastTime : Q;
  fps : Z;
  perfParams_fps : Z
}.

Definition updateFPS (currentTime : Q) (c : FpsCounter) : FpsCounter :=
  let frameCount' := (frameCount c + 1)%Z in
  let deltaTime := (currentTime - lastTime c)%Q in
  if Qle_bool 1000 deltaTime
  then let fps' := Math_round (inject_Z (frameCount' * 1000) / deltaTime)%Q in
       {| frameCount := 0; lastTime := currentTime; fps := fps'; perfParams_fps := fps' |}
  else {| frameCount := frameCount'; lastTime := lastTime c; fps := fps c;
          perfParams_fps := perfParams_fps c |}.

(** The decimal numerals of the standard library as one pair of
    conversions. *)
Definition decimal_String (z : Z) : string := NilEmpty.string_of_int (Z.to_int z).
Definition decimal_Number (s : string) : option Q :=
  option_map (fun d => inject_Z (Z.of_int d)) (NilEmpty.int_of_string s).


(** ** The skybox: [cycleSkybox] of the panel and [setSkybox] of [main.js]

    A cube texture is identified with the six addresses it was loaded
    from.  [skyboxes[type]] is read as a lookup among the table's own keys,
    which are the only types the panel ever passes. *)

Record Page : Type := {
  skyboxOrder : list string;
  currentSkyboxIndex : nat;
  skyboxLabel : option nat;
  config_skybox : string;
  loadedSkyboxes : gmap string (list string);
  scene_background : option (list string);
  cubeLoads : list string
}.

(** The [skyboxes] table of [main.js]. *)
Definition main_skyboxes : list (string * list string) :=
  [("default",
    ["./skybox/skybox_front.webp"; "./skybox/skybox_back.webp"; "./skybox/skybox_up.webp";
     "./skybox/skybox_down.webp"; "./skybox/skybox_right.webp"; "./skybox/skybox_left.webp"]);
   ("darkSpace",
    ["./skybox/space_ft.webp"; "./skybox/space_bk.webp"; "./skybox/space_up.webp";
     "./skybox/space_dn.webp"; "./skybox/space_rt.webp"; "./skybox/space_lf.webp"]);
   ("asteroids",
    ["./skybox/asteroids_ft.webp"; "./skybox/asteroids_bk.webp";
     "./skybox/asteroids_up.webp"; "./skybox/asteroids_dn.webp";
     "./skybox/asteroids_rt.webp"; "./skybox/asteroids_lf.webp"]);
   ("nebula",
    ["./skybox/nebulae_ft.webp"; "./skybox/nebulae_bk.webp"; "./skybox/nebulae_up.webp";
     "./skybox/nebulae_dn.webp"; "./skybox/nebulae_rt.webp"; "./skybox/nebulae_lf.webp"])].


(** [updateSkyboxLabel]: the element, when the page has one, shows the
    index counted from 1. *)
Definition updateSkyboxLabel (p : Page) : Page :=
  {| skyboxOrder := skyboxOrder p;
     currentSkyboxIndex := currentSkyboxIndex p;
     skyboxLabel :=
       match skyboxLabel p with
       | Some _ => Some (currentSkyboxIndex p + 1)%nat
       | None => None
       end;
     config_skybox := config_skybox p;
     loadedSkyboxes := loadedSkyboxes p;
     scene_background := scene_background p;
     cubeLoads := cubeLoads p |}.

Section Skybox.
Variable skyboxes : list (string * list string).

(** [setSkybox(type)] *)
Definition setSkybox (type : string) (p : Page) : Page :=
  match (list_to_map skyboxes : gmap string (list string)) !! type with
  | None => p
  | Some urls =>
      let loaded :=
        match loadedSkyboxes p !! type with
        | Some _ => loadedSkyboxes p
        | None => <[type := urls]> (loadedSkyboxes p)
        end in
      {| skyboxOrder := skyboxOrder p;
         currentSkyboxIndex := currentSkyboxIndex p;
         skyboxLabel := skyboxLabel p;
         config_skybox := type;
         loadedSkyboxes := loaded;
         scene_background := loaded !! type;
         cubeLoads :=
           match loadedSkyboxes p !! type with
           | Some _ => cubeLoads p
           | None => cubeLoads p ++ [type]
           end |}
  end.

(** [cycleSkybox], with [onSkyboxChange] bound to [setSkybox] as [main.js]
    binds it.  The index written is below the length, so the read of
    [skyboxOrder] finds an element. *)
Definition cycleSkybox (p : Page) : Page :=
  if bool_decide (length (skyboxOrder p) = 0%nat) then p
  else
    let index := ((currentSkyboxIndex p + 1) mod length (skyboxOrder p))%nat in
    match skyboxOrder p !! index with
    | Some nextSkybox =>
        let p1 :=
          {| skyboxOrder := skyboxOrder p;
             currentSkyboxIndex := index;
             skyboxLabel := skyboxLabel p;
             config_skybox := nextSkybox;
             loadedSkyboxes := loadedSkyboxes p;
             scene_background := scene_background p;
             cubeLoads := cubeLoads p |} in
        updateSkyboxLabel (setSkybox nextSkybox p1)
    | None => p
    end.



End Skybox.


(** A page whose panel points at the last of the four skyboxes. *)
Definition demo_page : Page :=
  {| skyboxOrder := ["default"; "darkSpace"; "asteroids"; "nebula"];
     currentSkyboxIndex := 3;
     skyboxLabel := Some 4%nat;
     config_skybox := "nebula";
     loadedSkyboxes := ∅;
     scene_background := None;
     cubeLoads := [] |}.


(** ** [createStarryBackground]

    [random k] is the value the [k]-th call of [Math.random()] returns; the
    two [Float32Array]s are lists of reals, zero-filled at first. *)

Section StarryBackground.
Variable random : nat -> R.

(** One turn of the loop, for star [i]: four draws, six writes. *)
Definition starry_step (i : nat) (arrays : list R * list R) : list R * list R :=
  let starPositions := fst arrays in
  let starColors := snd arrays in
  let theta := random (4 * i) * PI * 2 in
  let phi := acos (2 * random (4 * i + 1) - 1) in
  let radius := 150 + random (4 * i + 2) * 50 in
  let starPositions := <[(i * 3)%nat := radius * sin phi * cos theta]> starPositions in
  let starPositions := <[(i * 3 + 1)%nat := radius * sin phi * sin theta]> starPositions in
  let starPositions := <[(i * 3 + 2)%nat := radius * cos phi]> starPositions in
  let color := 0.8 + random (4 * i + 3) * 0.2 in
  let starColors := <[(i * 3)%nat := color]> starColors in
  let starColors := <[(i * 3 + 1)%nat := color]> starColors in
  let starColors := <[(i * 3 + 2)%nat := color]> starColors in
  (starPositions, starColors).

(** The position and colour arrays [createStarryBackground] fills. *)
Definition createStarryBackground (count : nat) : list R * list R :=
  foldl (fun arrays i => starry_step i arrays)
        (replicate (count * 3) 0, replicate (count * 3) 0)
        (seq 0 count).

(** What the loop writes for star [i]. *)
Definition starry_position (i : nat) : list R :=
  let theta := random (4 * i) * PI * 2 in
  let phi := acos (2 * random (4 * i + 1) - 1) in
  let radius := 150 + random (4 * i + 2) * 50 in
  [radius * sin phi * cos theta; radius * sin phi * sin theta; radius * cos phi].

Definition starry_color (i : nat) : list R :=
  let color := 0.8 + random (4 * i + 3) * 0.2 in
  [color; color; color].

End StarryBackground.


(** * Properties *)

(** ** Buffers and dispatch *)

Lemma dispatch_S {B : Type} (kernel : nat -> B -> B) (count : nat) (b : B) :
  dispatch kernel (S count) b = kernel count (dispatch kernel count b).
Proof.
  unfold dispatch. rewrite seq_S, foldl_app. reflexivity.
Qed.

(** Writing [f 0], ..., [f (n-1)] into a buffer of [n] elements leaves
    nothing of its former contents. *)
Lemma foldl_insert_const {A : Type} (f : nat -> A) (n : nat) (l : list A) :
  length l = n ->
  foldl (fun acc i => <[i := f i]> acc) l (seq 0 n) = map f (seq 0 n).
Proof.
  revert l. induction n as [|n IH]; intros l Hlen.
  - destruct l; [reflexivity | discriminate].
  - destruct (decide (l = [])) as [->|Hne]; [discriminate|].
    destruct (exists_last Hne) as (l' & a & ->).
    rewrite length_app in Hlen. simpl in Hlen.
    assert (Hl' : length l' = n) by lia.
    rewrite seq_S, foldl_app, map_app. simpl.
    assert (Hpre : forall js (acc : list A),
               Forall (fun j => (j < length acc)%nat) js ->
               foldl (fun acc i => <[i := f i]> acc) (acc ++ [a]) js
               = foldl (fun acc i => <[i := f i]> acc) acc js ++ [a]).
    { induction js as [|j js IHjs]; intros acc Hjs; [reflexivity|].
      inversion Hjs as [|? ? Hj Hjs']; subst. simpl.
      rewrite insert_app_l by exact Hj.
      apply IHjs. eapply Forall_impl; [exact Hjs'|].
      intros k Hk. simpl in Hk. rewrite length_insert. exact Hk. }
    rewrite Hpre.
    + rewrite (IH l' Hl').
      replace n with (length (map f (seq 0 n)) + 0)%nat at 1
        by (rewrite length_map, length_seq; lia).
      rewrite insert_app_r. reflexivity.
    + apply Forall_forall. intros j Hj. apply list_elem_of_In, in_seq in Hj. lia.
Qed.

Section GenerationDispatch.
Context {helpers : Helpers}.

Lemma foldl_computeInit (u : Uniforms) (js : list nat) (b : StarBuffers) :
  foldl (fun acc idx => computeInit u idx acc) b js =
  {| spawnPositionBuffer :=
       foldl (fun acc i => <[i := si_position (computeInit_locals u i)]> acc)
             (spawnPositionBuffer b) js;
     originalPositionBuffer :=
       foldl (fun acc i => <[i := si_position (computeInit_locals u i)]> acc)
             (originalPositionBuffer b) js;
     velocityBuffer :=
       foldl (fun acc i => <[i := si_velocity (computeInit_locals u i)]> acc)
             (velocityBuffer b) js;
     densityFactorBuffer :=
       foldl (fun acc i => <[i := si_sparsityFactor (computeInit_locals u i)]> acc)
             (densityFactorBuffer b) js |}.
Proof.
  revert b. induction js as [|j js IH]; intros b.
  - destruct b; reflexivity.
  - simpl. rewrite IH. reflexivity.
Qed.

Lemma foldl_cloudInit (u : Uniforms) (js : list nat) (b : CloudBuffers) :
  foldl (fun acc idx => cloudInit u idx acc) b js =
  {| cloudPositionBuffer :=
       foldl (fun acc i => <[i := ci_position (cloudInit_locals u i)]> acc)
             (cloudPositionBuffer b) js;
     cloudOriginalPositionBuffer :=
       foldl (fun acc i => <[i := ci_position (cloudInit_locals u i)]> acc)
             (cloudOriginalPositionBuffer b) js;
     cloudColorSizeBuffer :=
       foldl (fun acc i => <[i := ci_colorSize (cloudInit_locals u i)]> acc)
             (cloudColorSizeBuffer b) js;
     cloudRotationBuffer :=
       foldl (fun acc i => <[i := ci_rotation (cloudInit_locals u i)]> acc)
             (cloudRotationBuffer b) js |}.
Proof.
  revert b. induction js as [|j js IH]; intros b.
  - destruct b; reflexivity.
  - simpl. rewrite IH. reflexivity.
Qed.

(** The generation step overwrites all four star buffers with values that
    depend on the index and the uniforms alone. *)
Lemma run_star_computeInit (u : Uniforms) (g : StarSystem) :
  star_sized g ->
  star_buffers (run_star computeInit u g) =
  {| spawnPositionBuffer :=
       map (fun i => si_position (computeInit_locals u i)) (seq 0 (star_count g));
     originalPositionBuffer :=
       map (fun i => si_position (computeInit_locals u i)) (seq 0 (star_count g));
     velocityBuffer :=
       map (fun i => si_velocity (computeInit_locals u i)) (seq 0 (star_count g));
     densityFactorBuffer :=
       map (fun i => si_sparsityFactor (computeInit_locals u i)) (seq 0 (star_count g)) |}.
Proof.
  intros (H1 & H2 & H3 & H4). unfold run_star, dispatch. simpl.
  rewrite foldl_computeInit.
  rewrite !foldl_insert_const by assumption. reflexivity.
Qed.

Lemma run_cloud_cloudInit (u : Uniforms) (c : CloudSystem) :
  cloud_sized c ->
  cloud_buffers (run_cloud cloudInit u c) =
  {| cloudPositionBuffer :=
       map (fun i => ci_position (cloudInit_locals u i)) (seq 0 (cloud_count c));
     cloudOriginalPositionBuffer :=
       map (fun i => ci_position (cloudInit_locals u i)) (seq 0 (cloud_count c));
     cloudColorSizeBuffer :=
       map (fun i => ci_colorSize (cloudInit_locals u i)) (seq 0 (cloud_count c));
     cloudRotationBuffer :=
       map (fun i => ci_rotation (cloudInit_locals u i)) (seq 0 (cloud_count c)) |}.
Proof.
  intros (H1 & H2 & H3 & H4). unfold run_cloud, dispatch. simpl.
  rewrite foldl_cloudInit.
  rewrite !foldl_insert_const by assumption. reflexivity.
Qed.

Lemma lookup_map_seq {A : Type} (f : nat -> A) (n idx : nat) :
  (idx < n)%nat -> map f (seq 0 n) !! idx = Some (f idx).
Proof.
  intros Hidx. rewrite list_lookup_fmap.
  rewrite lookup_seq_lt by exact Hidx. reflexivity.
Qed.

End GenerationDispatch.

(** ** Generation: position and anchor coincide *)

(** C1. Immediately after the generation step has run over a subsystem
    ([computeInit] for the stars, [cloudInit] for the clouds), every particle
    index below the count holds the same vector in the position buffer and
    in the anchor buffer, component for component: the vector the invocation
    of that index computed. *)
Theorem generation_position_equals_anchor {helpers : Helpers}
    (u : Uniforms) (g : StarSystem) (c : CloudSystem) (idx : nat) :
  star_sized g -> cloud_sized c ->
  ((idx < star_count g)%nat ->
     let b := star_buffers (run_star computeInit u g) in
     spawnPositionBuffer b !! idx = Some (si_position (computeInit_locals u idx)) /\
     originalPositionBuffer b !! idx = spawnPositionBuffer b !! idx /\
     vx (element (spawnPositionBuffer b) idx) = vx (element (originalPositionBuffer b) idx) /\
     vy (element (spawnPositionBuffer b) idx) = vy (element (originalPositionBuffer b) idx) /\
     vz (element (spawnPositionBuffer b) idx) = vz (element (originalPositionBuffer b) idx)) /\
  ((idx < cloud_count c)%nat ->
     let b := cloud_buffers (run_cloud cloudInit u c) in
     cloudPositionBuffer b !! idx = Some (ci_position (cloudInit_locals u idx)) /\
     cloudOriginalPositionBuffer b !! idx = cloudPositionBuffer b !! idx /\
     vx (element (cloudPositionBuffer b) idx) = vx (element (cloudOriginalPositionBuffer b) idx) /\
     vy (element (cloudPositionBuffer b) idx) = vy (element (cloudOriginalPositionBuffer b) idx) /\
     vz (element (cloudPositionBuffer b) idx) = vz (element (cloudOriginalPositionBuffer b) idx)).
Proof.
  intros Hg Hc. split; intros Hidx b; subst b.
  - rewrite run_star_computeInit by exact Hg. simpl.
    unfold element. rewrite lookup_map_seq by exact Hidx. auto.
  - rewrite run_cloud_cloudInit by exact Hc. simpl.
    unfold element. rewrite lookup_map_seq by exact Hidx. auto.
Qed.

Lemma demo_stars_sized : star_sized demo_stars.
Proof. repeat split. Qed.

Lemma demo_clouds_sized : cloud_sized demo_clouds.
Proof. repeat split. Qed.

Lemma generation_position_equals_anchor_witness :
  star_sized demo_stars /\ cloud_sized demo_clouds /\
  originalPositionBuffer
    (star_buffers (run_star (computeInit (helpers := demo_helpers))
                     (initializeUniforms (main_config 2 1)) demo_stars)) !! 1%nat
  = spawnPositionBuffer
      (star_buffers (run_star (computeInit (helpers := demo_helpers))
                       (initializeUniforms (main_config 2 1)) demo_stars)) !! 1%nat.
Proof.
  split; [exact demo_stars_sized|]. split; [exact demo_clouds_sized|].
  apply (generation_position_equals_anchor (helpers := demo_helpers)
           (initializeUniforms (main_config 2 1)) demo_stars demo_clouds 1
           demo_stars_sized demo_clouds_sized).
  simpl. lia.
Defined.

(** ** The update kernel and the anchor *)

Section AnchorUpdate.
Context {helpers : Helpers}.

Lemma computeUpdate_anchor (u : Uniforms) (idx : nat) (b : StarBuffers) :
  originalPositionBuffer (computeUpdate u idx b) =
  <[idx := rotated_anchor u (element (originalPositionBuffer b) idx)]>
    (originalPositionBuffer b).
Proof. reflexivity. Qed.

Lemma cloudUpdate_anchor (u : Uniforms) (idx : nat) (b : CloudBuffers) :
  cloudOriginalPositionBuffer (cloudUpdate u idx b) =
  <[idx := rotated_anchor u (element (cloudOriginalPositionBuffer b) idx)]>
    (cloudOriginalPositionBuffer b).
Proof. reflexivity. Qed.

(** Velocities and sparsity factors are not written by the update. *)
Lemma computeUpdate_attributes (u : Uniforms) (idx : nat) (b : StarBuffers) :
  velocityBuffer (computeUpdate u idx b) = velocityBuffer b /\
  densityFactorBuffer (computeUpdate u idx b) = densityFactorBuffer b.
Proof. split; reflexivity. Qed.

End AnchorUpdate.

(** C2. In one invocation of the update kernel ([computeUpdate] for a star,
    [cloudUpdate] for a cloud) the anchor entry of the particle becomes the
    differential rotation of its former value and nothing else: two
    invocations that agree on the rotation helper, the rotation speed, the
    time step and the anchor buffer leave the same anchor buffer, whatever
    the pointer state, the pointer-force and spring helpers, the other
    uniforms and the position buffer are. *)
Theorem anchor_moves_by_rotation_only
    (h1 h2 : Helpers) (u1 u2 : Uniforms) (idx : nat)
    (s1 s2 : StarBuffers) (c1 c2 : CloudBuffers) :
  @applyDifferentialRotation h1 = @applyDifferentialRotation h2 ->
  compute_rotationSpeed (compute u1) = compute_rotationSpeed (compute u2) ->
  compute_deltaTime (compute u1) = compute_deltaTime (compute u2) ->
  originalPositionBuffer s1 = originalPositionBuffer s2 ->
  cloudOriginalPositionBuffer c1 = cloudOriginalPositionBuffer c2 ->
  originalPositionBuffer (computeUpdate (helpers := h1) u1 idx s1)
    = originalPositionBuffer (computeUpdate (helpers := h2) u2 idx s2) /\
  originalPositionBuffer (computeUpdate (helpers := h1) u1 idx s1)
    = <[idx := @applyDifferentialRotation h1 (element (originalPositionBuffer s1) idx)
                 (compute_rotationSpeed (compute u1)) (compute_deltaTime (compute u1))]>
        (originalPositionBuffer s1) /\
  cloudOriginalPositionBuffer (cloudUpdate (helpers := h1) u1 idx c1)
    = cloudOriginalPositionBuffer (cloudUpdate (helpers := h2) u2 idx c2) /\
  cloudOriginalPositionBuffer (cloudUpdate (helpers := h1) u1 idx c1)
    = <[idx := @applyDifferentialRotation h1 (element (cloudOriginalPositionBuffer c1) idx)
                 (compute_rotationSpeed (compute u1)) (compute_deltaTime (compute u1))]>
        (cloudOriginalPositionBuffer c1).
Proof.
  intros Hrot Hspeed Hdt Hs Hc.
  rewrite !computeUpdate_anchor, !cloudUpdate_anchor. unfold rotated_anchor.
  rewrite Hrot, Hspeed, Hdt, Hs, Hc. auto.
Qed.

Lemma anchor_moves_by_rotation_only_witness :
  originalPositionBuffer
    (computeUpdate (helpers := demo_helpers)
       (initializeUniforms (main_config 2 1)) 0 (star_buffers demo_stars))
  = originalPositionBuffer
      (computeUpdate (helpers := demo_helpers')
         demo_pressed_uniforms 0 demo_pushed_stars).
Proof.
  apply (anchor_moves_by_rotation_only demo_helpers demo_helpers'
           (initializeUniforms (main_config 2 1)) demo_pressed_uniforms 0
           (star_buffers demo_stars) demo_pushed_stars
           (cloud_buffers demo_clouds) demo_pushed_clouds);
    reflexivity.
Defined.

(** ** Vectors *)

Lemma vec3_eq (a b : vec3) :
  vx a = vx b -> vy a = vy b -> vz a = vz b -> a = b.
Proof. destruct a, b. simpl. intros -> -> ->. reflexivity. Qed.

Lemma vadd_vzero_r (a : vec3) : vadd a vzero = a.
Proof. apply vec3_eq; simpl; lra. Qed.

Lemma distance_sym (a b : vec3) : distance a b = distance b a.
Proof. unfold distance, vlength. f_equal. simpl. ring. Qed.



(** ** The pointer force *)

Section PointerForce.
Context {helpers : Helpers}.

Lemma computeUpdate_position (u : Uniforms) (idx : nat) (b : StarBuffers) :
  spawnPositionBuffer (computeUpdate u idx b) =
  <[idx := updated_position 2.0 u (element (spawnPositionBuffer b) idx)
             (element (originalPositionBuffer b) idx)]> (spawnPositionBuffer b).
Proof. reflexivity. Qed.

Lemma cloudUpdate_position (u : Uniforms) (idx : nat) (b : CloudBuffers) :
  cloudPositionBuffer (cloudUpdate u idx b) =
  <[idx := updated_position 1.0 u (element (cloudPositionBuffer b) idx)
             (element (cloudOriginalPositionBuffer b) idx)]> (cloudPositionBuffer b).
Proof. reflexivity. Qed.

End PointerForce.

Lemma spec_applyMouseForce_inactive (falloff : R -> R -> R)
    (pos mouse : vec3) (mouseActive mouseForce mouseRadius deltaTime : R) :
  mouseActive = 0 ->
  spec_applyMouseForce falloff pos mouse mouseActive mouseForce mouseRadius deltaTime = vzero.
Proof.
  intros Hoff. unfold spec_applyMouseForce.
  destruct (Req_dec_T mouseActive 0) as [_|Hne]; [reflexivity | contradiction].
Qed.

Lemma spec_applyMouseForce_outside (falloff : R -> R -> R)
    (pos mouse : vec3) (mouseActive mouseForce mouseRadius deltaTime : R) :
  mouseRadius <= distance mouse pos ->
  spec_applyMouseForce falloff pos mouse mouseActive mouseForce mouseRadius deltaTime = vzero.
Proof.
  intros Hfar. unfold spec_applyMouseForce.
  destruct (Req_dec_T mouseActive 0) as [_|_]; [reflexivity|].
  rewrite distance_sym in Hfar. unfold distance in Hfar.
  destruct (Rlt_dec (vlength (vsub pos mouse)) mouseRadius) as [Hlt|_]; [lra | reflexivity].
Qed.

(** C3. With the helpers as the specification describes them: in an update
    step whose pointer flag is false, or in which the pointer lies at least
    [mouseRadius] away from the particle's (already rotated) position, the
    pointer-force displacement added to the position is the zero vector, so
    [computeUpdate] and [cloudUpdate] write back the rotated position moved
    by the spring alone. *)
Theorem pointer_force_zero_outside_radius
    (hashFn : R -> R) (rotationAngle : R -> R -> R -> R) (falloff : R -> R -> R)
    (this : GalaxySimulation) (deltaTime : R) (mouse3D : vec3) (mousePressed : bool)
    (idx : nat) (position : vec3) :
  let helpers := spec_helpers hashFn rotationAngle falloff in
  let u := uniforms (set_frame_uniforms deltaTime mouse3D mousePressed this) in
  mousePressed = false \/
    compute_mouseRadius (compute u) <= distance mouse3D (rotated_position u position) ->
  pointer_displacement u position = vzero /\
  (forall b : StarBuffers,
     element (spawnPositionBuffer b) idx = position ->
     spawnPositionBuffer (computeUpdate u idx b) =
     <[idx := vadd (rotated_position u position)
                (applySpringForce (rotated_position u position)
                   (rotated_anchor u (element (originalPositionBuffer b) idx))
                   2.0 deltaTime)]> (spawnPositionBuffer b)) /\
  (forall c : CloudBuffers,
     element (cloudPositionBuffer c) idx = position ->
     cloudPositionBuffer (cloudUpdate u idx c) =
     <[idx := vadd (rotated_position u position)
                (applySpringForce (rotated_position u position)
                   (rotated_anchor u (element (cloudOriginalPositionBuffer c) idx))
                   1.0 deltaTime)]> (cloudPositionBuffer c)).
Proof.
  intros helpers u Hcond.
  assert (Hzero : pointer_displacement u position = vzero).
  { unfold pointer_displacement. simpl.
    destruct Hcond as [-> | Hfar].
    - apply spec_applyMouseForce_inactive. lra.
    - apply spec_applyMouseForce_outside. exact Hfar. }
  split; [exact Hzero|].
  split.
  - intros b Hb. rewrite computeUpdate_position, Hb.
    unfold updated_position. rewrite Hzero, vadd_vzero_r. reflexivity.
  - intros c Hc. rewrite cloudUpdate_position, Hc.
    unfold updated_position. rewrite Hzero, vadd_vzero_r. reflexivity.
Qed.

Lemma pointer_force_zero_outside_radius_witness :
  pointer_displacement (helpers := demo_helpers)
    (uniforms (set_frame_uniforms 0.016 (Vec3 1 2 3) false (constructor (main_config 2 1))))
    (Vec3 1 0 0) = vzero.
Proof.
  apply (pointer_force_zero_outside_radius demo_hash demo_rotationAngle demo_falloff
           (constructor (main_config 2 1)) 0.016 (Vec3 1 2 3) false 0 (Vec3 1 0 0)).
  left. reflexivity.
Defined.

(** ** Relaxation toward the anchor *)











(** ** [update] computed *)

Section UpdateComputed.
Context {helpers : Helpers}.

Lemma update_computed (deltaTime : R) (mouse3D : vec3) (mousePressed : bool)
    (this : GalaxySimulation) (g : StarSystem) :
  starSystem this = Some g ->
  update deltaTime mouse3D mousePressed this =
  Some (tt, fst (update_outcome deltaTime mouse3D mousePressed this g),
        snd (update_outcome deltaTime mouse3D mousePressed this g)).
Proof.
  intros Hg. destruct this as [cfg cnt u ss cs ini cini]. simpl in Hg. subst ss.
  unfold update, update_outcome, mbind, M_bind, mret, M_ret, when, get_this, modify_this.
  destruct ini, cini, cs as [c|]; reflexivity.
Qed.

(** [update] throws exactly when the star system has not been created. *)
Lemma update_throws (deltaTime : R) (mouse3D : vec3) (mousePressed : bool)
    (this : GalaxySimulation) :
  starSystem this = None ->
  update deltaTime mouse3D mousePressed this = None.
Proof.
  intros Hg. destruct this as [cfg cnt u ss cs ini cini]. simpl in Hg. subst ss.
  unfold update, mbind, M_bind, mret, M_ret, when, get_this, modify_this.
  destruct ini, cini, cs as [c|]; reflexivity.
Qed.

End UpdateComputed.

(** ** Determinism of the generation step *)

Section Determinism.
Context {helpers : Helpers}.

Lemma computeInit_locals_galaxy (u1 u2 : Uniforms) (idx : nat) :
  galaxy u1 = galaxy u2 -> computeInit_locals u1 idx = computeInit_locals u2 idx.
Proof. intros Hu. unfold computeInit_locals. rewrite Hu. reflexivity. Qed.

Lemma cloudInit_locals_galaxy (u1 u2 : Uniforms) (idx : nat) :
  galaxy u1 = galaxy u2 ->
  visual_cloudTintColor (visual u1) = visual_cloudTintColor (visual u2) ->
  cloudInit_locals u1 idx = cloudInit_locals u2 idx.
Proof. intros Hu Hv. unfold cloudInit_locals. rewrite Hu, Hv. reflexivity. Qed.

Lemma generated_stars_galaxy (u1 u2 : Uniforms) (count : nat) :
  galaxy u1 = galaxy u2 -> generated_stars u1 count = generated_stars u2 count.
Proof.
  intros Hu. unfold generated_stars.
  f_equal; apply map_ext; intros i; rewrite (computeInit_locals_galaxy u1 u2 i Hu);
    reflexivity.
Qed.

Lemma generated_clouds_galaxy (u1 u2 : Uniforms) (count : nat) :
  galaxy u1 = galaxy u2 ->
  visual_cloudTintColor (visual u1) = visual_cloudTintColor (visual u2) ->
  generated_clouds u1 count = generated_clouds u2 count.
Proof.
  intros Hu Hv. unfold generated_clouds.
  f_equal; apply map_ext; intros i; rewrite (cloudInit_locals_galaxy u1 u2 i Hu Hv);
    reflexivity.
Qed.

Lemma run_star_generated (u : Uniforms) (g : StarSystem) :
  star_sized g ->
  run_star computeInit u g =
  {| star_count := star_count g; star_buffers := generated_stars u (star_count g) |}.
Proof.
  intros Hg. pose proof (run_star_computeInit u g Hg) as Hb.
  unfold run_star in *. simpl in Hb. rewrite Hb. reflexivity.
Qed.

Lemma run_cloud_generated (u : Uniforms) (c : CloudSystem) :
  cloud_sized c ->
  run_cloud cloudInit u c =
  {| cloud_count := cloud_count c; cloud_buffers := generated_clouds u (cloud_count c) |}.
Proof.
  intros Hc. pose proof (run_cloud_cloudInit u c Hc) as Hb.
  unfold run_cloud in *. simpl in Hb. rewrite Hb. reflexivity.
Qed.

Lemma computeUpdate_physics (u1 u2 : Uniforms) (idx : nat) (b : StarBuffers) :
  physics_alike u1 u2 -> computeUpdate u1 idx b = computeUpdate u2 idx b.
Proof.
  intros (H1 & H2 & H3 & H4 & H5 & H6). unfold computeUpdate.
  rewrite H1, H2, H3, H4, H5, H6. reflexivity.
Qed.

Lemma cloudUpdate_physics (u1 u2 : Uniforms) (idx : nat) (b : CloudBuffers) :
  physics_alike u1 u2 -> cloudUpdate u1 idx b = cloudUpdate u2 idx b.
Proof.
  intros (H1 & H2 & H3 & H4 & H5 & H6). unfold cloudUpdate.
  rewrite H1, H2, H3, H4, H5, H6. reflexivity.
Qed.

Lemma dispatch_ext {B : Type} (k1 k2 : nat -> B -> B) (count : nat) (b : B) :
  (forall idx acc, k1 idx acc = k2 idx acc) ->
  dispatch k1 count b = dispatch k2 count b.
Proof.
  intros Hk. induction count as [|n IH]; [reflexivity|].
  rewrite !dispatch_S, IH. apply Hk.
Qed.

End Determinism.

(** C5. The generation step is a function of the particle index, the shape
    uniforms (and the tint, for clouds) and the count: run on two objects
    that agree on these, it leaves identical position, anchor, velocity and
    derived-attribute buffers, whatever the buffers held before.  As a
    consequence [regenerate()] followed by [update] leaves the same star and
    cloud systems on both objects when the frame arguments and the physics
    parameters agree as well. *)
Theorem generation_is_deterministic {helpers : Helpers}
    (this1 this2 : GalaxySimulation) (g1 g2 : StarSystem)
    (deltaTime : R) (mouse3D : vec3) (mousePressed : bool) :
  starSystem this1 = Some g1 -> starSystem this2 = Some g2 ->
  star_sized g1 -> star_sized g2 -> star_count g1 = star_count g2 ->
  clouds_alike (cloudSystem this1) (cloudSystem this2) ->
  galaxy (uniforms this1) = galaxy (uniforms this2) ->
  visual_cloudTintColor (visual (uniforms this1))
    = visual_cloudTintColor (visual (uniforms this2)) ->
  run_star computeInit (uniforms this1) g1 = run_star computeInit (uniforms this2) g2 /\
  star_buffers (run_star computeInit (uniforms this1) g1)
    = generated_stars (uniforms this1) (star_count g1) /\
  option_map (run_cloud cloudInit (uniforms this1)) (cloudSystem this1)
    = option_map (run_cloud cloudInit (uniforms this2)) (cloudSystem this2) /\
  (compute_mouseForce (compute (uniforms this1))
     = compute_mouseForce (compute (uniforms this2)) ->
   compute_mouseRadius (compute (uniforms this1))
     = compute_mouseRadius (compute (uniforms this2)) ->
   compute_rotationSpeed (compute (uniforms this1))
     = compute_rotationSpeed (compute (uniforms this2)) ->
   exists r1 r2 log,
     update deltaTime mouse3D mousePressed (regenerate this1) = Some (tt, r1, log) /\
     update deltaTime mouse3D mousePressed (regenerate this2) = Some (tt, r2, log) /\
     starSystem r1 = starSystem r2 /\
     cloudSystem r1 = cloudSystem r2).
Proof.
  intros Hs1 Hs2 Hg1 Hg2 Hcount Hclouds Hgal Htint.
  assert (Hstars : run_star computeInit (uniforms this1) g1
                   = run_star computeInit (uniforms this2) g2).
  { rewrite !run_star_generated by assumption.
    rewrite Hcount, (generated_stars_galaxy _ _ _ Hgal). reflexivity. }
  assert (Hcl : option_map (run_cloud cloudInit (uniforms this1)) (cloudSystem this1)
                = option_map (run_cloud cloudInit (uniforms this2)) (cloudSystem this2)).
  { unfold clouds_alike in Hclouds.
    destruct (cloudSystem this1) as [c1|], (cloudSystem this2) as [c2|];
      try contradiction; [|reflexivity].
    destruct Hclouds as (Hc1 & Hc2 & Hcc). simpl.
    rewrite !run_cloud_generated by assumption.
    rewrite Hcc, (generated_clouds_galaxy _ _ _ Hgal Htint). reflexivity. }
  split; [exact Hstars|].
  split; [rewrite run_star_generated by assumption; reflexivity|].
  split; [exact Hcl|].
  intros Hforce Hradius Hspeed.
  assert (Hr1 : starSystem (regenerate this1) = Some g1) by exact Hs1.
  assert (Hr2 : starSystem (regenerate this2) = Some g2) by exact Hs2.
  rewrite (update_computed _ _ _ _ _ Hr1), (update_computed _ _ _ _ _ Hr2).
  assert (Hphys : physics_alike
            (uniforms (set_frame_uniforms deltaTime mouse3D mousePressed (regenerate this1)))
            (uniforms (set_frame_uniforms deltaTime mouse3D mousePressed (regenerate this2)))).
  { repeat split; simpl; assumption || reflexivity. }
  assert (Hsome : bool_decide (is_Some (cloudSystem this1))
                  = bool_decide (is_Some (cloudSystem this2))).
  { unfold clouds_alike in Hclouds.
    destruct (cloudSystem this1), (cloudSystem this2); try contradiction; reflexivity. }
  exists (fst (update_outcome deltaTime mouse3D mousePressed (regenerate this1) g1)),
         (fst (update_outcome deltaTime mouse3D mousePressed (regenerate this2) g2)),
         (snd (update_outcome deltaTime mouse3D mousePressed (regenerate this1) g1)).
  split; [reflexivity|]. split.
  { do 2 f_equal. unfold update_outcome. simpl. rewrite Hsome. reflexivity. }
  unfold update_outcome. simpl. rewrite Hstars. split.
  - f_equal. unfold run_star. f_equal.
    apply dispatch_ext. intros idx acc. apply computeUpdate_physics. exact Hphys.
  - destruct (cloudSystem this1) as [c1|], (cloudSystem this2) as [c2|];
      cbn [option_map] in Hcl |- *; try discriminate; [|reflexivity].
    apply (inj Some) in Hcl. rewrite Hcl. f_equal. unfold run_cloud. f_equal.
    apply dispatch_ext. intros idx acc. apply cloudUpdate_physics. exact Hphys.
Qed.

Lemma demo_pushed_stars_sized :
  star_sized {| star_count := 2; star_buffers := demo_pushed_stars |}.
Proof. repeat split. Qed.

Lemma generation_is_deterministic_witness :
  run_star (computeInit (helpers := demo_helpers)) (uniforms demo_sim) demo_stars
  = run_star (computeInit (helpers := demo_helpers)) (uniforms demo_later_sim)
      {| star_count := 2; star_buffers := demo_pushed_stars |}.
Proof.
  apply (generation_is_deterministic (helpers := demo_helpers)
           demo_sim demo_later_sim demo_stars
           {| star_count := 2; star_buffers := demo_pushed_stars |}
           0.016 vzero false).
  - reflexivity.
  - reflexivity.
  - exact demo_stars_sized.
  - exact demo_pushed_stars_sized.
  - reflexivity.
  - simpl. repeat split.
  - reflexivity.
  - reflexivity.
Defined.

(** ** The ideal spiral *)

Lemma floor_bounds (x : R) : floor x <= x < floor x + 1.
Proof.
  unfold floor. destruct (base_Int_part x) as [Hle Hgt]. lra.
Qed.

(** [floor] of a number in [[0, 2)] is 0 or 1. *)
Lemma floor_below_two (x : R) : 0 <= x < 2 -> floor x = 0 \/ floor x = 1.
Proof.
  intros [H0 H2]. pose proof (floor_bounds x) as [Hle Hlt]. unfold floor in *.
  assert (Hz : (-1 < Int_part x < 2)%Z).
  { split; apply lt_IZR; lra. }
  assert (Hcases : Int_part x = 0%Z \/ Int_part x = 1%Z) by lia.
  destruct Hcases as [-> | ->]; auto.
Qed.

(** The sixth partial sum of the arctangent series for [PI / 4]. *)
Lemma PI_above_constant : 3.14159 < PI.
Proof.
  pose proof (PI_2_3_7_ineq 2) as [Hlow _].
  unfold sum_f_R0, tg_alt, PI_2_3_7_tg, Ratan_seq in Hlow.
  simpl in Hlow. lra.
Qed.

Lemma pow_nonneg (x y : R) : 0 <= pow x y.
Proof.
  unfold pow. destruct (Rlt_dec 0 x) as [Hx|Hx]; [|lra].
  unfold Rpower. left. apply exp_pos.
Qed.

Lemma pow_positive (x y : R) : 0 < x -> 0 < pow x y.
Proof.
  intros Hx. unfold pow. destruct (Rlt_dec 0 x) as [_|Hn]; [|contradiction].
  unfold Rpower. apply exp_pos.
Qed.

(** The locals of a star generated in the scenario. *)
Lemma scenario_locals {helpers : Helpers} (u : Uniforms) (idx : nat) :
  (forall s, 0 <= hash s < 1) ->
  galaxy_armCount (galaxy u) = 2 ->
  galaxy_spiralTightness (galaxy u) = 1.5 ->
  galaxy_radius (galaxy u) = 13 ->
  galaxy_randomness (galaxy u) = 0 ->
  galaxy_armWidth (galaxy u) = 0 ->
  let l := computeInit_locals u idx in
  si_angleOffset l = 0 /\
  si_radiusOffset l = 0 /\
  (si_armIndex l = 0 \/ si_armIndex l = 1) /\
  si_angle l = si_armIndex l * 3.14159 + si_normalizedRadius l * 1.5 * 6.28318 /\
  vx (si_position l) = cos (si_angle l) * si_radius l /\
  vz (si_position l) = sin (si_angle l) * si_radius l.
Proof.
  intros Hhash Harms Htight Hrad Hrand Hwidth l. subst l.
  unfold computeInit_locals. simpl.
  rewrite Harms, Htight, Hrad, Hrand, Hwidth.
  split; [ring|]. split; [ring|].
  split.
  { apply floor_below_two. specialize (Hhash (INR idx + 2)). lra. }
  split; [lra|]. split; f_equal; ring.
Qed.

(** C6, as the code has it.  In the scenario (two arms, tightness 1.5,
    radius 13, no randomness, no arm width) both jitter terms of a generated
    star are zero, its arm index is 0 or 1, and its angle is
    [armIndex * 3.14159 + normalizedRadius * 1.5 * 6.28318], with the
    constant [6.28318] the kernel uses for a full turn; the star lies on that
    curve at its drawn radius. *)
Theorem scenario_angle_on_spiral {helpers : Helpers} (u : Uniforms) (idx : nat) :
  (forall s, 0 <= hash s < 1) ->
  galaxy_armCount (galaxy u) = 2 ->
  galaxy_spiralTightness (galaxy u) = 1.5 ->
  galaxy_radius (galaxy u) = 13 ->
  galaxy_randomness (galaxy u) = 0 ->
  galaxy_armWidth (galaxy u) = 0 ->
  let l := computeInit_locals u idx in
  si_angleOffset l = 0 /\
  si_radiusOffset l = 0 /\
  (si_armIndex l = 0 \/ si_armIndex l = 1) /\
  si_angle l = si_armIndex l * 3.14159 + si_normalizedRadius l * 1.5 * 6.28318 /\
  vx (si_position l) = cos (si_angle l) * si_radius l /\
  vz (si_position l) = sin (si_angle l) * si_radius l.
Proof.
  intros Hhash Harms Htight Hrad Hrand Hwidth.
  exact (scenario_locals u idx Hhash Harms Htight Hrad Hrand Hwidth).
Qed.

Lemma scenario_angle_on_spiral_witness :
  si_angle (computeInit_locals (helpers := demo_helpers) scenario_uniforms 0)
  = si_armIndex (computeInit_locals (helpers := demo_helpers) scenario_uniforms 0) * 3.14159
    + si_normalizedRadius (computeInit_locals (helpers := demo_helpers) scenario_uniforms 0)
      * 1.5 * 6.28318.
Proof.
  apply (scenario_angle_on_spiral (helpers := demo_helpers) scenario_uniforms 0).
  - intros s. simpl. unfold demo_hash. lra.
  - reflexivity.
  - reflexivity.
  - reflexivity.
  - reflexivity.
  - reflexivity.
Defined.

(** With [PI] itself the equation fails wherever the drawn radius is not
    zero: the kernel's full turn is [6.28318], short of [2 * PI]. *)
Lemma scenario_angle_off_exact_spiral {helpers : Helpers} (u : Uniforms) (idx : nat) :
  (forall s, 0 <= hash s < 1) ->
  galaxy_armCount (galaxy u) = 2 ->
  galaxy_spiralTightness (galaxy u) = 1.5 ->
  galaxy_radius (galaxy u) = 13 ->
  galaxy_randomness (galaxy u) = 0 ->
  galaxy_armWidth (galaxy u) = 0 ->
  0 < hash (INR idx + 1) ->
  let l := computeInit_locals u idx in
  si_angle l <> si_armIndex l * PI + si_normalizedRadius l * 1.5 * (2 * PI).
Proof.
  intros Hhash Harms Htight Hrad Hrand Hwidth Hpos l.
  destruct (scenario_locals u idx Hhash Harms Htight Hrad Hrand Hwidth)
    as (_ & _ & Harm & Hangle & _).
  fold l in Harm, Hangle. rewrite Hangle.
  assert (Hnr : 0 < si_normalizedRadius l).
  { subst l. unfold computeInit_locals. simpl. rewrite Hrad.
    pose proof (pow_positive (hash (INR idx + 1)) 0.5 Hpos). lra. }
  pose proof PI_above_constant as Hpi.
  destruct Harm as [-> | ->]; nra.
Qed.

(** The claim C6 as stated fails: in the scenario, with a hash that draws one
    half, star 0 sits at an angle other than
    [armIndex * PI + normalizedRadius * 1.5 * 2 * PI]. *)
Lemma scenario_angle_counterexample :
  let l := computeInit_locals (helpers := demo_helpers) scenario_uniforms 0 in
  si_angle l <> si_armIndex l * PI + si_normalizedRadius l * 1.5 * (2 * PI).
Proof.
  apply (scenario_angle_off_exact_spiral (helpers := demo_helpers) scenario_uniforms 0);
    try reflexivity.
  - intros s. simpl. unfold demo_hash. lra.
  - simpl. unfold demo_hash. lra.
Qed.

(** ** Bounds on generated positions *)

Lemma pow_le_one (x y : R) : 0 <= x < 1 -> 0 < y -> pow x y <= 1.
Proof.
  intros [Hx0 Hx1] Hy. unfold pow.
  destruct (Rlt_dec 0 x) as [Hpos|_]; [|lra].
  unfold Rpower. rewrite <- exp_0. left. apply exp_increasing.
  assert (Hln : ln x < 0) by (rewrite <- ln_1; apply ln_increasing; lra).
  nra.
Qed.

Lemma drawn_radius_bounds (h p galaxyRadius : R) :
  0 <= h < 1 -> 0 < p -> 0 < galaxyRadius ->
  0 <= pow h p * galaxyRadius <= galaxyRadius /\
  0 <= pow h p * galaxyRadius / galaxyRadius <= 1.
Proof.
  intros Hh Hp Hr.
  pose proof (pow_nonneg h p) as H0. pose proof (pow_le_one h p Hh Hp) as H1.
  replace (pow h p * galaxyRadius / galaxyRadius) with (pow h p) by (field; lra).
  split; [nra | lra].
Qed.

Lemma height_bound (h thickness factor : R) :
  0 <= h < 1 -> 0 <= thickness -> 0 <= factor <= 1.2 ->
  Rabs ((h - 0.5) * thickness * factor) <= thickness.
Proof.
  intros Hh Ht Hf.
  assert (Ha : -0.6 <= (h - 0.5) * factor <= 0.6) by nra.
  replace ((h - 0.5) * thickness * factor) with ((h - 0.5) * factor * thickness) by ring.
  apply Rabs_le. nra.
Qed.

Lemma axisDistance_polar (angle r y : R) :
  axisDistance (Vec3 (cos angle * r) y (sin angle * r)) = Rabs r.
Proof.
  unfold axisDistance. simpl.
  pose proof (sin2_cos2 angle) as Hcs. unfold Rsqr in Hcs.
  replace (cos angle * r * (cos angle * r) + sin angle * r * (sin angle * r))
    with ((sin angle * sin angle + cos angle * cos angle) * Rsqr r)
    by (unfold Rsqr; ring).
  rewrite Hcs, Rmult_1_l. apply sqrt_Rsqr_abs.
Qed.

Lemma offset_radius_bound (radius h armWidth galaxyRadius : R) :
  0 <= radius <= galaxyRadius -> 0 <= h < 1 -> 0 <= armWidth ->
  Rabs (radius + (h - 0.5) * armWidth) <= galaxyRadius + armWidth / 2.
Proof.
  intros Hr Hh Hw. apply Rabs_le. nra.
Qed.

(** C7. For a hash with values in [[0, 1)], a positive galaxy radius and
    non-negative thickness and arm width, every generated star and cloud has
    [|position.y| <= thickness], its drawn radius is at most [galaxyRadius]
    (whatever the randomness, 0 included), and its planar distance from the
    axis is at most [galaxyRadius + armWidth / 2]. *)
Theorem generated_position_bounds {helpers : Helpers} (u : Uniforms) (idx : nat) :
  (forall s, 0 <= hash s < 1) ->
  0 < galaxy_radius (galaxy u) ->
  0 <= galaxy_thickness (galaxy u) ->
  0 <= galaxy_armWidth (galaxy u) ->
  let l := computeInit_locals u idx in
  let c := cloudInit_locals u idx in
  Rabs (vy (si_position l)) <= galaxy_thickness (galaxy u) /\
  si_radius l <= galaxy_radius (galaxy u) /\
  axisDistance (si_position l) <= galaxy_radius (galaxy u) + galaxy_armWidth (galaxy u) / 2 /\
  Rabs (vy (ci_position c)) <= galaxy_thickness (galaxy u) /\
  ci_radius c <= galaxy_radius (galaxy u) /\
  axisDistance (ci_position c) <= galaxy_radius (galaxy u) + galaxy_armWidth (galaxy u) / 2.
Proof.
  intros Hhash Hrad Hthick Hwidth l c. subst l c.
  unfold computeInit_locals, cloudInit_locals.
  cbn [si_position si_radius ci_position ci_radius vy].
  rewrite !axisDistance_polar.
  destruct (drawn_radius_bounds (hash (INR idx + 1)) 0.5 (galaxy_radius (galaxy u))
              (Hhash _) ltac:(lra) Hrad) as [Hs Hsn].
  destruct (drawn_radius_bounds (hash (INR idx + 10000 + 1)) 0.7 (galaxy_radius (galaxy u))
              (Hhash _) ltac:(lra) Hrad) as [Hc Hcn].
  repeat split.
  - apply height_bound; [apply Hhash | exact Hthick | lra].
  - lra.
  - apply offset_radius_bound; [exact Hs | apply Hhash | exact Hwidth].
  - apply height_bound; [apply Hhash | exact Hthick | lra].
  - lra.
  - apply offset_radius_bound; [exact Hc | apply Hhash | exact Hwidth].
Qed.

Lemma generated_position_bounds_witness :
  Rabs (vy (si_position
              (computeInit_locals (helpers := demo_helpers)
                 (initializeUniforms (main_config 2 1)) 1)))
  <= galaxy_thickness (galaxy (initializeUniforms (main_config 2 1))).
Proof.
  apply (generated_position_bounds (helpers := demo_helpers)
           (initializeUniforms (main_config 2 1)) 1).
  - intros s. simpl. unfold demo_hash. lra.
  - simpl. lra.
  - simpl. unfold or_default. destruct (Req_dec_T 6 0); lra.
  - simpl. lra.
Defined.

(** ** The sparsity factor *)



Lemma ratio_nonneg (a d : R) : 0 < d -> 0 <= Rabs a / d.
Proof.
  intros Hd. apply Rmult_le_pos; [apply Rabs_pos|].
  left. apply Rinv_0_lt_compat. exact Hd.
Qed.



(** ** Generation before physics *)

Lemma monitor_app (tr1 tr2 : list event) (p : Phases) :
  monitor (tr1 ++ tr2) p =
  match monitor tr1 p with
  | Some p' => monitor tr2 p'
  | None => None
  end.
Proof.
  revert p. induction tr1 as [|e tr1 IH]; intros p; simpl; [reflexivity|].
  destruct (monitor_step e p); [apply IH | reflexivity].
Qed.

Section GenerationBeforePhysics.
Context {helpers : Helpers}.

Lemma update_consistent (deltaTime : R) (mouse3D : vec3) (mousePressed : bool)
    (this : GalaxySimulation) (p : Phases) :
  consistent this p ->
  exists this' log p',
    update deltaTime mouse3D mousePressed this = Some (tt, this', log) /\
    monitor (map Dispatched log) p = Some p' /\
    consistent this' p'.
Proof.
  intros ([g Hg] & Hstars & Hclouds).
  rewrite (update_computed _ _ _ _ _ Hg).
  unfold update_outcome, consistent. cbn [fst snd].
  destruct this as [cfg cnt u ss cs ini cini]. simpl in *.
  destruct p as [sp cp]. simpl in *.
  destruct ini, cini, cs as [c|]; simpl in *;
    try (specialize (Hstars eq_refl); subst sp);
    try (specialize (Hclouds ltac:(eauto) eq_refl); subst cp);
    eexists _, _, _; (split; [reflexivity|]); (split; [reflexivity|]);
    simpl; repeat split; eauto;
    try (intros [? Hn]; discriminate Hn).
Qed.

Lemma perform_consistent (c : call) (this : GalaxySimulation) (p : Phases) :
  consistent this p ->
  exists this' log p',
    perform c this = Some (tt, this', log) /\
    monitor (Invoked c :: map Dispatched log) p = Some p' /\
    consistent this' p'.
Proof.
  intros Hinv. destruct c as [dt m pr| |n|cu|].
  - destruct (update_consistent dt m pr this p Hinv) as (this' & log & p' & Hu & Hm & Hc).
    exists this', log, p'. simpl. auto.
  - destruct Hinv as (Hs & _ & _).
    eexists _, _, _. split; [reflexivity|]. split; [reflexivity|].
    repeat split; simpl; try exact Hs; intros; discriminate.
  - destruct Hinv as (Hs & _ & Hcl).
    eexists _, _, _. split; [reflexivity|]. split; [reflexivity|].
    repeat split; simpl; eauto; intros; discriminate.
  - destruct Hinv as (Hs & Hst & Hcl).
    eexists _, _, _. split; [reflexivity|]. split; [reflexivity|].
    repeat split; simpl; assumption.
  - destruct Hinv as (Hs & Hst & Hcl).
    eexists _, _, _. split; [reflexivity|]. split; [reflexivity|].
    repeat split; simpl; try assumption; intros; discriminate.
Qed.

Lemma run_consistent (calls : list call) (this : GalaxySimulation) (p : Phases) :
  consistent this p ->
  exists this' tr p',
    run calls this = Some (this', tr) /\
    monitor tr p = Some p' /\
    consistent this' p'.
Proof.
  revert this p. induction calls as [|c calls IH]; intros this p Hinv.
  - exists this, [], p. auto.
  - destruct (perform_consistent c this p Hinv) as (this1 & log & p1 & Hperf & Hmon & Hinv1).
    destruct (IH this1 p1 Hinv1) as (this2 & tr & p2 & Hrun & Hmon2 & Hinv2).
    exists this2, (Invoked c :: map Dispatched log ++ tr), p2.
    split; [simpl; rewrite Hperf, Hrun; reflexivity|].
    split; [|exact Hinv2].
    change (Invoked c :: map Dispatched log ++ tr)
      with ((Invoked c :: map Dispatched log) ++ tr).
    rewrite monitor_app, Hmon. exact Hmon2.
Qed.

Lemma regeneration_log_ordered (this : GalaxySimulation) :
  dispatched_before ComputeInit ComputeUpdate (regeneration_log this).
Proof.
  unfold dispatched_before, regeneration_log.
  exists [], (if negb (cloudInitialized this) && bool_decide (is_Some (cloudSystem this))
              then [CloudInit] else []),
         (if bool_decide (is_Some (cloudSystem this)) then [CloudUpdate] else []).
  reflexivity.
Qed.

End GenerationBeforePhysics.

Lemma started_consistent (cfg : Config) :
  consistent (createGalaxySystem (constructor cfg))
    {| stars_phase := Uninitialized; clouds_phase := Uninitialized |}.
Proof.
  repeat split; simpl; eauto; intros; discriminate.
Qed.

(** C9. Starting from a constructed object whose star system has been
    created, let any sequence of calls of [update], [regenerate],
    [updateStarCount], [updateUniforms] and [createClouds] run, each call to
    completion before the next.  No call throws, and in the trace of calls
    and dispatches no physics kernel is dispatched on a subsystem that is
    [Uninitialized] (not generated since it was last invalidated).  From the
    object reached, [regenerate()] followed by [update] dispatches
    [computeInit], then [cloudInit] if clouds exist, then the physics
    kernels; [updateStarCount] followed by [update] dispatches [computeInit]
    before [computeUpdate]; either way the star flag is set afterwards. *)
Theorem generation_precedes_physics {helpers : Helpers}
    (cfg : Config) (calls : list call) :
  exists this tr,
    run calls (createGalaxySystem (constructor cfg)) = Some (this, tr) /\
    accepted tr /\
    (forall deltaTime mouse3D mousePressed, exists this',
       update deltaTime mouse3D mousePressed (regenerate this)
         = Some (tt, this', regeneration_log (regenerate this)) /\
       regeneration_log (regenerate this)
         = [ComputeInit]
           ++ (if bool_decide (is_Some (cloudSystem this)) then [CloudInit] else [])
           ++ [ComputeUpdate]
           ++ (if bool_decide (is_Some (cloudSystem this)) then [CloudUpdate] else []) /\
       dispatched_before ComputeInit ComputeUpdate (regeneration_log (regenerate this)) /\
       initialized this' = true) /\
    (forall newCount deltaTime mouse3D mousePressed, exists this',
       update deltaTime mouse3D mousePressed (updateStarCount newCount this)
         = Some (tt, this', regeneration_log (updateStarCount newCount this)) /\
       dispatched_before ComputeInit ComputeUpdate
         (regeneration_log (updateStarCount newCount this)) /\
       initialized this' = true).
Proof.
  destruct (run_consistent calls _ _ (started_consistent cfg))
    as (this & tr & p & Hrun & Hmon & ([g Hg] & _ & _)).
  exists this, tr. split; [exact Hrun|].
  split; [unfold accepted; rewrite Hmon; eauto|].
  split.
  - intros dt m pr.
    assert (Hr : starSystem (regenerate this) = Some g) by exact Hg.
    rewrite (update_computed _ _ _ _ _ Hr).
    eexists. split; [reflexivity|].
    split; [reflexivity|].
    split; [apply regeneration_log_ordered | reflexivity].
  - intros n dt m pr.
    rewrite (update_computed dt m pr (updateStarCount n this) _ eq_refl).
    eexists. split; [reflexivity|].
    split; [apply regeneration_log_ordered | reflexivity].
Qed.

(** ** The frame loop *)

Section FrameDelta.
Context {helpers : Helpers}.

Lemma update_sets_deltaTime (deltaTime : R) (m : vec3) (pr : bool)
    (this this' : GalaxySimulation) (log : list kernel) :
  update deltaTime m pr this = Some (tt, this', log) ->
  compute_deltaTime (compute (uniforms this')) = deltaTime /\
  compute_time (compute (uniforms this'))
    = compute_time (compute (uniforms this)) + deltaTime /\
  is_Some (starSystem this').
Proof.
  intros Hu. destruct (starSystem this) as [g|] eqn:Hg.
  - rewrite (update_computed _ _ _ _ _ Hg) in Hu.
    injection Hu as <- _. simpl. eauto.
  - rewrite (update_throws _ _ _ _ Hg) in Hu. discriminate.
Qed.

End FrameDelta.

(** C10. In every frame [animate] calls [update] with
    [min((currentTime - lastFrameTime) / 1000, 0.033)]: the time elapsed
    since the previous frame, in seconds, capped at 0.033.  The time step the
    kernels then read and the advance of the simulated time are that value,
    hence at most 0.033 however long the previous frame took; the next frame
    measures its delta from this frame's clock reading. *)
Theorem frame_delta_is_clamped {helpers : Helpers} (currentTime : R) (app : App) :
  is_Some (starSystem (galaxySimulation app)) ->
  let deltaTime := Rmin ((currentTime - lastFrameTime app) / 1000) 0.033 in
  exists sim log,
    update deltaTime (mouse3D app) (mousePressed app) (galaxySimulation app)
      = Some (tt, sim, log) /\
    animate currentTime app
      = Some ({| lastFrameTime := currentTime;
                 mouse3D := mouse3D app;
                 mousePressed := mousePressed app;
                 galaxySimulation := sim |}, log) /\
    compute_deltaTime (compute (uniforms sim)) = deltaTime /\
    compute_time (compute (uniforms sim))
      = compute_time (compute (uniforms (galaxySimulation app))) + deltaTime /\
    deltaTime <= 0.033 /\
    deltaTime <= (currentTime - lastFrameTime app) / 1000 /\
    is_Some (starSystem sim).
Proof.
  intros [g Hg] deltaTime.
  pose proof (update_computed deltaTime (mouse3D app) (mousePressed app) _ _ Hg) as Hu.
  eexists _, _. split; [exact Hu|].
  split; [unfold animate; fold deltaTime; rewrite Hu; reflexivity|].
  destruct (update_sets_deltaTime _ _ _ _ _ _ Hu) as (Hdt & Htime & Hs).
  split; [exact Hdt|]. split; [exact Htime|].
  split; [apply Rmin_r|]. split; [apply Rmin_l | exact Hs].
Qed.

Lemma frame_delta_is_clamped_witness :
  is_Some (starSystem (galaxySimulation demo_app)) /\
  exists sim log,
    update (helpers := demo_helpers) (Rmin ((5000 - lastFrameTime demo_app) / 1000) 0.033)
      (mouse3D demo_app) (mousePressed demo_app) (galaxySimulation demo_app)
      = Some (tt, sim, log) /\
    compute_deltaTime (compute (uniforms sim)) <= 0.033.
Proof.
  assert (Hs : is_Some (starSystem (galaxySimulation demo_app))) by (simpl; eauto).
  split; [exact Hs|].
  destruct (frame_delta_is_clamped (helpers := demo_helpers) 5000 demo_app Hs)
    as (sim & log & Hu & _ & Hdt & _ & Hle & _).
  exists sim, log. split; [exact Hu|]. rewrite Hdt. exact Hle.
Defined.

(** * Further properties of the code *)

(** ** The generation kernels *)

(** X1. The velocity [computeInit] stores has no vertical component, is
    perpendicular to the star's position vector in the orbital plane, and
    has the magnitude of the orbital speed [1 / (offsetRadius + 0.5) * 5]. *)
Theorem star_velocity_is_tangential {helpers : Helpers} (u : Uniforms) (idx : nat) :
  let l := computeInit_locals u idx in
  vy (si_velocity l) = 0 /\
  vdot (si_velocity l) (Vec3 (vx (si_position l)) 0 (vz (si_position l))) = 0 /\
  vlength (si_velocity l) = Rabs (1.0 / (si_offsetRadius l + 0.5) * 5.0).
Proof.
  intros l. subst l. unfold computeInit_locals, vdot.
  cbn [si_velocity si_position si_offsetRadius vx vy vz].
  split; [reflexivity|]. split; [ring|].
  set (angle := _ + _ + _). set (speed := 1.0 / _ * 5.0).
  unfold vlength. cbn [vx vy vz].
  pose proof (sin2_cos2 angle) as Hcs. unfold Rsqr in Hcs.
  replace (- (sin angle * speed) * - (sin angle * speed) + 0 * 0
           + cos angle * speed * (cos angle * speed))
    with ((sin angle * sin angle + cos angle * cos angle) * Rsqr speed)
    by (unfold Rsqr; ring).
  rewrite Hcs, Rmult_1_l. apply sqrt_Rsqr_abs.
Qed.

Lemma floor_nat_below (x : R) (n : nat) :
  0 <= x < INR n -> exists k : nat, (k < n)%nat /\ floor x = INR k.
Proof.
  intros [H0 Hn]. pose proof (floor_bounds x) as [Hle Hlt]. unfold floor in *.
  assert (Hz0 : (0 <= Int_part x)%Z).
  { assert (Hlt' : (-1 < Int_part x)%Z) by (apply lt_IZR; lra). lia. }
  exists (Z.to_nat (Int_part x)). split.
  - apply INR_lt. rewrite INR_IZR_INZ, Z2Nat.id by exact Hz0. lra.
  - rewrite INR_IZR_INZ, Z2Nat.id by exact Hz0. reflexivity.
Qed.

Lemma arm_angle_range (k n : nat) :
  (k < n)%nat -> 0 <= INR k * 6.28318 / INR n < 6.28318.
Proof.
  intros Hk.
  assert (Hn : 0 < INR n) by (apply lt_0_INR; lia).
  assert (Hk0 : 0 <= INR k) by apply pos_INR.
  assert (Hkn : INR k < INR n) by (apply lt_INR; exact Hk).
  assert (Hinv : 0 < / INR n) by (apply Rinv_0_lt_compat; exact Hn).
  assert (Hq : INR k * / INR n < 1).
  { apply (Rmult_lt_reg_r (INR n)); [exact Hn|]. field_simplify; lra. }
  assert (Hq0 : 0 <= INR k * / INR n) by nra.
  replace (INR k * 6.28318 / INR n) with (INR k * / INR n * 6.28318) by (field; lra).
  nra.
Qed.

(** X2. For a hash with values in [[0, 1)] and a whole arm count [n >= 1],
    the arm index of a generated star or cloud is one of [0, ..., n-1] and
    its arm angle lies in [[0, 6.28318)]. *)
Theorem arm_index_in_range {helpers : Helpers} (u : Uniforms) (idx n : nat) :
  (forall s, 0 <= hash s < 1) ->
  (1 <= n)%nat ->
  galaxy_armCount (galaxy u) = INR n ->
  (exists k : nat, (k < n)%nat /\
     si_armIndex (computeInit_locals u idx) = INR k /\
     0 <= si_armAngle (computeInit_locals u idx) < 6.28318) /\
  (exists k : nat, (k < n)%nat /\
     ci_armIndex (cloudInit_locals u idx) = INR k /\
     0 <= ci_armAngle (cloudInit_locals u idx) < 6.28318).
Proof.
  intros Hhash Hn Harms.
  assert (Hpos : 0 < INR n) by (apply lt_0_INR; lia).
  assert (Hfloor : forall s, exists k : nat, (k < n)%nat /\ floor (hash s * INR n) = INR k).
  { intros s. apply floor_nat_below. specialize (Hhash s). nra. }
  unfold computeInit_locals, cloudInit_locals.
  cbn [si_armIndex si_armAngle ci_armIndex ci_armAngle]. rewrite Harms.
  split.
  - destruct (Hfloor (INR idx + 2)) as (k & Hk & ->).
    exists k. split; [exact Hk|]. split; [reflexivity | apply arm_angle_range; exact Hk].
  - destruct (Hfloor (INR idx + 10000 + 2)) as (k & Hk & ->).
    exists k. split; [exact Hk|]. split; [reflexivity | apply arm_angle_range; exact Hk].
Qed.

Lemma arm_index_in_range_witness :
  exists k : nat, (k < 2)%nat /\
    si_armIndex (computeInit_locals (helpers := demo_helpers) scenario_uniforms 0) = INR k /\
    0 <= si_armAngle (computeInit_locals (helpers := demo_helpers) scenario_uniforms 0)
      < 6.28318.
Proof.
  apply (arm_index_in_range (helpers := demo_helpers) scenario_uniforms 0 2).
  - intros s. simpl. unfold demo_hash. lra.
  - lia.
  - simpl. lra.
Defined.

Lemma jitter_ratio_below_one (h w : R) :
  0 <= h < 1 -> 0 <= w ->
  0 <= Rabs ((h - 0.5) * w) / (w * 0.5 + 0.01) < 1.
Proof.
  intros Hh Hw.
  assert (Hd : 0 < w * 0.5 + 0.01) by lra.
  assert (Ha : Rabs ((h - 0.5) * w) <= w * 0.5) by (apply Rabs_le; nra).
  split; [apply ratio_nonneg; exact Hd|].
  apply (Rmult_lt_reg_r (w * 0.5 + 0.01)); [exact Hd|].
  unfold Rdiv. rewrite Rmult_assoc, Rinv_l by lra. lra.
Qed.

(** X3. For a hash with values in [[0, 1)] and non-negative arm width and
    randomness, each of the two sparsity ratios of a star lies in [[0, 1)],
    so the final [min(., 1)] never cuts: the stored factor is their mean
    and is strictly below 1.  Without arm width and randomness it is 0. *)
Theorem sparsity_factor_below_one {helpers : Helpers} (u : Uniforms) (idx : nat) :
  (forall s, 0 <= hash s < 1) ->
  0 <= galaxy_armWidth (galaxy u) ->
  0 <= galaxy_randomness (galaxy u) ->
  let l := computeInit_locals u idx in
  0 <= si_radialSparsity l < 1 /\
  0 <= si_angularSparsity l < 1 /\
  si_sparsityFactor l = (si_radialSparsity l + si_angularSparsity l) * 0.5 /\
  si_sparsityFactor l < 1 /\
  (galaxy_armWidth (galaxy u) = 0 -> galaxy_randomness (galaxy u) = 0 ->
   si_sparsityFactor l = 0).
Proof.
  intros Hhash Hwidth Hrand l. subst l. unfold computeInit_locals.
  cbn [si_radialSparsity si_angularSparsity si_sparsityFactor].
  pose proof (jitter_ratio_below_one (hash (INR idx + 4)) (galaxy_armWidth (galaxy u))
                (Hhash _) Hwidth) as Ha.
  pose proof (jitter_ratio_below_one (hash (INR idx + 3)) (galaxy_randomness (galaxy u))
                (Hhash _) Hrand) as Hb.
  set (a := Rabs ((hash (INR idx + 4) - 0.5) * _) / _) in *.
  set (b := Rabs ((hash (INR idx + 3) - 0.5) * _) / _) in *.
  assert (Hmin : Rmin ((a + b) * 0.5) 1.0 = (a + b) * 0.5) by (apply Rmin_left; lra).
  split; [exact Ha|]. split; [exact Hb|]. split; [exact Hmin|].
  split; [rewrite Hmin; lra|].
  intros Hw0 Hr0. rewrite Hmin. subst a b. rewrite Hw0, Hr0.
  rewrite !Rmult_0_r, Rabs_R0. lra.
Qed.

Lemma sparsity_factor_below_one_witness :
  si_sparsityFactor
    (computeInit_locals (helpers := demo_helpers) (initializeUniforms (main_config 2 1)) 0)
  < 1.
Proof.
  apply (sparsity_factor_below_one (helpers := demo_helpers)
           (initializeUniforms (main_config 2 1)) 0).
  - intros s. simpl. unfold demo_hash. lra.
  - simpl. lra.
  - simpl. lra.
Defined.

(** X4. For a hash with values in [[0, 1)] and a positive galaxy radius, a
    generated cloud has a size in [[0.35, 1.2)], a roll angle in
    [[0, 6.28318)], and the tint colour dimmed by a factor in [[0.7, 1]] that
    falls with the normalized radius. *)
Theorem cloud_attributes_in_range {helpers : Helpers} (u : Uniforms) (idx : nat) :
  (forall s, 0 <= hash s < 1) ->
  0 < galaxy_radius (galaxy u) ->
  let c := cloudInit_locals u idx in
  0.35 <= ww (ci_colorSize c) < 1.2 /\
  0 <= ci_rotation c < 6.28318 /\
  0.7 <= 1 - ci_normalizedRadius c * 0.3 <= 1 /\
  Vec3 (wx (ci_colorSize c)) (wy (ci_colorSize c)) (wz (ci_colorSize c))
    = vscale (1 - ci_normalizedRadius c * 0.3) (visual_cloudTintColor (visual u)).
Proof.
  intros Hhash Hrad c. subst c. unfold cloudInit_locals.
  cbn [ci_colorSize ci_rotation ci_normalizedRadius ww wx wy wz].
  destruct (drawn_radius_bounds (hash (INR idx + 10000 + 1)) 0.7 (galaxy_radius (galaxy u))
              (Hhash _) ltac:(lra) Hrad) as [_ Hn].
  set (nr := pow _ _ * _ / _) in *.
  pose proof (Hhash (INR idx + 10000 + 6)) as H6.
  pose proof (Hhash (INR idx + 10000 + 7)) as H7.
  split; [nra|]. split; [lra|]. split; [lra|].
  apply vec3_eq; simpl; lra.
Qed.

Lemma cloud_attributes_in_range_witness :
  0.35 <= ww (ci_colorSize
               (cloudInit_locals (helpers := demo_helpers)
                  (initializeUniforms (main_config 2 1)) 0)) < 1.2.
Proof.
  apply (cloud_attributes_in_range (helpers := demo_helpers)
           (initializeUniforms (main_config 2 1)) 0).
  - intros s. simpl. unfold demo_hash. lra.
  - simpl. lra.
Defined.

(** X5. The disc flattens toward the rim: for a hash with values in
    [[0, 1)], a positive galaxy radius and a non-negative thickness, a star
    at normalized radius [r] has [|y| <= thickness * (1.2 - r) / 2], a cloud
    [|y| <= thickness * (1.15 - r) / 2]; at most [0.6] and [0.575] of the
    thickness, at the centre. *)
Theorem disc_flattens_toward_rim {helpers : Helpers} (u : Uniforms) (idx : nat) :
  (forall s, 0 <= hash s < 1) ->
  0 < galaxy_radius (galaxy u) ->
  0 <= galaxy_thickness (galaxy u) ->
  let l := computeInit_locals u idx in
  let c := cloudInit_locals u idx in
  0 <= si_normalizedRadius l <= 1 /\
  Rabs (vy (si_position l))
    <= galaxy_thickness (galaxy u) * (1.2 - si_normalizedRadius l) / 2 /\
  Rabs (vy (si_position l)) <= 0.6 * galaxy_thickness (galaxy u) /\
  0 <= ci_normalizedRadius c <= 1 /\
  Rabs (vy (ci_position c))
    <= galaxy_thickness (galaxy u) * (1.15 - ci_normalizedRadius c) / 2 /\
  Rabs (vy (ci_position c)) <= 0.575 * galaxy_thickness (galaxy u).
Proof.
  intros Hhash Hrad Hthick l c. subst l c.
  unfold computeInit_locals, cloudInit_locals.
  cbn [si_position si_normalizedRadius ci_position ci_normalizedRadius vy].
  destruct (drawn_radius_bounds (hash (INR idx + 1)) 0.5 (galaxy_radius (galaxy u))
              (Hhash _) ltac:(lra) Hrad) as [_ Hs].
  destruct (drawn_radius_bounds (hash (INR idx + 10000 + 1)) 0.7 (galaxy_radius (galaxy u))
              (Hhash _) ltac:(lra) Hrad) as [_ Hc].
  set (sr := pow _ 0.5 * _ / _) in *. set (cr := pow _ 0.7 * _ / _) in *.
  pose proof (Hhash (INR idx + 5)) as H5.
  pose proof (Hhash (INR idx + 10000 + 5)) as H5c.
  set (t := galaxy_thickness (galaxy u)) in *.
  assert (Hstar : Rabs ((hash (INR idx + 5) - 0.5) * t * (1.0 - sr + 0.2))
                  <= t * (1.2 - sr) / 2).
  { apply Rabs_le.
    assert (0 <= t * (1.2 - sr)) by nra.
    assert (-0.5 <= hash (INR idx + 5) - 0.5 <= 0.5) by lra.
    split; nra. }
  assert (Hcloud : Rabs ((hash (INR idx + 10000 + 5) - 0.5) * t * (1.0 - cr + 0.15))
                   <= t * (1.15 - cr) / 2).
  { apply Rabs_le.
    assert (0 <= t * (1.15 - cr)) by nra.
    assert (-0.5 <= hash (INR idx + 10000 + 5) - 0.5 <= 0.5) by lra.
    split; nra. }
  repeat split; try lra; try exact Hstar; try exact Hcloud; nra.
Qed.

Lemma disc_flattens_toward_rim_witness :
  Rabs (vy (si_position
              (computeInit_locals (helpers := demo_helpers)
                 (initializeUniforms (main_config 2 1)) 0)))
  <= 0.6 * galaxy_thickness (galaxy (initializeUniforms (main_config 2 1))).
Proof.
  apply (disc_flattens_toward_rim (helpers := demo_helpers)
           (initializeUniforms (main_config 2 1)) 0).
  - intros s. simpl. unfold demo_hash. lra.
  - simpl. lra.
  - simpl. unfold or_default. destruct (Req_dec_T 6 0); lra.
Defined.

(** ** The update kernels over whole buffers *)

Lemma element_prefix {A : Type} `{Inhabited A} (pre l : list A) (n : nat) :
  length pre = n -> element (pre ++ drop n l) n = element l n.
Proof.
  intros Hlen. unfold element.
  rewrite lookup_app_r by lia.
  replace (n - length pre)%nat with 0%nat by lia.
  rewrite lookup_drop. replace (n + 0)%nat with n by lia. reflexivity.
Qed.

Lemma insert_prefix {A : Type} (pre l : list A) (n : nat) (v : A) :
  length pre = n -> (n < length l)%nat ->
  <[n := v]> (pre ++ drop n l) = (pre ++ [v]) ++ drop (S n) l.
Proof.
  intros Hlen Hn.
  destruct (lookup_lt_is_Some_2 l n Hn) as [x Hx].
  rewrite (drop_S l x n Hx).
  replace n with (length pre + 0)%nat at 1 by lia.
  rewrite insert_app_r. simpl. rewrite <- app_assoc. reflexivity.
Qed.

Section UpdateDispatch.
Context {helpers : Helpers}.

(** After the first [n] invocations, the first [n] particles are updated,
    each from its own former state, and the rest is as before. *)
Lemma dispatch_computeUpdate (u : Uniforms) (b : StarBuffers) (n : nat) :
  (n <= length (spawnPositionBuffer b))%nat ->
  (n <= length (originalPositionBuffer b))%nat ->
  dispatch (computeUpdate u) n b =
  {| spawnPositionBuffer :=
       map (fun i => updated_position 2.0 u (element (spawnPositionBuffer b) i)
                       (element (originalPositionBuffer b) i)) (seq 0 n)
       ++ drop n (spawnPositionBuffer b);
     originalPositionBuffer :=
       map (fun i => rotated_anchor u (element (originalPositionBuffer b) i)) (seq 0 n)
       ++ drop n (originalPositionBuffer b);
     velocityBuffer := velocityBuffer b;
     densityFactorBuffer := densityFactorBuffer b |}.
Proof.
  induction n as [|n IH]; intros Hp Ha.
  - unfold dispatch. simpl. rewrite !drop_0. destruct b; reflexivity.
  - rewrite dispatch_S, IH by lia.
    unfold computeUpdate at 1.
    cbn [spawnPositionBuffer originalPositionBuffer velocityBuffer densityFactorBuffer].
    rewrite !element_prefix by (rewrite length_map, length_seq; reflexivity).
    rewrite !insert_prefix by (try (rewrite length_map, length_seq); lia || reflexivity).
    rewrite !seq_S, !map_app. reflexivity.
Qed.

Lemma dispatch_cloudUpdate (u : Uniforms) (b : CloudBuffers) (n : nat) :
  (n <= length (cloudPositionBuffer b))%nat ->
  (n <= length (cloudOriginalPositionBuffer b))%nat ->
  dispatch (cloudUpdate u) n b =
  {| cloudPositionBuffer :=
       map (fun i => updated_position 1.0 u (element (cloudPositionBuffer b) i)
                       (element (cloudOriginalPositionBuffer b) i)) (seq 0 n)
       ++ drop n (cloudPositionBuffer b);
     cloudOriginalPositionBuffer :=
       map (fun i => rotated_anchor u (element (cloudOriginalPositionBuffer b) i)) (seq 0 n)
       ++ drop n (cloudOriginalPositionBuffer b);
     cloudColorSizeBuffer := cloudColorSizeBuffer b;
     cloudRotationBuffer := cloudRotationBuffer b |}.
Proof.
  induction n as [|n IH]; intros Hp Ha.
  - unfold dispatch. simpl. rewrite !drop_0. destruct b; reflexivity.
  - rewrite dispatch_S, IH by lia.
    unfold cloudUpdate at 1.
    cbn [cloudPositionBuffer cloudOriginalPositionBuffer cloudColorSizeBuffer
         cloudRotationBuffer].
    rewrite !element_prefix by (rewrite length_map, length_seq; reflexivity).
    rewrite !insert_prefix by (try (rewrite length_map, length_seq); lia || reflexivity).
    rewrite !seq_S, !map_app. reflexivity.
Qed.

End UpdateDispatch.

Section UpdateOverBuffers.
Context {helpers : Helpers}.

Lemma run_star_computeUpdate (u : Uniforms) (g : StarSystem) :
  star_sized g ->
  star_buffers (run_star computeUpdate u g) =
  {| spawnPositionBuffer :=
       map (fun i => updated_position 2.0 u
                       (element (spawnPositionBuffer (star_buffers g)) i)
                       (element (originalPositionBuffer (star_buffers g)) i))
           (seq 0 (star_count g));
     originalPositionBuffer :=
       map (fun i => rotated_anchor u (element (originalPositionBuffer (star_buffers g)) i))
           (seq 0 (star_count g));
     velocityBuffer := velocityBuffer (star_buffers g);
     densityFactorBuffer := densityFactorBuffer (star_buffers g) |}.
Proof.
  intros (H1 & H2 & H3 & H4). unfold run_star. cbn [star_buffers].
  rewrite dispatch_computeUpdate by lia.
  rewrite !drop_ge, !app_nil_r by lia. reflexivity.
Qed.

Lemma run_cloud_cloudUpdate (u : Uniforms) (c : CloudSystem) :
  cloud_sized c ->
  cloud_buffers (run_cloud cloudUpdate u c) =
  {| cloudPositionBuffer :=
       map (fun i => updated_position 1.0 u
                       (element (cloudPositionBuffer (cloud_buffers c)) i)
                       (element (cloudOriginalPositionBuffer (cloud_buffers c)) i))
           (seq 0 (cloud_count c));
     cloudOriginalPositionBuffer :=
       map (fun i => rotated_anchor u
                       (element (cloudOriginalPositionBuffer (cloud_buffers c)) i))
           (seq 0 (cloud_count c));
     cloudColorSizeBuffer := cloudColorSizeBuffer (cloud_buffers c);
     cloudRotationBuffer := cloudRotationBuffer (cloud_buffers c) |}.
Proof.
  intros (H1 & H2 & H3 & H4). unfold run_cloud. cbn [cloud_buffers].
  rewrite dispatch_cloudUpdate by lia.
  rewrite !drop_ge, !app_nil_r by lia. reflexivity.
Qed.

Lemma star_sized_computeUpdate (u : Uniforms) (g : StarSystem) :
  star_sized g -> star_sized (run_star computeUpdate u g).
Proof.
  intros Hg. pose proof (run_star_computeUpdate u g Hg) as Hb.
  destruct Hg as (H1 & H2 & H3 & H4).
  unfold star_sized. rewrite Hb. cbn.
  rewrite !length_map, !length_seq. auto.
Qed.

Lemma cloud_sized_cloudUpdate (u : Uniforms) (c : CloudSystem) :
  cloud_sized c -> cloud_sized (run_cloud cloudUpdate u c).
Proof.
  intros Hc. pose proof (run_cloud_cloudUpdate u c Hc) as Hb.
  destruct Hc as (H1 & H2 & H3 & H4).
  unfold cloud_sized. rewrite Hb. cbn.
  rewrite !length_map, !length_seq. auto.
Qed.

Lemma star_sized_computeInit (u : Uniforms) (g : StarSystem) :
  star_sized g -> star_sized (run_star computeInit u g).
Proof.
  intros Hg. rewrite run_star_generated by exact Hg.
  unfold star_sized, generated_stars. cbn.
  rewrite !length_map, !length_seq. auto.
Qed.

Lemma cloud_sized_cloudInit (u : Uniforms) (c : CloudSystem) :
  cloud_sized c -> cloud_sized (run_cloud cloudInit u c).
Proof.
  intros Hc. rewrite run_cloud_generated by exact Hc.
  unfold cloud_sized, generated_clouds. cbn.
  rewrite !length_map, !length_seq. auto.
Qed.

End UpdateOverBuffers.

(** X6. One dispatch of the update kernels over buffers sized to the count
    treats every particle on its own: particle [i] gets the position and the
    anchor computed from its own former position and anchor, whatever the
    other particles hold; the buffers keep their size, and velocities,
    sparsity factors, cloud colours, sizes and roll angles are not
    written. *)
Theorem update_kernels_are_pointwise {helpers : Helpers}
    (u : Uniforms) (g : StarSystem) (c : CloudSystem) (i : nat) :
  star_sized g -> cloud_sized c ->
  let b := star_buffers g in
  let b' := star_buffers (run_star computeUpdate u g) in
  let d := cloud_buffers c in
  let d' := cloud_buffers (run_cloud cloudUpdate u c) in
  star_sized (run_star computeUpdate u g) /\
  cloud_sized (run_cloud cloudUpdate u c) /\
  velocityBuffer b' = velocityBuffer b /\
  densityFactorBuffer b' = densityFactorBuffer b /\
  cloudColorSizeBuffer d' = cloudColorSizeBuffer d /\
  cloudRotationBuffer d' = cloudRotationBuffer d /\
  ((i < star_count g)%nat ->
   spawnPositionBuffer b' !! i
     = Some (updated_position 2.0 u (element (spawnPositionBuffer b) i)
               (element (originalPositionBuffer b) i)) /\
   originalPositionBuffer b' !! i
     = Some (rotated_anchor u (element (originalPositionBuffer b) i))) /\
  ((i < cloud_count c)%nat ->
   cloudPositionBuffer d' !! i
     = Some (updated_position 1.0 u (element (cloudPositionBuffer d) i)
               (element (cloudOriginalPositionBuffer d) i)) /\
   cloudOriginalPositionBuffer d' !! i
     = Some (rotated_anchor u (element (cloudOriginalPositionBuffer d) i))).
Proof.
  intros Hg Hc b b' d d'. subst b b' d d'.
  split; [apply star_sized_computeUpdate; exact Hg|].
  split; [apply cloud_sized_cloudUpdate; exact Hc|].
  rewrite run_star_computeUpdate by exact Hg.
  rewrite run_cloud_cloudUpdate by exact Hc. cbn.
  repeat split; try reflexivity;
    rewrite (lookup_map_seq _ _ _ H); reflexivity.
Qed.

Lemma update_kernels_are_pointwise_witness :
  star_sized (run_star (computeUpdate (helpers := demo_helpers))
                (initializeUniforms (main_config 2 1))
                {| star_count := 2; star_buffers := demo_pushed_stars |}).
Proof.
  apply (update_kernels_are_pointwise (helpers := demo_helpers)
           (initializeUniforms (main_config 2 1))
           {| star_count := 2; star_buffers := demo_pushed_stars |} demo_clouds 0
           demo_pushed_stars_sized demo_clouds_sized).
Defined.

(** ** The controller over sequences of calls *)

Section CallSequences.
Context {helpers : Helpers}.

(** Every call succeeds on an object whose star system exists. *)
Lemma perform_succeeds (c : call) (this : GalaxySimulation) :
  is_Some (starSystem this) ->
  exists this' log, perform c this = Some (tt, this', log).
Proof.
  intros [g Hg]. destruct c as [dt m pr| |n|cu|]; simpl.
  - rewrite (update_computed _ _ _ _ _ Hg). eauto.
  - unfold modify_this. eauto.
  - unfold modify_this. eauto.
  - unfold modify_this. eauto.
  - unfold modify_this. eauto.
Qed.

(** A property kept by every call is kept by every sequence of calls. *)
Lemma run_preserves (P : GalaxySimulation -> Prop) :
  (forall this, P this -> is_Some (starSystem this)) ->
  (forall c this this' log, P this -> perform c this = Some (tt, this', log) -> P this') ->
  forall calls this, P this ->
  exists this' tr, run calls this = Some (this', tr) /\ P this'.
Proof.
  intros Hstar Hstep calls. induction calls as [|c calls IH]; intros this HP.
  - exists this, []. auto.
  - destruct (perform_succeeds c this (Hstar _ HP)) as (this1 & log & Hperf).
    destruct (IH this1 (Hstep _ _ _ _ HP Hperf)) as (this2 & tr & Hrun & HP2).
    exists this2, (Invoked c :: map Dispatched log ++ tr).
    simpl. rewrite Hperf, Hrun. auto.
Qed.

Lemma update_well_formed (dt : R) (m : vec3) (pr : bool)
    (this this' : GalaxySimulation) (log : list kernel) :
  well_formed this ->
  update dt m pr this = Some (tt, this', log) ->
  well_formed this'.
Proof.
  intros ((g & Hg & Hsized & Hcount) & Hcfg & Hclouds) Hu.
  rewrite (update_computed _ _ _ _ _ Hg) in Hu. injection Hu as <- _.
  unfold update_outcome, well_formed. cbn [fst starSystem cloudSystem COUNT config].
  split; [|split; [exact Hcfg|]].
  - eexists. split; [reflexivity|]. split.
    + apply star_sized_computeUpdate.
      destruct (initialized this); [exact Hsized | apply star_sized_computeInit; exact Hsized].
    + destruct (initialized this); exact Hcount.
  - intros c Hc. destruct (cloudSystem this) as [c0|]; [|discriminate].
    cbn [option_map] in Hc. apply (inj Some) in Hc. subst c.
    apply cloud_sized_cloudUpdate.
    destruct (cloudInitialized this);
      [apply Hclouds; reflexivity | apply cloud_sized_cloudInit, Hclouds; reflexivity].
Qed.

Lemma perform_well_formed (c : call) (this this' : GalaxySimulation) (log : list kernel) :
  well_formed this ->
  perform c this = Some (tt, this', log) ->
  well_formed this'.
Proof.
  intros Hwf Hperf. destruct c as [dt m pr| |n|cu|]; simpl in Hperf.
  - exact (update_well_formed _ _ _ _ _ _ Hwf Hperf).
  - injection Hperf as <- _. exact Hwf.
  - injection Hperf as <- _. destruct Hwf as (_ & _ & Hclouds).
    split; [|split; [reflexivity | exact Hclouds]].
    eexists. split; [reflexivity|]. split; [|reflexivity].
    repeat split; apply length_replicate.
  - injection Hperf as <- _. destruct Hwf as (Hs & Hcfg & Hclouds).
    split; [exact Hs|]. split; [|exact Hclouds].
    simpl. destruct (upd_cloudCount cu); exact Hcfg.
  - injection Hperf as <- _. destruct Hwf as (Hs & Hcfg & Hclouds).
    split; [exact Hs|]. split; [exact Hcfg|].
    intros c Hc. simpl in Hc. apply (inj Some) in Hc. subst c.
    repeat split; apply length_replicate.
Qed.

Lemma started_well_formed (cfg : Config) :
  well_formed (createGalaxySystem (constructor cfg)).
Proof.
  split; [|split; [reflexivity | intros c Hc; discriminate Hc]].
  eexists. split; [reflexivity|]. split; [|reflexivity].
  repeat split; apply length_replicate.
Qed.

End CallSequences.

(** X7. Whatever sequence of [update], [regenerate], [updateStarCount],
    [updateUniforms] and [createClouds] calls runs on a constructed object
    whose star system has been created, no call throws and afterwards all
    four star buffers have exactly [COUNT] elements, [COUNT] equals
    [config.starCount], and the cloud buffers, if clouds were created, all
    have the length of the cloud count they were created with. *)
Theorem buffers_stay_sized {helpers : Helpers} (cfg : Config) (calls : list call) :
  exists this tr g,
    run calls (createGalaxySystem (constructor cfg)) = Some (this, tr) /\
    starSystem this = Some g /\
    star_count g = COUNT this /\
    COUNT this = config_starCount (config this) /\
    length (spawnPositionBuffer (star_buffers g)) = COUNT this /\
    length (originalPositionBuffer (star_buffers g)) = COUNT this /\
    length (velocityBuffer (star_buffers g)) = COUNT this /\
    length (densityFactorBuffer (star_buffers g)) = COUNT this /\
    match cloudSystem this with
    | Some c => cloud_sized c
    | None => True
    end.
Proof.
  destruct (run_preserves well_formed) with (calls := calls)
    (this := createGalaxySystem (constructor cfg))
    as (this & tr & Hrun & ((g & Hg & (H1 & H2 & H3 & H4) & Hcount) & Hcfg & Hclouds)).
  - intros this ((g & Hg & _) & _). rewrite Hg. eauto.
  - intros c this this' log. apply perform_well_formed.
  - apply started_well_formed.
  - exists this, tr, g. rewrite <- Hcount.
    repeat split; try assumption; try congruence.
    destruct (cloudSystem this) as [c|]; [apply Hclouds; reflexivity | exact I].
Qed.

(** X8. [updateStarCount(n)] followed by [update] succeeds on any object
    and leaves exactly [n] star records: the distribution generated for [n]
    stars under the current shape uniforms, advanced by one physics step.
    Nothing of the former star buffers enters the result, and [COUNT] and
    [config.starCount] are [n]. *)
Theorem star_count_change_regenerates {helpers : Helpers}
    (this : GalaxySimulation) (newCount : nat)
    (deltaTime : R) (mouse3D : vec3) (mousePressed : bool) :
  let resized := updateStarCount newCount this in
  let u' := uniforms (set_frame_uniforms deltaTime mouse3D mousePressed resized) in
  exists this' g',
    update deltaTime mouse3D mousePressed resized
      = Some (tt, this', regeneration_log resized) /\
    starSystem this' = Some g' /\
    g' = run_star computeUpdate u'
           {| star_count := newCount;
              star_buffers := generated_stars (uniforms this) newCount |} /\
    star_sized g' /\ star_count g' = newCount /\
    COUNT this' = newCount /\ config_starCount (config this') = newCount.
Proof.
  intros resized u'.
  assert (Hsized : star_sized {| star_count := newCount;
                                 star_buffers :=
                                   {| spawnPositionBuffer := instancedArray newCount;
                                      originalPositionBuffer := instancedArray newCount;
                                      velocityBuffer := instancedArray newCount;
                                      densityFactorBuffer := instancedArray newCount |} |})
    by (repeat split; apply length_replicate).
  rewrite (update_computed deltaTime mouse3D mousePressed resized _ eq_refl).
  eexists _, _. split; [reflexivity|]. split; [reflexivity|].
  cbn [update_outcome fst resized updateStarCount createGalaxySystem initialized
       uniforms COUNT config starSystem].
  rewrite (run_star_generated _ _ Hsized). cbn [star_count].
  split; [reflexivity|].
  split.
  { apply star_sized_computeUpdate. unfold star_sized, generated_stars. cbn.
    rewrite !length_map, !length_seq. auto. }
  repeat split.
Qed.

Section UpdateRuns.
Context {helpers : Helpers}.

Lemma count_dispatches_app (k : kernel) (tr1 tr2 : list event) :
  count_dispatches k (tr1 ++ tr2)
  = (count_dispatches k tr1 + count_dispatches k tr2)%nat.
Proof.
  induction tr1 as [|e tr1 IH]; [reflexivity|].
  destruct e as [c|k']; simpl; rewrite IH; lia.
Qed.

Lemma updates_dispatch_counts (calls : list call) (this : GalaxySimulation) :
  is_Some (starSystem this) ->
  forallb is_update calls = true ->
  exists this' tr,
    run calls this = Some (this', tr) /\
    count_dispatches ComputeInit tr
      = expected_generations (initialized this) (length calls) /\
    count_dispatches CloudInit tr
      = (if bool_decide (is_Some (cloudSystem this))
         then expected_generations (cloudInitialized this) (length calls) else 0%nat) /\
    count_dispatches ComputeUpdate tr = length calls /\
    count_dispatches CloudUpdate tr
      = (if bool_decide (is_Some (cloudSystem this)) then length calls else 0%nat).
Proof.
  revert this. induction calls as [|c calls IH]; intros this Hstar Hupd.
  - exists this, []. simpl. unfold expected_generations.
    destruct (initialized this), (cloudInitialized this),
      (bool_decide (is_Some (cloudSystem this))); auto.
  - simpl in Hupd. apply andb_prop in Hupd as [Hc Hrest].
    destruct c as [dt m pr| | | |]; try discriminate.
    destruct Hstar as [g Hg].
    pose proof (update_computed dt m pr this g Hg) as Hu.
    set (this1 := fst (update_outcome dt m pr this g)) in *.
    destruct (IH this1 ltac:(simpl; eauto) Hrest)
      as (this2 & tr & Hrun & Hci & Hcli & Hcu & Hclu).
    eexists _, _. split; [simpl; rewrite Hu, Hrun; reflexivity|].
    cbn [count_dispatches]. rewrite !count_dispatches_app, Hci, Hcli, Hcu, Hclu.
    subst this1. unfold update_outcome, expected_generations.
    cbn [fst snd initialized cloudInitialized cloudSystem length].
    destruct this as [cfg cnt u ss cs ini cini]. cbn.
    destruct ini, cini, cs as [c0|]; cbn;
      repeat split; try lia; destruct (length calls); cbn; lia.
Qed.

Lemma perform_time (c : call) (this this' : GalaxySimulation) (log : list kernel) :
  perform c this = Some (tt, this', log) ->
  compute_time (compute (uniforms this'))
  = compute_time (compute (uniforms this)) + total_deltaTime [c].
Proof.
  intros Hperf. destruct c as [dt m pr| |n|cu|]; simpl in *.
  - destruct (update_sets_deltaTime _ _ _ _ _ _ Hperf) as (_ & Htime & _). lra.
  - injection Hperf as <- _. simpl. lra.
  - injection Hperf as <- _. simpl. lra.
  - injection Hperf as <- _. simpl. lra.
  - injection Hperf as <- _. simpl. lra.
Qed.

Lemma total_deltaTime_cons (c : call) (cs : list call) :
  total_deltaTime (c :: cs) = total_deltaTime [c] + total_deltaTime cs.
Proof. destruct c; simpl; lra. Qed.

Lemma run_time (calls : list call) (this this' : GalaxySimulation) (tr : list event) :
  run calls this = Some (this', tr) ->
  compute_time (compute (uniforms this'))
  = compute_time (compute (uniforms this)) + total_deltaTime calls.
Proof.
  revert this tr. induction calls as [|c calls IH]; intros this tr Hrun.
  - injection Hrun as <- _. simpl. lra.
  - simpl in Hrun.
    destruct (perform c this) as [[[[] this1] log]|] eqn:Hperf; [|discriminate].
    destruct (run calls this1) as [[this2 tr2]|] eqn:Hrun1; [|discriminate].
    injection Hrun as <- _.
    rewrite (IH _ _ Hrun1), (perform_time _ _ _ _ Hperf), (total_deltaTime_cons c calls).
    lra.
Qed.

End UpdateRuns.

(** X9. In a run of [n] consecutive [update] calls on an object whose star
    system exists, [computeUpdate] is dispatched [n] times and [computeInit]
    once if the star flag was cleared and [n >= 1], never otherwise; the
    same holds for [cloudUpdate] and [cloudInit] when clouds exist, and no
    cloud kernel runs when they do not. *)
Theorem generation_runs_once_per_epoch {helpers : Helpers}
    (calls : list call) (this : GalaxySimulation) :
  is_Some (starSystem this) ->
  forallb is_update calls = true ->
  exists this' tr,
    run calls this = Some (this', tr) /\
    count_dispatches ComputeInit tr
      = expected_generations (initialized this) (length calls) /\
    count_dispatches CloudInit tr
      = (if bool_decide (is_Some (cloudSystem this))
         then expected_generations (cloudInitialized this) (length calls) else 0%nat) /\
    count_dispatches ComputeUpdate tr = length calls /\
    count_dispatches CloudUpdate tr
      = (if bool_decide (is_Some (cloudSystem this)) then length calls else 0%nat).
Proof.
  intros Hstar Hupd. exact (updates_dispatch_counts calls this Hstar Hupd).
Qed.

Lemma generation_runs_once_per_epoch_witness :
  exists this' tr,
    run (helpers := demo_helpers)
        [CallUpdate 0.016 vzero false; CallUpdate 0.016 vzero true;
         CallUpdate 0.033 vzero false] demo_sim = Some (this', tr) /\
    count_dispatches ComputeInit tr = 1%nat /\
    count_dispatches ComputeUpdate tr = 3%nat.
Proof.
  destruct (generation_runs_once_per_epoch (helpers := demo_helpers)
              [CallUpdate 0.016 vzero false; CallUpdate 0.016 vzero true;
               CallUpdate 0.033 vzero false] demo_sim)
    as (this' & tr & Hrun & Hci & _ & Hcu & _).
  - simpl. eauto.
  - reflexivity.
  - exists this', tr. split; [exact Hrun|]. split; [exact Hci | exact Hcu].
Defined.

(** X10. The [time] uniform after any sequence of calls that ran without
    throwing is its former value plus the sum of the time steps handed to
    the [update] calls among them; no other method moves it. *)
Theorem time_uniform_accumulates {helpers : Helpers}
    (calls : list call) (this this' : GalaxySimulation) (tr : list event) :
  run calls this = Some (this', tr) ->
  compute_time (compute (uniforms this'))
  = compute_time (compute (uniforms this)) + total_deltaTime calls.
Proof.
  intros Hrun. exact (run_time calls this this' tr Hrun).
Qed.

Lemma time_uniform_accumulates_witness :
  exists this' tr,
    run (helpers := demo_helpers)
        [CallUpdate 0.016 vzero false; CallRegenerate; CallUpdate 0.033 vzero true]
        demo_sim = Some (this', tr) /\
    compute_time (compute (uniforms this'))
    = compute_time (compute (uniforms demo_sim))
      + total_deltaTime
          [CallUpdate 0.016 vzero false; CallRegenerate; CallUpdate 0.033 vzero true].
Proof.
  destruct (run_preserves (helpers := demo_helpers) well_formed) with
    (calls := [CallUpdate 0.016 vzero false; CallRegenerate; CallUpdate 0.033 vzero true])
    (this := demo_sim) as (this' & tr & Hrun & _).
  - intros this ((g & Hg & _) & _). rewrite Hg. eauto.
  - intros c this this' log. apply perform_well_formed.
  - apply (perform_well_formed (helpers := demo_helpers) CallCreateClouds
             (createGalaxySystem (constructor (main_config 2 1))) _ []).
    + apply started_well_formed.
    + reflexivity.
  - exists this', tr. split; [exact Hrun|].
    exact (time_uniform_accumulates _ _ _ _ Hrun).
Defined.

(** ** Parameter changes *)

(** X11. Shape is baked at generation: on an object whose subsystems have
    been generated, an [updateUniforms] that names none of the three physics
    parameters changes nothing of what the next [update] computes: the same
    star and cloud buffers result, and no generation kernel runs. *)
Theorem shape_is_baked_at_generation {helpers : Helpers}
    (this : GalaxySimulation) (g : StarSystem) (cu : ConfigUpdate)
    (deltaTime : R) (mouse3D : vec3) (mousePressed : bool) :
  starSystem this = Some g ->
  initialized this = true ->
  cloudInitialized this = true ->
  leaves_physics cu ->
  exists r1 r2 log,
    update deltaTime mouse3D mousePressed (updateUniforms cu this) = Some (tt, r1, log) /\
    update deltaTime mouse3D mousePressed this = Some (tt, r2, log) /\
    starSystem r1 = starSystem r2 /\
    cloudSystem r1 = cloudSystem r2 /\
    count_dispatches ComputeInit (map Dispatched log) = 0%nat /\
    count_dispatches CloudInit (map Dispatched log) = 0%nat.
Proof.
  intros Hg Hini Hcini (Hspeed & Hforce & Hradius).
  assert (Hg' : starSystem (updateUniforms cu this) = Some g) by exact Hg.
  rewrite (update_computed _ _ _ _ _ Hg'), (update_computed _ _ _ _ _ Hg).
  assert (Hphys : physics_alike
            (uniforms (set_frame_uniforms deltaTime mouse3D mousePressed
                         (updateUniforms cu this)))
            (uniforms (set_frame_uniforms deltaTime mouse3D mousePressed this))).
  { unfold physics_alike. simpl. rewrite Hspeed, Hforce, Hradius. simpl. auto 10. }
  exists (fst (update_outcome deltaTime mouse3D mousePressed (updateUniforms cu this) g)),
         (fst (update_outcome deltaTime mouse3D mousePressed this g)),
         (snd (update_outcome deltaTime mouse3D mousePressed this g)).
  split; [reflexivity|]. split; [reflexivity|].
  unfold update_outcome.
  cbn [fst snd updateUniforms initialized cloudInitialized cloudSystem starSystem].
  rewrite Hini, Hcini. cbn [negb andb app].
  split; [|split].
  - f_equal. unfold run_star. f_equal.
    apply dispatch_ext. intros idx acc. apply computeUpdate_physics. exact Hphys.
  - destruct (cloudSystem this) as [c|]; [|reflexivity]. cbn [option_map].
    f_equal. unfold run_cloud. f_equal.
    apply dispatch_ext. intros idx acc. apply cloudUpdate_physics. exact Hphys.
  - destruct (bool_decide (is_Some (cloudSystem this))); split; reflexivity.
Qed.

Lemma shape_is_baked_at_generation_witness :
  exists r1 r2 log,
    update (helpers := demo_helpers) 0.016 vzero false
      (updateUniforms scenario_update
         (set_cloudInitialized true demo_later_sim)) = Some (tt, r1, log) /\
    update (helpers := demo_helpers) 0.016 vzero false
      (set_cloudInitialized true demo_later_sim) = Some (tt, r2, log) /\
    starSystem r1 = starSystem r2.
Proof.
  destruct (shape_is_baked_at_generation (helpers := demo_helpers)
              (set_cloudInitialized true demo_later_sim)
              {| star_count := 2; star_buffers := demo_pushed_stars |}
              scenario_update 0.016 vzero false)
    as (r1 & r2 & log & H1 & H2 & H3 & _).
  - reflexivity.
  - reflexivity.
  - reflexivity.
  - repeat split.
  - exists r1, r2, log. auto.
Defined.

(** X12. [onRegenerate] followed by [update], on an object with a sized star
    system: all four kernels run, generation first; the shape uniforms are
    the values of the [config] object; the stars are the distribution
    generated under them, advanced by one physics step; and the clouds are
    rebuilt with [config.cloudCount] records, generated and advanced
    likewise. *)
Theorem regenerate_applies_config {helpers : Helpers}
    (this : GalaxySimulation) (g : StarSystem)
    (deltaTime : R) (mouse3D : vec3) (mousePressed : bool) :
  starSystem this = Some g -> star_sized g ->
  let shaped := onRegenerate this in
  exists this' g' c',
    update deltaTime mouse3D mousePressed shaped
      = Some (tt, this', [ComputeInit; CloudInit; ComputeUpdate; CloudUpdate]) /\
    galaxy (uniforms this') = shape_of_config (config this) (galaxy (uniforms this)) /\
    starSystem this' = Some g' /\
    g' = run_star computeUpdate (uniforms this')
           {| star_count := star_count g;
              star_buffers := generated_stars (uniforms shaped) (star_count g) |} /\
    cloudSystem this' = Some c' /\
    c' = run_cloud cloudUpdate (uniforms this')
           {| cloud_count := config_cloudCount (config this);
              cloud_buffers :=
                generated_clouds (uniforms shaped) (config_cloudCount (config this)) |} /\
    cloud_sized c' /\ cloud_count c' = config_cloudCount (config this).
Proof.
  intros Hg Hsized shaped.
  assert (Hg' : starSystem shaped = Some g) by exact Hg.
  assert (Hcsized : cloud_sized
            {| cloud_count := config_cloudCount (config this);
               cloud_buffers :=
                 {| cloudPositionBuffer := instancedArray (config_cloudCount (config this));
                    cloudOriginalPositionBuffer :=
                      instancedArray (config_cloudCount (config this));
                    cloudColorSizeBuffer := instancedArray (config_cloudCount (config this));
                    cloudRotationBuffer :=
                      instancedArray (config_cloudCount (config this)) |} |})
    by (repeat split; apply length_replicate).
  rewrite (update_computed _ _ _ _ _ Hg').
  eexists _, _, _. split; [reflexivity|].
  cbn [update_outcome fst shaped onRegenerate regenerate createClouds initialized
       cloudInitialized cloudSystem starSystem uniforms].
  rewrite (run_star_generated _ _ Hsized).
  split; [reflexivity|]. split; [reflexivity|]. split; [reflexivity|].
  cbn [option_map]. split; [reflexivity|].
  match goal with
  | |- context [run_cloud cloudInit ?u ?c] =>
      change c with {| cloud_count := config_cloudCount (config this);
                       cloud_buffers :=
                         {| cloudPositionBuffer :=
                              instancedArray (config_cloudCount (config this));
                            cloudOriginalPositionBuffer :=
                              instancedArray (config_cloudCount (config this));
                            cloudColorSizeBuffer :=
                              instancedArray (config_cloudCount (config this));
                            cloudRotationBuffer :=
                              instancedArray (config_cloudCount (config this)) |} |};
      rewrite (run_cloud_generated u _ Hcsized)
  end.
  cbn [cloud_count]. split; [reflexivity|]. split; [|reflexivity].
  apply cloud_sized_cloudUpdate. unfold cloud_sized, generated_clouds. cbn.
  rewrite !length_map, !length_seq. auto.
Qed.

Lemma regenerate_applies_config_witness :
  exists this',
    update (helpers := demo_helpers) 0.016 vzero false (onRegenerate demo_later_sim)
      = Some (tt, this', [ComputeInit; CloudInit; ComputeUpdate; CloudUpdate]) /\
    galaxy (uniforms this')
      = shape_of_config (config demo_later_sim) (galaxy (uniforms demo_later_sim)).
Proof.
  destruct (regenerate_applies_config (helpers := demo_helpers) demo_later_sim
              {| star_count := 2; star_buffers := demo_pushed_stars |}
              0.016 vzero false eq_refl demo_pushed_stars_sized)
    as (this' & g' & c' & Hu & Hshape & _).
  exists this'. split; [exact Hu | exact Hshape].
Defined.

(** X13. [onCloudCountChange(n)] followed by [update]: the clouds are
    rebuilt with exactly [n] records (none for [n = 0]), generated afresh
    and advanced by one physics step, and [config.cloudCount] is [n]; the
    stars are not regenerated if they were generated before. *)
Theorem cloud_count_change_rebuilds_clouds {helpers : Helpers}
    (this : GalaxySimulation) (g : StarSystem) (newCount : nat)
    (deltaTime : R) (mouse3D : vec3) (mousePressed : bool) :
  starSystem this = Some g ->
  initialized this = true ->
  let changed := onCloudCountChange newCount this in
  exists this' c',
    update deltaTime mouse3D mousePressed changed
      = Some (tt, this', [CloudInit; ComputeUpdate; CloudUpdate]) /\
    cloudSystem this' = Some c' /\
    c' = run_cloud cloudUpdate (uniforms this')
           {| cloud_count := newCount;
              cloud_buffers := generated_clouds (uniforms changed) newCount |} /\
    cloud_sized c' /\ cloud_count c' = newCount /\
    config_cloudCount (config this') = newCount /\
    starSystem this' = Some (run_star computeUpdate (uniforms this') g).
Proof.
  intros Hg Hini changed.
  assert (Hg' : starSystem changed = Some g) by exact Hg.
  assert (Hcsized : cloud_sized
            {| cloud_count := newCount;
               cloud_buffers :=
                 {| cloudPositionBuffer := instancedArray newCount;
                    cloudOriginalPositionBuffer := instancedArray newCount;
                    cloudColorSizeBuffer := instancedArray newCount;
                    cloudRotationBuffer := instancedArray newCount |} |})
    by (repeat split; apply length_replicate).
  rewrite (update_computed _ _ _ _ _ Hg').
  unfold update_outcome.
  cbn [fst snd changed onCloudCountChange createClouds updateUniforms cloudCount_update
       upd_cloudCount config config_cloudCount set_cloudCount
       initialized cloudInitialized cloudSystem starSystem].
  rewrite Hini. cbn [negb andb app option_map].
  rewrite (run_cloud_generated _ _ Hcsized). cbn [cloud_count].
  eexists _, _. split; [reflexivity|].
  split; [reflexivity|]. split; [reflexivity|].
  split; [|repeat split].
  apply cloud_sized_cloudUpdate. unfold cloud_sized, generated_clouds. cbn.
  rewrite !length_map, !length_seq. auto.
Qed.

Lemma cloud_count_change_rebuilds_clouds_witness :
  exists this' c',
    update (helpers := demo_helpers) 0.016 vzero false
      (onCloudCountChange 0 demo_later_sim)
      = Some (tt, this', [CloudInit; ComputeUpdate; CloudUpdate]) /\
    cloudSystem this' = Some c' /\ cloud_count c' = 0%nat.
Proof.
  destruct (cloud_count_change_rebuilds_clouds (helpers := demo_helpers) demo_later_sim
              {| star_count := 2; star_buffers := demo_pushed_stars |} 0
              0.016 vzero false eq_refl eq_refl)
    as (this' & c' & Hu & Hc & _ & _ & Hn & _).
  exists this', c'. auto.
Defined.

(** ** Successive frames *)

Section FrameRuns.
Context {helpers : Helpers}.

Lemma animate_step (currentTime : R) (app : App) :
  is_Some (starSystem (galaxySimulation app)) ->
  exists app' log,
    animate currentTime app = Some (app', log) /\
    lastFrameTime app' = currentTime /\
    is_Some (starSystem (galaxySimulation app')) /\
    compute_time (compute (uniforms (galaxySimulation app')))
    = compute_time (compute (uniforms (galaxySimulation app)))
      + Rmin ((currentTime - lastFrameTime app) / 1000) 0.033.
Proof.
  intros [g Hg]. unfold animate.
  pose proof (update_computed (Rmin ((currentTime - lastFrameTime app) / 1000) 0.033)
                (mouse3D app) (mousePressed app) _ _ Hg) as Hu.
  rewrite Hu. eexists _, _. split; [reflexivity|].
  destruct (update_sets_deltaTime _ _ _ _ _ _ Hu) as (_ & Htime & Hs).
  cbn [lastFrameTime galaxySimulation]. auto.
Qed.

Lemma last_nonempty {A : Type} (l : list A) (a d d' : A) :
  List.last (a :: l) d = List.last (a :: l) d'.
Proof.
  revert a. induction l as [|b l IH]; intros a; [reflexivity|].
  change (List.last (b :: l) d = List.last (b :: l) d'). apply IH.
Qed.

Lemma run_frames_time (times : list R) (app : App) :
  is_Some (starSystem (galaxySimulation app)) ->
  nondecreasing_from (lastFrameTime app) times ->
  exists app' log,
    run_frames times app = Some (app', log) /\
    lastFrameTime app' = List.last times (lastFrameTime app) /\
    let elapsed :=
      compute_time (compute (uniforms (galaxySimulation app')))
      - compute_time (compute (uniforms (galaxySimulation app))) in
    0 <= elapsed /\
    elapsed <= (lastFrameTime app' - lastFrameTime app) / 1000 /\
    elapsed <= 0.033 * INR (length times).
Proof.
  revert app. induction times as [|t times IH]; intros app Hs Hmono.
  - exists app, []. simpl. repeat split; lra.
  - destruct Hmono as [Ht Hmono].
    destruct (animate_step t app Hs) as (app1 & log1 & Ha & Hlast & Hs1 & Htime).
    rewrite <- Hlast in Hmono.
    destruct (IH app1 Hs1 Hmono) as (app2 & log2 & Hr & Hlast2 & H0 & Hel & Hn).
    exists app2, (log1 ++ log2).
    split; [cbn [run_frames]; rewrite Ha, Hr; reflexivity|].
    split.
    { rewrite Hlast2, Hlast. clear. destruct times as [|r times]; [reflexivity|].
      change (List.last (t :: r :: times) (lastFrameTime app))
        with (List.last (r :: times) (lastFrameTime app)).
      apply last_nonempty. }
    assert (Hmin0 : 0 <= Rmin ((t - lastFrameTime app) / 1000) 0.033)
      by (apply Rmin_glb; lra).
    pose proof (Rmin_l ((t - lastFrameTime app) / 1000) 0.033) as Hl.
    pose proof (Rmin_r ((t - lastFrameTime app) / 1000) 0.033) as Hr'.
    cbv zeta in *. change (length (t :: times)) with (S (length times)).
    rewrite S_INR. rewrite Hlast in *. repeat split; lra.
Qed.

End FrameRuns.

(** X14. Over any number of frames whose clock readings never go back, on
    an application whose star system exists, [animate] never throws, the
    simulated time never decreases, never runs ahead of the wall clock (the
    seconds elapsed since the reading before the first frame) and gains at
    most 0.033 per frame; [lastFrameTime] ends at the last reading. *)
Theorem simulated_time_trails_wall_clock {helpers : Helpers}
    (times : list R) (app : App) :
  is_Some (starSystem (galaxySimulation app)) ->
  nondecreasing_from (lastFrameTime app) times ->
  exists app' log,
    run_frames times app = Some (app', log) /\
    lastFrameTime app' = List.last times (lastFrameTime app) /\
    let elapsed :=
      compute_time (compute (uniforms (galaxySimulation app')))
      - compute_time (compute (uniforms (galaxySimulation app))) in
    0 <= elapsed /\
    elapsed <= (lastFrameTime app' - lastFrameTime app) / 1000 /\
    elapsed <= 0.033 * INR (length times).
Proof.
  intros Hs Hmono. exact (run_frames_time times app Hs Hmono).
Qed.

Lemma simulated_time_trails_wall_clock_witness :
  exists app' log,
    run_frames (helpers := demo_helpers) [16; 32; 5000] demo_app = Some (app', log) /\
    lastFrameTime app' = 5000.
Proof.
  destruct (simulated_time_trails_wall_clock (helpers := demo_helpers)
              [16; 32; 5000] demo_app)
    as (app' & log & Hr & Hlast & _).
  - simpl. eauto.
  - simpl. lra.
  - exists app', log. split; [exact Hr | exact Hlast].
Defined.

(** ** The star count kept across reloads *)

Lemma Qfloor_unique (x : Q) (z : Z) :
  (inject_Z z <= x)%Q -> (x < inject_Z (z + 1))%Q -> Qfloor x = z.
Proof.
  intros Hle Hlt.
  pose proof (Qfloor_le x) as Hf. pose proof (Qlt_floor x) as Hf'.
  assert (H1 : (Qfloor x < z + 1)%Z).
  { rewrite Zlt_Qlt. eapply Qle_lt_trans; [exact Hf | exact Hlt]. }
  assert (H2 : (z < Qfloor x + 1)%Z).
  { rewrite Zlt_Qlt. eapply Qle_lt_trans; [exact Hle | exact Hf']. }
  lia.
Qed.

Lemma Math_round_bounds (x : Q) :
  (x - (1 # 2) < inject_Z (Math_round x))%Q /\ (inject_Z (Math_round x) <= x + (1 # 2))%Q.
Proof.
  unfold Math_round.
  pose proof (Qfloor_le (x + (1 # 2))) as Hf. pose proof (Qlt_floor (x + (1 # 2))) as Hf'.
  rewrite inject_Z_plus in Hf'. change (inject_Z 1) with (1 # 1)%Q in Hf'.
  split; [Lqa.lra | exact Hf].
Qed.

Lemma Math_round_integer (k : Z) : Math_round (inject_Z k) = k.
Proof.
  unfold Math_round. apply Qfloor_unique.
  - Lqa.lra.
  - rewrite inject_Z_plus. change (inject_Z 1) with (1 # 1)%Q. Lqa.lra.
Qed.

Lemma Math_round_monotone (x y : Q) : (x <= y)%Q -> (Math_round x <= Math_round y)%Z.
Proof.
  intros Hxy. unfold Math_round. apply Qfloor_resp_le. Lqa.lra.
Qed.

Lemma clampStarCount_thousands (k : Z) :
  (1 <= k <= 1000)%Z -> clampStarCount (inject_Z (k * 1000)) = (k * 1000)%Z.
Proof.
  intros Hk. unfold clampStarCount.
  assert (Hq : (inject_Z (k * 1000) / 1000 == inject_Z k)%Q).
  { rewrite inject_Z_mult. field. }
  unfold Math_round. rewrite Hq. fold (Math_round (inject_Z k)).
  rewrite Math_round_integer. lia.
Qed.

Lemma clampStarCount_shape (x : Q) :
  exists k : Z, (1 <= k <= 1000)%Z /\ clampStarCount x = (k * 1000)%Z.
Proof.
  unfold clampStarCount. set (r := Math_round (x / 1000)).
  destruct (Z_lt_le_dec r 1) as [Hlow|Hlow].
  - exists 1%Z. split; lia.
  - destruct (Z_lt_le_dec 1000 r) as [Hhigh|Hhigh].
    + exists 1000%Z. split; lia.
    + exists r. split; lia.
Qed.

Lemma star_count_clamp_is_stable_aux (x : Q) :
  (1000 <= clampStarCount x <= 1000000)%Z /\
  clampStarCount (inject_Z (clampStarCount x)) = clampStarCount x.
Proof.
  destruct (clampStarCount_shape x) as (j & Hj & Hx).
  split; [lia|]. rewrite Hx. apply clampStarCount_thousands. exact Hj.
Qed.

(** X15. The star count both the restore block and [onStarCountChange]
    compute from a finite number is a multiple of 1000 between 1000 and
    1 000 000; computing it again from the result changes nothing; a larger
    request never gives a smaller count; and every multiple of 1000 in the
    range is kept as it is. *)
Theorem star_count_clamp_is_stable (x y : Q) (k : Z) :
  (1000 <= clampStarCount x <= 1000000)%Z /\
  (clampStarCount x mod 1000 = 0)%Z /\
  clampStarCount (inject_Z (clampStarCount x)) = clampStarCount x /\
  ((x <= y)%Q -> (clampStarCount x <= clampStarCount y)%Z) /\
  ((1 <= k <= 1000)%Z -> clampStarCount (inject_Z (k * 1000)) = (k * 1000)%Z).
Proof.
  destruct (clampStarCount_shape x) as (j & Hj & Hx).
  split; [lia|]. split; [rewrite Hx; apply Z_mod_mult|].
  split; [rewrite Hx; apply clampStarCount_thousands; exact Hj|].
  split; [|apply clampStarCount_thousands].
  intros Hxy. unfold clampStarCount.
  assert (Hr : (Math_round (x / 1000) <= Math_round (y / 1000))%Z).
  { apply Math_round_monotone. apply Qmult_le_compat_r; [exact Hxy | discriminate]. }
  lia.
Qed.

(** X16. For a request between 1000 and 1 000 000 the count is the nearest
    multiple of 1000: it differs from the request by at most 500. *)
Theorem star_count_clamp_is_nearest (x : Q) :
  (1000 <= x)%Q -> (x <= 1000000)%Q ->
  clampStarCount x = (Math_round (x / 1000) * 1000)%Z /\
  (x - 500 < inject_Z (clampStarCount x))%Q /\
  (inject_Z (clampStarCount x) <= x + 500)%Q.
Proof.
  intros Hlow Hhigh.
  assert (Hc0 : clampStarCount x
                = Z.min 1000000 (Z.max 1000 (Math_round (x / 1000) * 1000))) by reflexivity.
  destruct (Math_round_bounds (x / 1000)) as [Hb1 Hb2].
  assert (Hx : (x == (x / 1000) * 1000)%Q) by field.
  generalize dependent (Math_round (x / 1000)). intros r Hc0 Hb1 Hb2.
  generalize dependent (x / 1000)%Q. intros q Hx Hb1 Hb2.
  assert (Hq1 : (1000 <= q * 1000)%Q) by (rewrite <- Hx; exact Hlow).
  assert (Hq2 : (q * 1000 <= 1000000)%Q) by (rewrite <- Hx; exact Hhigh).
  assert (Hr1 : (0 < r)%Z).
  { rewrite Zlt_Qlt. change (inject_Z 0) with (0 # 1)%Q. Lqa.lra. }
  assert (Hr2 : (r < 1001)%Z).
  { rewrite Zlt_Qlt. change (inject_Z 1001) with (1001 # 1)%Q. Lqa.lra. }
  assert (Hc : clampStarCount x = (r * 1000)%Z) by lia.
  split; [exact Hc|]. rewrite Hc, inject_Z_mult.
  change (inject_Z 1000) with (1000 # 1)%Q. rewrite Hx.
  split; Lqa.lra.
Qed.

Lemma star_count_clamp_is_nearest_witness :
  clampStarCount (123456 # 1) = 123000%Z.
Proof.
  destruct (star_count_clamp_is_nearest (123456 # 1)) as (Hc & _ & _).
  - discriminate.
  - discriminate.
  - rewrite Hc. reflexivity.
Defined.

Lemma decimal_round_trip (z : Z) : decimal_Number (decimal_String z) = Some (inject_Z z).
Proof.
  unfold decimal_Number, decimal_String.
  rewrite NilEmpty.isi. simpl. rewrite DecimalZ.of_to. reflexivity.
Qed.

(** X17. A star count chosen in the panel survives the reload: if
    [Number(String(n)) = n] for the integers in range, the restore block
    run on the storage [onStarCountChange] left sets [config.starCount] to
    the clamped request.  Whatever finite number is stored, the restored
    count is a multiple of 1000 between 1000 and 1 000 000; with no item
    stored, or one that is not a finite number, [config] is left as it
    is. *)
Theorem star_count_survives_reload
    (Number : string -> option Q) (String : Z -> string)
    (newCount : Q) (sessionStorage : gmap string string) (config : Config) :
  (forall z, (1000 <= z <= 1000000)%Z -> Number (String z) = Some (inject_Z z)) ->
  config_starCount
    (restoreStarCount Number (onStarCountChange_store String newCount sessionStorage) config)
    = Z.to_nat (clampStarCount newCount) /\
  (forall s q, sessionStorage !! STARCOUNT_STORAGE_KEY = Some s -> Number s = Some q ->
     exists k : nat, (1 <= k <= 1000)%nat /\
       config_starCount (restoreStarCount Number sessionStorage config) = (k * 1000)%nat) /\
  (sessionStorage !! STARCOUNT_STORAGE_KEY = None ->
     restoreStarCount Number sessionStorage config = config) /\
  (forall s, sessionStorage !! STARCOUNT_STORAGE_KEY = Some s -> Number s = None ->
     restoreStarCount Number sessionStorage config = config).
Proof.
  intros Hround.
  destruct (star_count_clamp_is_stable_aux newCount) as (Hrange & Hidem).
  split; [|split; [|split]].
  - unfold restoreStarCount, onStarCountChange_store.
    rewrite lookup_insert_eq, (Hround _ Hrange). cbn [config_starCount set_starCount].
    rewrite Hidem. reflexivity.
  - intros s q Hs Hq. unfold restoreStarCount. rewrite Hs, Hq.
    cbn [config_starCount set_starCount].
    destruct (clampStarCount_shape q) as (k & Hk & ->).
    exists (Z.to_nat k). split; [lia|].
    rewrite Z2Nat.inj_mul by lia. reflexivity.
  - intros Hnone. unfold restoreStarCount. rewrite Hnone. reflexivity.
  - intros s Hs Hnan. unfold restoreStarCount. rewrite Hs, Hnan. reflexivity.
Qed.

Lemma star_count_survives_reload_witness :
  config_starCount
    (restoreStarCount decimal_Number
       (onStarCountChange_store decimal_String (123456 # 1) ∅) (main_config 2 1))
  = Z.to_nat (clampStarCount (123456 # 1)).
Proof.
  apply (star_count_survives_reload decimal_Number decimal_String (123456 # 1) ∅
           (main_config 2 1)).
  intros z _. apply decimal_round_trip.
Defined.

(** ** The FPS counter *)

Lemma frames_per_second_bound (n : Z) (dt : Q) :
  (0 <= n)%Z -> (1000 <= dt)%Q ->
  (0 <= Math_round (inject_Z (n * 1000) / dt) <= n)%Z.
Proof.
  intros Hn Hdt.
  assert (Hpos : (0 < dt)%Q) by Lqa.lra.
  assert (Hn0 : (inject_Z 0 <= inject_Z n)%Q) by (rewrite <- Zle_Qle; exact Hn).
  change (inject_Z 0) with (0 # 1)%Q in Hn0.
  assert (Hq : (0 <= inject_Z (n * 1000) / dt)%Q /\ (inject_Z (n * 1000) / dt <= inject_Z n)%Q).
  { rewrite inject_Z_mult. change (inject_Z 1000) with (1000 # 1)%Q. split.
    - apply Qle_shift_div_l; [exact Hpos|]. Lqa.lra.
    - apply Qle_shift_div_r; [exact Hpos|]. Lqa.nra. }
  destruct Hq as [Hq0 Hq1].
  destruct (Math_round_bounds (inject_Z (n * 1000) / dt)) as [Hb1 Hb2].
  generalize dependent (Math_round (inject_Z (n * 1000) / dt)). intros r Hb1 Hb2.
  generalize dependent (inject_Z (n * 1000) / dt)%Q. intros q Hq0 Hq1 Hb1 Hb2.
  split.
  - assert (H : (-1 < r)%Z); [|lia].
    rewrite Zlt_Qlt. change (inject_Z (-1)) with (-1 # 1)%Q. Lqa.lra.
  - assert (H : (r < n + 1)%Z); [|lia].
    rewrite Zlt_Qlt, inject_Z_plus. change (inject_Z 1) with (1 # 1)%Q. Lqa.lra.
Qed.

(** X18. One call of [updateFPS] with [frameCount >= 0].  Less than a
    second after the last report it only counts the frame: the rate, the
    value shown in the panel and [lastTime] stay.  From a second on it
    reports: the counter restarts at 0, [lastTime] is the current reading,
    the panel shows the new rate, and the rate lies between 0 and the
    number of frames counted; it is exactly that number when the interval
    is one second. *)
Theorem fps_counter_reports_once_a_second (currentTime : Q) (c : FpsCounter) :
  (0 <= frameCount c)%Z ->
  let c' := updateFPS currentTime c in
  (0 <= frameCount c')%Z /\
  ((currentTime - lastTime c < 1000)%Q ->
     frameCount c' = (frameCount c + 1)%Z /\ fps c' = fps c /\
     perfParams_fps c' = perfParams_fps c /\ lastTime c' = lastTime c) /\
  ((1000 <= currentTime - lastTime c)%Q ->
     frameCount c' = 0%Z /\ lastTime c' = currentTime /\
     perfParams_fps c' = fps c' /\
     (0 <= fps c' <= frameCount c + 1)%Z) /\
  ((currentTime - lastTime c == 1000)%Q -> fps c' = (frameCount c + 1)%Z).
Proof.
  intros Hcount c'. subst c'. unfold updateFPS.
  destruct (Qle_bool 1000 (currentTime - lastTime c)) eqn:Hb.
  - apply Qle_bool_iff in Hb. cbn [frameCount lastTime fps perfParams_fps].
    split; [lia|]. split; [intros Hlt; Lqa.lra|].
    split.
    + intros _. repeat split; apply frames_per_second_bound; (lia || exact Hb).
    + intros Heq.
      assert (Hq : (inject_Z ((frameCount c + 1) * 1000) / (currentTime - lastTime c)
                    == inject_Z (frameCount c + 1))%Q).
      { rewrite Heq, inject_Z_mult. change (inject_Z 1000) with (1000 # 1)%Q. field. }
      unfold Math_round. rewrite Hq. apply Math_round_integer.
  - assert (Hlt : ~ (1000 <= currentTime - lastTime c)%Q).
    { intros Hle. apply Qle_bool_iff in Hle. congruence. }
    cbn [frameCount lastTime fps perfParams_fps]. split; [lia|]. split; [auto|].
    split; [intros Hle; contradiction|].
    intros Heq. exfalso. apply Hlt. rewrite Heq. apply Qle_refl.
Qed.

Lemma fps_counter_reports_once_a_second_witness :
  fps (updateFPS (2000 # 1)
         {| frameCount := 59; lastTime := 1000 # 1; fps := 60; perfParams_fps := 60 |})
  = 60%Z.
Proof.
  apply (fps_counter_reports_once_a_second (2000 # 1)
           {| frameCount := 59; lastTime := 1000 # 1; fps := 60; perfParams_fps := 60 |}).
  - simpl. lia.
  - reflexivity.
Defined.

(** ** The skybox *)

Section SkyboxCycle.
Variable skyboxes : list (string * list string).

Lemma setSkybox_panel (type : string) (p : Page) :
  skyboxOrder (setSkybox skyboxes type p) = skyboxOrder p /\
  currentSkyboxIndex (setSkybox skyboxes type p) = currentSkyboxIndex p /\
  skyboxLabel (setSkybox skyboxes type p) = skyboxLabel p /\
  (config_skybox p = type -> config_skybox (setSkybox skyboxes type p) = type).
Proof.
  unfold setSkybox.
  destruct ((list_to_map skyboxes : gmap string (list string)) !! type); simpl; auto.
Qed.

Lemma cycleSkybox_step (p : Page) :
  (0 < length (skyboxOrder p))%nat ->
  let q := cycleSkybox skyboxes p in
  skyboxOrder q = skyboxOrder p /\
  currentSkyboxIndex q = ((currentSkyboxIndex p + 1) mod length (skyboxOrder p))%nat /\
  skyboxOrder q !! currentSkyboxIndex q = Some (config_skybox q) /\
  (is_Some (skyboxLabel p) -> skyboxLabel q = Some (currentSkyboxIndex q + 1)%nat) /\
  (skyboxLabel p = None -> skyboxLabel q = None).
Proof.
  intros Hlen q. subst q. unfold cycleSkybox.
  rewrite bool_decide_eq_false_2 by lia.
  set (index := ((currentSkyboxIndex p + 1) mod length (skyboxOrder p))%nat).
  assert (Hindex : (index < length (skyboxOrder p))%nat)
    by (apply Nat.mod_upper_bound; lia).
  destruct (lookup_lt_is_Some_2 _ _ Hindex) as [next Hnext]. rewrite Hnext.
  set (p1 := {| skyboxOrder := skyboxOrder p; currentSkyboxIndex := index;
                skyboxLabel := skyboxLabel p; config_skybox := next;
                loadedSkyboxes := loadedSkyboxes p;
                scene_background := scene_background p; cubeLoads := cubeLoads p |}).
  destruct (setSkybox_panel next p1) as (Ho & Hi & Hl & Hc).
  unfold updateSkyboxLabel. cbn [skyboxOrder currentSkyboxIndex skyboxLabel config_skybox].
  rewrite Ho, Hi, Hl, (Hc eq_refl). cbn [p1 skyboxOrder currentSkyboxIndex skyboxLabel].
  repeat split; try assumption.
  - intros [l Hlab]. rewrite Hlab. reflexivity.
  - intros ->. reflexivity.
Qed.

Lemma cycleSkybox_iter (n : nat) (p : Page) :
  (currentSkyboxIndex p < length (skyboxOrder p))%nat ->
  let q := Nat.iter n (cycleSkybox skyboxes) p in
  skyboxOrder q = skyboxOrder p /\
  currentSkyboxIndex q = ((currentSkyboxIndex p + n) mod length (skyboxOrder p))%nat /\
  ((1 <= n)%nat -> skyboxOrder q !! currentSkyboxIndex q = Some (config_skybox q)) /\
  ((1 <= n)%nat -> is_Some (skyboxLabel p) ->
   skyboxLabel q = Some (currentSkyboxIndex q + 1)%nat).
Proof.
  intros Hidx. induction n as [|n IH]; cbn zeta.
  - simpl. rewrite Nat.add_0_r, Nat.mod_small by exact Hidx.
    repeat split; intros; lia.
  - cbn zeta in IH. destruct IH as (Ho & Hi & _ & Hlab). rewrite !Nat.iter_succ.
    set (r := Nat.iter n (cycleSkybox skyboxes) p) in *.
    assert (Hlen : (0 < length (skyboxOrder r))%nat) by (rewrite Ho; lia).
    destruct (cycleSkybox_step r Hlen) as (Ho' & Hi' & Hcfg & Hl1 & Hl2).
    split; [congruence|].
    split; [rewrite Hi', Ho, Hi, Nat.Div0.add_mod_idemp_l; f_equal; lia|].
    split; [intros _; exact Hcfg|].
    intros _ Hsome. apply Hl1.
    destruct n as [|n]; [exact Hsome|].
    rewrite (Hlab ltac:(lia) Hsome). eauto.
Qed.

End SkyboxCycle.

(** X19. [cycleSkybox] walks the skybox order in a circle.  With an index
    inside a non-empty order, [n] clicks leave the index at
    [(index + n) mod length], so as many clicks as there are skyboxes lead
    back to the start; after a click [config.skybox] is the entry at the
    index, and the label, when the page has one, shows the index counted
    from 1.  With an empty order a click changes nothing. *)
Theorem skybox_cycle_is_circular
    (skyboxes : list (string * list string)) (n : nat) (p : Page) :
  (currentSkyboxIndex p < length (skyboxOrder p))%nat ->
  let q := Nat.iter n (cycleSkybox skyboxes) p in
  skyboxOrder q = skyboxOrder p /\
  currentSkyboxIndex q = ((currentSkyboxIndex p + n) mod length (skyboxOrder p))%nat /\
  (currentSkyboxIndex q < length (skyboxOrder q))%nat /\
  ((1 <= n)%nat -> skyboxOrder q !! currentSkyboxIndex q = Some (config_skybox q)) /\
  ((1 <= n)%nat -> is_Some (skyboxLabel p) ->
   skyboxLabel q = Some (currentSkyboxIndex q + 1)%nat) /\
  currentSkyboxIndex (Nat.iter (length (skyboxOrder p)) (cycleSkybox skyboxes) p)
    = currentSkyboxIndex p /\
  (forall e : Page, skyboxOrder e = [] -> cycleSkybox skyboxes e = e).
Proof.
  intros Hidx q.
  destruct (cycleSkybox_iter skyboxes n p Hidx) as (Ho & Hi & Hcfg & Hlab).
  fold q in Ho, Hi, Hcfg, Hlab.
  split; [exact Ho|]. split; [exact Hi|].
  split; [rewrite Hi, Ho; apply Nat.mod_upper_bound; lia|].
  split; [exact Hcfg|]. split; [exact Hlab|].
  split.
  - destruct (cycleSkybox_iter skyboxes (length (skyboxOrder p)) p Hidx) as (_ & Hfull & _).
    cbn zeta in Hfull. rewrite Hfull.
    replace (currentSkyboxIndex p + length (skyboxOrder p))%nat
      with (currentSkyboxIndex p + 1 * length (skyboxOrder p))%nat by lia.
    rewrite Nat.Div0.mod_add. apply Nat.mod_small. exact Hidx.
  - intros e He. unfold cycleSkybox. rewrite He. reflexivity.
Qed.

Lemma skybox_cycle_is_circular_witness :
  currentSkyboxIndex (Nat.iter (length (skyboxOrder demo_page))
                        (cycleSkybox main_skyboxes) demo_page)
  = currentSkyboxIndex demo_page.
Proof.
  apply (skybox_cycle_is_circular main_skyboxes 1 demo_page).
  simpl. lia.
Defined.

Section SkyboxCache.
Variable skyboxes : list (string * list string).
Hypothesis skyboxes_keys : NoDup skyboxes.*1.

Abbreviation table := (list_to_map skyboxes : gmap string (list string)).







End SkyboxCache.




(** ** The background stars *)

Section BackgroundStars.
Variable random : nat -> R.

Lemma triple_insert (pre l : list R) (n : nat) (a b c : R) :
  length pre = (n * 3)%nat -> (n * 3 + 3 <= length l)%nat ->
  <[(n * 3 + 2)%nat := c]>
    (<[(n * 3 + 1)%nat := b]> (<[(n * 3)%nat := a]> (pre ++ drop (n * 3) l)))
  = (pre ++ [a; b; c]) ++ drop (S n * 3) l.
Proof.
  intros Hpre Hlen.
  rewrite (insert_prefix pre l (n * 3) a) by lia.
  replace (S (n * 3)) with (n * 3 + 1)%nat by lia.
  rewrite (insert_prefix (pre ++ [a]) l (n * 3 + 1) b)
    by (try rewrite length_app; simpl; lia).
  replace (S (n * 3 + 1)) with (n * 3 + 2)%nat by lia.
  rewrite (insert_prefix ((pre ++ [a]) ++ [b]) l (n * 3 + 2) c)
    by (try rewrite !length_app; simpl; lia).
  replace (S (n * 3 + 2)) with (S n * 3)%nat by lia.
  rewrite <- !app_assoc. reflexivity.
Qed.

Lemma length_flat_map_triples (f : nat -> list R) (n : nat) :
  (forall i, length (f i) = 3%nat) ->
  length (flat_map f (seq 0 n)) = (n * 3)%nat.
Proof.
  intros Hf. induction n as [|n IH]; [reflexivity|].
  rewrite seq_S, flat_map_app, length_app, IH. simpl. rewrite app_nil_r, Hf. lia.
Qed.

Lemma starry_loop (n : nat) (positions colors : list R) :
  (n * 3 <= length positions)%nat -> (n * 3 <= length colors)%nat ->
  foldl (fun arrays i => starry_step random i arrays) (positions, colors) (seq 0 n)
  = (flat_map (starry_position random) (seq 0 n) ++ drop (n * 3) positions,
     flat_map (starry_color random) (seq 0 n) ++ drop (n * 3) colors).
Proof.
  induction n as [|n IH]; intros Hp Hc.
  - simpl. rewrite !drop_0. reflexivity.
  - rewrite seq_S, foldl_app, IH by lia. cbn [foldl Nat.add].
    unfold starry_step. cbn [fst snd].
    rewrite !triple_insert
      by (try apply length_flat_map_triples; try reflexivity; lia).
    rewrite !flat_map_app. cbn [flat_map]. rewrite !app_nil_r. reflexivity.
Qed.

Lemma lookup_flat_map_triples (f : nat -> list R) (n i k : nat) :
  (forall j, length (f j) = 3%nat) ->
  (i < n)%nat -> (k < 3)%nat ->
  flat_map f (seq 0 n) !! (i * 3 + k)%nat = f i !! k.
Proof.
  intros Hf Hi Hk. induction n as [|n IH]; [lia|].
  rewrite seq_S, flat_map_app. cbn [flat_map Nat.add]. rewrite app_nil_r.
  destruct (decide (i = n)) as [->|Hne].
  - rewrite lookup_app_r by (rewrite length_flat_map_triples by exact Hf; lia).
    rewrite length_flat_map_triples by exact Hf. f_equal. lia.
  - rewrite lookup_app_l by (rewrite length_flat_map_triples by exact Hf; lia).
    apply IH. lia.
Qed.

Lemma createStarryBackground_arrays (count : nat) :
  createStarryBackground random count
  = (flat_map (starry_position random) (seq 0 count),
     flat_map (starry_color random) (seq 0 count)).
Proof.
  unfold createStarryBackground.
  rewrite starry_loop by (rewrite length_replicate; lia).
  rewrite !drop_ge, !app_nil_r by (rewrite length_replicate; lia). reflexivity.
Qed.

End BackgroundStars.

(** X21. [createStarryBackground] with draws in [[0, 1)]: both arrays have
    [3 * count] entries; star [i] sits at the distance
    [150 + 50 * (third draw)] from the origin, between 150 and 200, at the
    height [radius * (2 * (second draw) - 1)]; and its three colour
    channels are one grey value between 0.8 and 1. *)
Theorem background_stars_on_shell (random : nat -> R) (count i : nat) :
  (forall k, 0 <= random k < 1) ->
  (i < count)%nat ->
  let starPositions := fst (createStarryBackground random count) in
  let starColors := snd (createStarryBackground random count) in
  let radius := 150 + random (4 * i + 2)%nat * 50 in
  length starPositions = (count * 3)%nat /\
  length starColors = (count * 3)%nat /\
  (exists x y z,
     starPositions !! (i * 3)%nat = Some x /\
     starPositions !! (i * 3 + 1)%nat = Some y /\
     starPositions !! (i * 3 + 2)%nat = Some z /\
     sqrt (x * x + y * y + z * z) = radius /\
     z = radius * (2 * random (4 * i + 1)%nat - 1)) /\
  150 <= radius < 200 /\
  (exists color,
     starColors !! (i * 3)%nat = Some color /\
     starColors !! (i * 3 + 1)%nat = Some color /\
     starColors !! (i * 3 + 2)%nat = Some color /\
     0.8 <= color < 1).
Proof.
  intros Hrandom Hi starPositions starColors radius.
  subst starPositions starColors. rewrite createStarryBackground_arrays. cbn [fst snd].
  pose proof (Hrandom (4 * i + 1)%nat) as H1.
  pose proof (Hrandom (4 * i + 2)%nat) as H2.
  pose proof (Hrandom (4 * i + 3)%nat) as H3.
  assert (Hlp : forall j, length (starry_position random j) = 3%nat) by reflexivity.
  assert (Hlc : forall j, length (starry_color random j) = 3%nat) by reflexivity.
  split; [apply length_flat_map_triples; exact Hlp|].
  split; [apply length_flat_map_triples; exact Hlc|].
  split; [|split; [subst radius; lra|]].
  - eexists _, _, _.
    split; [rewrite <- (Nat.add_0_r (i * 3));
            rewrite (lookup_flat_map_triples _ _ i 0 Hlp Hi) by lia; reflexivity|].
    split; [rewrite (lookup_flat_map_triples _ _ i 1 Hlp Hi) by lia; reflexivity|].
    split; [rewrite (lookup_flat_map_triples _ _ i 2 Hlp Hi) by lia; reflexivity|].
    fold radius.
    set (theta := random (4 * i)%nat * PI * 2).
    set (phi := acos (2 * random (4 * i + 1)%nat - 1)).
    split.
    + pose proof (sin2_cos2 theta) as Ht. pose proof (sin2_cos2 phi) as Hp.
      unfold Rsqr in Ht, Hp.
      replace (radius * sin phi * cos theta * (radius * sin phi * cos theta)
               + radius * sin phi * sin theta * (radius * sin phi * sin theta)
               + radius * cos phi * (radius * cos phi))
        with (radius * radius
              * (sin phi * sin phi * (sin theta * sin theta + cos theta * cos theta)
                 + cos phi * cos phi)) by ring.
      rewrite Ht, Rmult_1_r, Hp, Rmult_1_r. apply sqrt_square. subst radius. lra.
    + subst phi. rewrite cos_acos by lra. reflexivity.
  - eexists.
    split; [rewrite <- (Nat.add_0_r (i * 3));
            rewrite (lookup_flat_map_triples _ _ i 0 Hlc Hi) by lia; reflexivity|].
    split; [rewrite (lookup_flat_map_triples _ _ i 1 Hlc Hi) by lia; reflexivity|].
    split; [rewrite (lookup_flat_map_triples _ _ i 2 Hlc Hi) by lia; reflexivity|].
    lra.
Qed.

Lemma background_stars_on_shell_witness :
  length (fst (createStarryBackground (fun _ => 1 / 2) 3)) = (3 * 3)%nat.
Proof.
  apply (background_stars_on_shell (fun _ => 1 / 2) 3 1).
  - intros k. lra.
  - lia.
Defined.

Lemma star_count_clamp_is_stable_witness :
  (clampStarCount (1500 # 1) <= clampStarCount (2500 # 1))%Z.
Proof.
  destruct (star_count_clamp_is_stable (1500 # 1) (2500 # 1) 1) as (_ & _ & _ & Hmono & _).
  apply Hmono. unfold Qle. simpl. lia.
Defined.
